(** * arxiv_rss_bot: the deduplicated publishing pipeline

    A shallow embedding of [main.py] (the retrying fetch loop of
    [run_pipeline]) and of [notion_publisher.py] (publish ledger, schema
    reconciliation, description parsing, keyword matching, publish and
    backfill), followed by the properties of the specification.

    Conventions of the embedding:
    - a Python [str] is the [string] of its UTF-8 bytes; the case mappings
      [str.lower] and [str.upper] are Unicode tables of the interpreter and
      not code of this repository: the program is modelled over any pair of
      such functions (class [PyUnicode]); [strip] and [split()] remove the
      ASCII white space;
    - a JSON object / Python [dict] whose iteration order is observable is
      an association list with unique keys, in insertion order; the dict
      [page_by_title], which is only looked up, is a [gmap];
    - the Python [set] of published guids is a [gset]; the order in which
      [list(published_guids)] is written to the file is not specified in
      Python and is immaterial here;
    - the remote sink is a state machine given by its five operations; every
      request gets an HTTP response with a status (a call of [requests]
      that raises is outside the model), and every request sent is appended
      to a trace;
    - the ledger file is either missing, unreadable as JSON, or a JSON
      object whose [published_guids], when present, is a list of strings and
      nulls; the fate of the write at the end of a batch is an input;
    - [load_config], [get_latest_rss_file], [parse_rss_file], the XML parser
      and [parsedate_to_datetime] are inputs;
    - the two [while] loops that need not terminate ([query_database_pages]
      and the retry loop of [run_pipeline]) take a bound on their
      iterations. *)

From Stdlib Require Import ZArith List Ascii String Bool Lia.
From stdpp Require Import base gmap sets list strings.

Local Open Scope Z_scope.

(* ===================================================================== *)
(** ** Python string primitives used by the program                      *)
(* ===================================================================== *)

Module PyStr.

(** Truthiness of a string: non-empty. *)
Definition truthy (s : string) : bool :=
  match s with EmptyString => false | String _ _ => true end.

Definition is_upper (c : ascii) : bool :=
  let n := nat_of_ascii c in Nat.leb 65 n && Nat.leb n 90.

Definition is_lower (c : ascii) : bool :=
  let n := nat_of_ascii c in Nat.leb 97 n && Nat.leb n 122.

(** A byte below 128: a character of ASCII, encoded by itself. *)
Definition is_ascii (c : ascii) : bool := Nat.ltb (nat_of_ascii c) 128.

Definition lower_char (c : ascii) : ascii :=
  if is_upper c then ascii_of_nat (nat_of_ascii c + 32) else c.

Definition upper_char (c : ascii) : ascii :=
  if is_lower c then ascii_of_nat (nat_of_ascii c - 32) else c.

(** The lower-casing of the letters A to Z, every other byte kept: what
    [s.lower()] is on ASCII text. The program's two tests of the form
    [line.lower().startswith(p)], with [p] one of "authors:" and
    "categories:", decide with it as they do with [str.lower]: the only
    characters outside ASCII whose lower-case form holds an ASCII
    character are U+0130 (an i followed by a combining dot) and U+212A
    (a k), and neither can take part in one of these two prefixes. *)
Fixpoint lower (s : string) : string :=
  match s with
  | EmptyString => EmptyString
  | String c r => String (lower_char c) (lower r)
  end.

(** The upper-casing of the letters a to z, every other byte kept. *)
Fixpoint upper (s : string) : string :=
  match s with
  | EmptyString => EmptyString
  | String c r => String (upper_char c) (upper r)
  end.

(** Number of bytes of the UTF-8 sequence that the byte [c] starts. *)
Definition utf8_width (c : ascii) : nat :=
  let n := nat_of_ascii c in
  if Nat.ltb n 192 then 1%nat
  else if Nat.ltb n 224 then 2%nat
  else if Nat.ltb n 240 then 3%nat
  else 4%nat.

(** Characters removed by [str.strip()] with no argument (ASCII range):
    TAB, LF, VT, FF, CR, FS, GS, RS, US and space. *)
Definition is_space (c : ascii) : bool :=
  let n := nat_of_ascii c in
  (Nat.leb 9 n && Nat.leb n 13) || (Nat.leb 28 n && Nat.leb n 32).

Fixpoint lstrip_by (p : ascii -> bool) (s : string) : string :=
  match s with
  | EmptyString => EmptyString
  | String c r => if p c then lstrip_by p r else s
  end.

Definition rstrip_by (p : ascii -> bool) (s : string) : string :=
  String.rev (lstrip_by p (String.rev s)).

(** [s.strip()] *)
Definition strip (s : string) : string :=
  rstrip_by is_space (lstrip_by is_space s).

(** [s.rstrip("/")] *)
Definition rstrip_slash (s : string) : string :=
  rstrip_by (fun c => Ascii.eqb c "/") s.

(** [s.startswith(p)] *)
Fixpoint startswith (p s : string) : bool :=
  match p, s with
  | EmptyString, _ => true
  | String a p', String b s' => Ascii.eqb a b && startswith p' s'
  | String _ _, EmptyString => false
  end.

(** [p in s] *)
Fixpoint contains (p s : string) : bool :=
  startswith p s ||
  match s with
  | EmptyString => false
  | String _ s' => contains p s'
  end.

(** [s.split(sep)] for a one-character separator: never the empty list. *)
Fixpoint split (sep : ascii) (s : string) : list string :=
  match s with
  | EmptyString => [EmptyString]
  | String c r =>
      if Ascii.eqb c sep then EmptyString :: split sep r
      else match split sep r with
           | [] => [String c EmptyString]
           | w :: ws => String c w :: ws
           end
  end.

(** [s.split(sep, 1)]: one or two pieces. *)
Fixpoint split1 (sep : ascii) (s : string) : list string :=
  match s with
  | EmptyString => [EmptyString]
  | String c r =>
      if Ascii.eqb c sep then [EmptyString; r]
      else match split1 sep r with
           | [] => [String c EmptyString]
           | w :: ws => String c w :: ws
           end
  end.

(** [sep.join(l)] *)
Fixpoint join (sep : string) (l : list string) : string :=
  match l with
  | [] => EmptyString
  | [x] => x
  | x :: rest => x +:+ sep +:+ join sep rest
  end.

(** [s[:n]] *)
Fixpoint take (n : nat) (s : string) : string :=
  match n, s with
  | O, _ => EmptyString
  | S _, EmptyString => EmptyString
  | S n', String c r => String c (take n' r)
  end.

(** [s[0]] for a non-empty [s]: its first character, that is the bytes
    of its first UTF-8 sequence. *)
Definition item0 (s : string) : string :=
  match s with
  | EmptyString => EmptyString
  | String c _ => take (utf8_width c) s
  end.

(** Specification-side notion of substring. *)
Definition Substring (p s : string) : Prop :=
  exists pre post, s = pre +:+ p +:+ post.

End PyStr.

(** The case mappings of the interpreter, [str.lower] and [str.upper]. *)
Class PyUnicode := mkPyUnicode {
  str_lower : string -> string;
  str_upper : string -> string
}.

(** The case mappings restricted to ASCII, on which the model is run. *)
Definition ascii_case : PyUnicode := mkPyUnicode PyStr.lower PyStr.upper.

(** [l[1]] and [l[-1]] on lists of strings; the program only evaluates them
    where the element exists, the default stands for the unreachable
    [IndexError]. *)
Definition item1 (l : list string) : string := nth 1 l EmptyString.
Definition item_last (l : list string) : string := List.last l EmptyString.

(** [x or y] on values that may be [None] or a string. *)
Definition py_or (x y : option string) : option string :=
  match x with
  | Some s => if PyStr.truthy s then x else y
  | None => y
  end.

(** Truthiness of such a value. *)
Definition truthy_opt (x : option string) : bool :=
  match x with Some s => PyStr.truthy s | None => false end.

(* ===================================================================== *)
(** ** Description parsing and keyword matching                          *)
(* ===================================================================== *)

(** [[l.strip() for l in description.split("\n") if l.strip()]] *)
Definition stripped_lines (description : string) : list string :=
  List.filter PyStr.truthy (List.map PyStr.strip (PyStr.split "010" description)).

(** [[n.strip() for n in names.split(",") if n.strip()]] *)
Definition comma_items (names : string) : list string :=
  List.filter PyStr.truthy (List.map PyStr.strip (PyStr.split "," names)).

(** Loop state of [extract_authors_and_abstract]. *)
Record AuthorsState := mkAuthorsState {
  authors : list string;
  abstract_lines : list string;
  found : bool
}.

Definition authors_loop_body (st : AuthorsState) (line : string) : AuthorsState :=
  if PyStr.startswith "authors:" (PyStr.lower line) then
    let names := PyStr.strip (item1 (PyStr.split1 ":" line)) in
    mkAuthorsState (comma_items names) (abstract_lines st) true
  else if found st then
    mkAuthorsState (authors st) (abstract_lines st ++ [line]) (found st)
  else st.

Definition extract_authors_and_abstract (description : string)
  : list string * string :=
  if negb (PyStr.truthy description) then ([], EmptyString)
  else
    let lines := stripped_lines description in
    let st := fold_left authors_loop_body lines (mkAuthorsState [] [] false) in
    let abstract_text :=
      match abstract_lines st with
      | [] => PyStr.join " " lines
      | _ => PyStr.join " " (abstract_lines st)
      end in
    (authors st, abstract_text).

Fixpoint categories_loop (lines : list string) : list string :=
  match lines with
  | [] => []
  | line :: rest =>
      let l := PyStr.strip line in
      if PyStr.startswith "categories:" (PyStr.lower l) then
        comma_items (PyStr.strip (item1 (PyStr.split1 ":" l)))
      else categories_loop rest
  end.

Definition extract_categories_from_description (description : string)
  : list string :=
  if negb (PyStr.truthy description) then []
  else categories_loop (PyStr.split "010" description).

(** [keywords or []]: a missing or null keyword list is the empty list. *)
Definition or_empty (keywords : option (list string)) : list string :=
  match keywords with
  | Some (k :: ks) => k :: ks
  | _ => []
  end.

Definition match_keywords {U : PyUnicode} (title description : string)
    (keywords : option (list string)) : list string :=
  let text := str_lower (title +:+ " " +:+ description) in
  List.filter (fun kw => PyStr.contains (str_lower kw) text) (or_empty keywords).

(* ===================================================================== *)
(** ** Dictionaries in insertion order                                   *)
(* ===================================================================== *)

Section Dict.
Context {V : Type}.

(** [d.get(k)] *)
Fixpoint dict_get (k : string) (d : list (string * V)) : option V :=
  match d with
  | [] => None
  | (k', v) :: rest => if String.eqb k k' then Some v else dict_get k rest
  end.

(** [d[k] = v]: overwrite in place, or append a new key. *)
Fixpoint dict_set (k : string) (v : V) (d : list (string * V))
  : list (string * V) :=
  match d with
  | [] => [(k, v)]
  | (k', v') :: rest =>
      if String.eqb k k' then (k, v) :: rest else (k', v') :: dict_set k v rest
  end.
End Dict.

(* ===================================================================== *)
(** ** Data model                                                        *)
(* ===================================================================== *)

(** A guid as stored in the ledger: a string, or Python's [None]
    (JSON [null]). *)
Definition Guid := option string.

(** One item of the feed document as [parse_rss_file] returns it: a dict
    of strings; a field is [None] when the key is absent. *)
Record Paper := mkPaper {
  paper_title : option string;
  paper_link : option string;
  paper_description : option string;
  paper_pubDate : option string;
  paper_guid : option string
}.

(** [paper.get("guid") or paper.get("link")] *)
Definition identity (paper : Paper) : Guid :=
  py_or (paper_guid paper) (paper_link paper).

(** The remote schema as the program reads it: property name to
    [prop.get("type")], in the order of the JSON object. *)
Definition PropertiesMap := list (string * option string).

(** ["k" in properties_map and properties_map["k"].get("type") == t] *)
Definition has_prop (properties_map : PropertiesMap) (k t : string) : bool :=
  match dict_get k properties_map with
  | Some (Some t') => String.eqb t' t
  | _ => false
  end.

(** A property value of a page payload. *)
Inductive PropValue :=
| PVTitle (content : string)
| PVUrl (url : string)
| PVMultiSelect (names : list string)
| PVDate (start : string)
| PVRichText (content : string).

Definition PageProps := list (string * PropValue).

(** Body of [POST /v1/pages]. *)
Record PageBody := mkPageBody {
  body_parent : string;
  body_properties : PageProps;
  body_children : option (list string)
}.

(** One property of a page returned by a database query. *)
Record PageProp := mkPageProp {
  pp_type : option string;
  pp_title : list (option string)   (* the [plain_text] of each fragment *)
}.

Record Page := mkPage {
  page_id : string;
  page_properties : list (string * PageProp)
}.

Record Response := mkResponse { status_code : Z; text : string }.

Record SchemaResponse := mkSchemaResponse {
  schema_status : Z;
  schema_properties : option PropertiesMap   (* [data.get("properties")] *)
}.

Record QueryResponse := mkQueryResponse {
  query_status : Z;
  query_results : option (list Page);
  query_next_cursor : option string;
  query_has_more : bool
}.

(** The five operations of the remote sink, each a transition of the
    sink's state. *)
Record SinkApi (Remote : Type) := mkSinkApi {
  GET_database : string -> string -> Remote -> SchemaResponse * Remote;
  PATCH_database :
    string -> string -> list (string * string) -> Remote -> Response * Remote;
  POST_query :
    string -> string -> option string -> Remote -> QueryResponse * Remote;
  POST_pages : string -> PageBody -> Remote -> Response * Remote;
  PATCH_page : string -> string -> PageProps -> Remote -> Response * Remote
}.
Arguments GET_database {Remote}.
Arguments PATCH_database {Remote}.
Arguments POST_query {Remote}.
Arguments POST_pages {Remote}.
Arguments PATCH_page {Remote}.

(** Requests that left the process, with the status that came back. *)
Inductive Event :=
| EvGetSchema (status : Z)
| EvPatchSchema (need : list (string * string)) (status : Z)
| EvQuery (start_cursor : option string) (status : Z)
| EvCreate (body : PageBody) (status : Z)
| EvUpdate (id : string) (props : PageProps) (status : Z).


(** The ledger document [notion_publish_history.json]. *)
Record History := mkHistory {
  published_guids : option (list Guid);
  other_keys : list (string * string)
}.

Inductive LedgerFile :=
| FileMissing
| FileGarbage               (* present, but [json.load] raises *)
| FileJson (h : History).

(** What the next [open(..., "w")] / [json.dump] runs into. *)
Inductive IoFault :=
| NoFault
| OpenFails                 (* [open] raises: the file is not touched *)
| DumpFails.                (* [open] truncated the file, the write raises *)

Record Config := mkConfig {
  notion_enabled : bool;
  integration_token : string;
  database_id : string;
  keywords : option (list string)
}.

(** What the collaborators outside [notion_publisher.py] hand to it. *)
Record Env := mkEnv {
  config : Config;                          (* [load_config()] *)
  latest_rss : option string;               (* [get_latest_rss_file()] *)
  rss_papers : list Paper;                  (* [parse_rss_file(latest_rss)] *)
  rss_first_item_tags : option (list string)
    (* tags of the children of the first item; [None] when parsing fails
       or there is no channel or item *)
}.

Record ErrorEntry := mkErrorEntry {
  err_title : string;
  err_status : Z;
  err_error : string
}.

Inductive Refusal :=
| NotionDisabled
| MissingCredentials
| NoRssFile
| NoPapers.

Inductive PublishResult :=
| PublishRefused (error : Refusal)
| PublishDone (success : bool) (created : Z) (errors : list ErrorEntry).

Inductive BackfillResult :=
| BackfillRefused (error : Refusal)
| BackfillDone (success : bool) (updated created : Z)
    (errors : list ErrorEntry).

Definition publish_success (r : PublishResult) : bool :=
  match r with PublishRefused _ => false | PublishDone s _ _ => s end.

Definition publish_created (r : PublishResult) : Z :=
  match r with PublishRefused _ => 0 | PublishDone _ c _ => c end.

Definition publish_errors (r : PublishResult) : list ErrorEntry :=
  match r with PublishRefused _ => [] | PublishDone _ _ e => e end.

Definition backfill_success (r : BackfillResult) : bool :=
  match r with BackfillRefused _ => false | BackfillDone s _ _ _ => s end.

Definition backfill_updated (r : BackfillResult) : Z :=
  match r with BackfillRefused _ => 0 | BackfillDone _ u _ _ => u end.

Definition backfill_created (r : BackfillResult) : Z :=
  match r with BackfillRefused _ => 0 | BackfillDone _ _ c _ => c end.

(** Outcome of a block of statements that may raise. *)
Inductive Try (A : Type) :=
| Completed (a : A)
| Raised.
Arguments Completed {A}.
Arguments Raised {A}.

(** The [try] block of [load_publish_history]: [open] and [json.load] on
    a file that exists. *)
Definition read_history (f : LedgerFile) : Try History :=
  match f with
  | FileJson h => Completed h
  | FileGarbage | FileMissing => Raised
  end.

Definition load_publish_history (f : LedgerFile) : History :=
  match f with
  | FileMissing => mkHistory (Some []) []
  | _ =>
      match read_history f with
      | Completed h => h
      | Raised => mkHistory (Some []) []
      end
  end.

(** The [try] block of [save_publish_history]: [open(..., "w")] truncates
    the file in place, then [json.dump] writes into it. *)
Definition write_history (history : History) (fault : IoFault)
    (f : LedgerFile) : Try unit * LedgerFile :=
  match fault with
  | NoFault => (Completed tt, FileJson history)
  | OpenFails => (Raised, f)
  | DumpFails => (Raised, FileGarbage)
  end.

(** [save_publish_history]: the bare [except] turns any exception of the
    block into the result [False]. *)
Definition save_publish_history (history : History) (fault : IoFault)
    (f : LedgerFile) : bool * LedgerFile :=
  match write_history history fault f with
  | (Completed _, f') => (true, f')
  | (Raised, f') => (false, f')
  end.

(** [set(history.get("published_guids", []))] *)
Definition guid_set (history : History) : gset Guid :=
  list_to_set (default [] (published_guids history)).

(** The set of identities a ledger file stands for on the next load. *)
Definition ledger_of (f : LedgerFile) : gset Guid :=
  guid_set (load_publish_history f).

(** [history["published_guids"] = list(published_guids)] *)
Definition set_published_guids (history : History) (s : gset Guid) : History :=
  mkHistory (Some (elements s)) (other_keys history).

(* ===================================================================== *)
(** ** The world the publisher runs in                                   *)
(* ===================================================================== *)

Record World (Remote : Type) := mkWorld {
  remote : Remote;              (* state of the remote sink *)
  ledger_file : LedgerFile;     (* [PUBLISH_HISTORY_FILE] on disk *)
  write_fault : IoFault;        (* fate of the next write of the ledger *)
  trace : list Event            (* requests sent so far, oldest first *)
}.
Arguments mkWorld {Remote}.
Arguments remote {Remote}.
Arguments ledger_file {Remote}.
Arguments write_fault {Remote}.
Arguments trace {Remote}.

(** What happened to one record of the feed in a publish or backfill loop
    (kept beside the program state to name the record behind a request). *)
Inductive Outcome :=
| Skipped
| CreateSent (status : Z)
| UpdateSent (status : Z).

Definition guess_notion_type {U : PyUnicode} (field_name : string) : string :=
  let name := str_lower field_name in
  if String.eqb name "link" then "url"
  else if String.eqb name "pubdate" || String.eqb name "updated" then "date"
  else if String.eqb name "category" || String.eqb name "keywords"
          || String.eqb name "tags" then "multi_select"
  else if String.eqb name "title" then "title"
  else "rich_text".

Definition strip_ns (tag : string) : string :=
  if PyStr.contains "}" tag then item1 (PyStr.split1 "}" tag) else tag.

Definition parse_first_item_fields (tags : option (list string)) : list string :=
  match tags with
  | None => []
  | Some children => List.map strip_ns children
  end.

(** The six conditionals of [ensure_database_properties], in source order. *)
Definition required_properties : list (string * string) :=
  [("URL", "url"); ("Authors", "multi_select"); ("Date", "date");
   ("Keywords", "multi_select"); ("Abstract", "rich_text");
   ("ArXiv ID", "rich_text")].

Definition need_step (properties_map : PropertiesMap)
    (need : list (string * string)) (kt : string * string)
  : list (string * string) :=
  if negb (has_prop properties_map (fst kt) (snd kt))
  then dict_set (fst kt) (snd kt) need else need.

Definition fixed_need (properties_map : PropertiesMap) : list (string * string) :=
  fold_left (need_step properties_map) required_properties [].

(** The loop of [ensure_properties_from_xml]. *)
Definition xml_need_step {U : PyUnicode} (properties_map : PropertiesMap)
    (need : list (string * string)) (f : string) : list (string * string) :=
  let t := guess_notion_type f in
  if String.eqb t "title" then need
  else if negb (has_prop properties_map f t) then dict_set f t need else need.

Definition xml_need {U : PyUnicode} (properties_map : PropertiesMap)
    (fields : list string)
  : list (string * string) :=
  fold_left (xml_need_step properties_map) fields [].

Fixpoint find_title_property (properties : PropertiesMap) : string :=
  match properties with
  | [] => "Name"
  | (key, t) :: rest =>
      if bool_decide (t = Some "title") then key else find_title_property rest
  end.

Fixpoint get_page_title_props (props : list (string * PageProp)) : string :=
  match props with
  | [] => ""
  | (_, prop) :: rest =>
      if bool_decide (pp_type prop = Some "title")
      then PyStr.join "" (List.map (default "") (pp_title prop))
      else get_page_title_props rest
  end.

Definition get_page_title (page : Page) : string :=
  get_page_title_props (page_properties page).

(** [{get_page_title(p): p for p in pages}]: a later page with the same
    title replaces an earlier one. *)
Definition page_by_title_of (pages : list Page) : gmap string Page :=
  fold_left (fun m p => <[get_page_title p := p]> m) pages ∅.

(** Which reconciler runs: [ensure_database_properties] (the fixed
    property set) or [ensure_properties_from_xml] (the fields of the first
    item of a feed document). *)
Inductive Reconciler :=
| AgainstFixedSet
| AgainstFeed (xml : option (list string)).





Section Publisher.
Context {Remote : Type} {U : PyUnicode}.
Variable api : SinkApi Remote.

(** [parsedate_to_datetime(s).date().isoformat()], [None] when the parser
    raises. *)
Variable parsedate_isoformat : string -> option string.

Definition sent (r : Remote) (e : Event) (w : World Remote) : World Remote :=
  mkWorld r (ledger_file w) (write_fault w) (trace w ++ [e]).

Definition get_database_properties (token database_id : string)
    (w : World Remote) : PropertiesMap * World Remote :=
  let '(resp, r) := GET_database api token database_id (remote w) in
  let w' := sent r (EvGetSchema (schema_status resp)) w in
  if negb (schema_status resp =? 200) then ([], w')
  else (default [] (schema_properties resp), w').

(** Shared tail of both reconcilers: nothing to do, or one batched
    patch followed by a refresh when it is accepted. *)
Definition patch_need (token database_id : string)
    (properties_map : PropertiesMap) (need : list (string * string))
    (w : World Remote) : PropertiesMap * World Remote :=
  match need with
  | [] => (properties_map, w)
  | _ :: _ =>
      let '(resp, r) := PATCH_database api token database_id need (remote w) in
      let w' := sent r (EvPatchSchema need (status_code resp)) w in
      if status_code resp =? 200
      then get_database_properties token database_id w'
      else (properties_map, w')
  end.

Definition ensure_database_properties (token database_id : string)
    (properties_map : PropertiesMap) (w : World Remote)
  : PropertiesMap * World Remote :=
  patch_need token database_id properties_map (fixed_need properties_map) w.

Definition ensure_properties_from_xml (token database_id : string)
    (properties_map : PropertiesMap) (xml : option (list string))
    (w : World Remote) : PropertiesMap * World Remote :=
  let fields := parse_first_item_fields xml in
  patch_need token database_id properties_map
    (xml_need properties_map fields) w.

Definition create_page (token database_id : string) (properties : PageProps)
    (children : option (list string)) (w : World Remote)
  : Response * World Remote :=
  let body := mkPageBody database_id properties
                (match children with
                 | Some (c :: cs) => Some (c :: cs)
                 | _ => None
                 end) in
  let '(resp, r) := POST_pages api token body (remote w) in
  (resp, sent r (EvCreate body (status_code resp)) w).

Definition update_page (token id : string) (properties : PageProps)
    (w : World Remote) : Response * World Remote :=
  let '(resp, r) := PATCH_page api token id properties (remote w) in
  (resp, sent r (EvUpdate id properties (status_code resp)) w).

(** [query_database_pages]: the [while True] loop, bounded by [fuel];
    [None] when the fuel runs out before the sink stops paginating. *)
Fixpoint query_loop (fuel : nat) (token database_id : string)
    (start_cursor : option string) (pages : list Page) (w : World Remote)
  : option (list Page * World Remote) :=
  match fuel with
  | O => None
  | S fuel' =>
      let '(resp, r) :=
        POST_query api token database_id start_cursor (remote w) in
      let w' := sent r (EvQuery start_cursor (query_status resp)) w in
      if negb (query_status resp =? 200) then Some (pages, w')
      else
        let pages' := pages ++ default [] (query_results resp) in
        if query_has_more resp && truthy_opt (query_next_cursor resp)
        then query_loop fuel' token database_id (query_next_cursor resp)
               pages' w'
        else Some (pages', w')
  end.

Definition query_database_pages (fuel : nat) (token database_id : string)
    (w : World Remote) : option (list Page * World Remote) :=
  query_loop fuel token database_id None [] w.

(** *** Building the page payload *)

Definition set_if (c : bool) (k : string) (v : PropValue) (d : PageProps)
  : PageProps :=
  if c then dict_set k v d else d.

Definition nonempty {A} (l : list A) : bool :=
  match l with [] => false | _ :: _ => true end.

(** [link.rstrip("/").split("/")[-1]] under [link and "arxiv.org" in link] *)
Definition arxiv_id_of (link : string) : option string :=
  if PyStr.truthy link && PyStr.contains "arxiv.org" link
  then Some (item_last (PyStr.split "/" (PyStr.rstrip_slash link)))
  else None.

(** [pub_dt]: parsed only from a non-empty date string; a parser
    exception leaves [None]. *)
Definition pub_dt_of (pub_date_str : string) : option string :=
  if PyStr.truthy pub_date_str then parsedate_isoformat pub_date_str else None.

(** The conditional assignments that [publish_from_latest_rss] and
    [build_properties_for_paper] both make, in source order, from the
    locals computed before them. *)
Definition fill_properties (properties_map : PropertiesMap)
    (title_prop title link desc : string) (authors : list string)
    (abstract_text : string) (pub_dt : option string)
    (matched : list string) (guid : Guid) : PageProps :=
  let has := has_prop properties_map in
  let p0 := [(title_prop, PVTitle title)] in
  let p1 := set_if (has "URL" "url" && PyStr.truthy link) "URL" (PVUrl link) p0 in
  let p2 := set_if (has "Authors" "multi_select" && nonempty authors)
              "Authors" (PVMultiSelect (firstn 20 authors)) p1 in
  let p3 := match pub_dt with
            | Some d => set_if (has "Date" "date") "Date" (PVDate d) p2
            | None => p2
            end in
  let p4 := set_if (has "Keywords" "multi_select" && nonempty matched)
              "Keywords" (PVMultiSelect (firstn 20 matched)) p3 in
  let p5 := set_if (has "Abstract" "rich_text" && PyStr.truthy abstract_text)
              "Abstract" (PVRichText (PyStr.take 1900 abstract_text)) p4 in
  let p6 := match arxiv_id_of link with
            | Some a => set_if (has "ArXiv ID" "rich_text" && PyStr.truthy a)
                          "ArXiv ID" (PVRichText a) p5
            | None => p5
            end in
  let p7 := set_if (has "link" "url" && PyStr.truthy link) "link" (PVUrl link) p6 in
  let p8 := match pub_dt with
            | Some d => set_if (has "pubDate" "date") "pubDate" (PVDate d) p7
            | None => p7
            end in
  let p9 := set_if (has "description" "rich_text" && PyStr.truthy desc)
              "description" (PVRichText (PyStr.take 1900 desc)) p8 in
  let p10 := match guid with
             | Some g => set_if (has "guid" "rich_text" && PyStr.truthy g)
                           "guid" (PVRichText g) p9
             | None => p9
             end in
  if has "category" "multi_select" then
    let cats := extract_categories_from_description desc in
    set_if (nonempty cats) "category" (PVMultiSelect (firstn 20 cats)) p10
  else p10.

Definition build_properties_for_paper (cfg : Config)
    (properties_map : PropertiesMap) (paper : Paper) (title_prop : string)
  : PageProps :=
  let link := default "" (paper_link paper) in
  let desc := default "" (paper_description paper) in
  let '(authors, abstract_text) := extract_authors_and_abstract desc in
  let pub_dt := pub_dt_of (default "" (paper_pubDate paper)) in
  let matched :=
    match_keywords (default "" (paper_title paper)) desc (keywords cfg) in
  fill_properties properties_map title_prop
    (default "Untitled" (paper_title paper)) link desc authors abstract_text
    pub_dt matched (identity paper).

(** *** [publish_from_latest_rss] *)

Record PublishState := mkPublishState {
  created : Z;
  errors : list ErrorEntry;
  published : gset Guid;                  (* [published_guids] *)
  outcomes : list (Paper * Outcome)       (* one entry per record reached *)
}.

(** Body of the [for paper in papers] loop, after the [limit] test. *)
Definition publish_body (cfg : Config) (properties_map : PropertiesMap)
    (title_prop : string) (paper : Paper) (st : PublishState)
    (w : World Remote) : PublishState * World Remote :=
  let guid := identity paper in
  if bool_decide (guid ∈ published st) then
    (mkPublishState (created st) (errors st) (published st)
       (outcomes st ++ [(paper, Skipped)]), w)
  else
    let title := default "Untitled" (paper_title paper) in
    let link := default "" (paper_link paper) in
    let desc := default "" (paper_description paper) in
    let '(authors, abstract_text) := extract_authors_and_abstract desc in
    let pub_dt := pub_dt_of (default "" (paper_pubDate paper)) in
    let matched := match_keywords title desc (keywords cfg) in
    let properties :=
      fill_properties properties_map title_prop title link desc authors
        abstract_text pub_dt matched guid in
    let children :=
      if PyStr.truthy desc then [PyStr.take 1900 desc] else [] in
    let '(resp, w') :=
      create_page (integration_token cfg) (database_id cfg) properties
        (Some children) w in
    let log := outcomes st ++ [(paper, CreateSent (status_code resp))] in
    if status_code resp =? 200 then
      (mkPublishState (created st + 1) (errors st)
         ({[guid]} ∪ published st) log, w')
    else
      (mkPublishState (created st)
         (errors st ++ [mkErrorEntry title (status_code resp)
                          (PyStr.take 300 (text resp))])
         (published st) log, w').

Fixpoint publish_loop (limit : Z) (cfg : Config)
    (properties_map : PropertiesMap) (title_prop : string)
    (papers : list Paper) (st : PublishState) (w : World Remote)
  : PublishState * World Remote :=
  match papers with
  | [] => (st, w)
  | paper :: rest =>
      if created st >=? limit then (st, w)
      else
        let '(st', w') :=
          publish_body cfg properties_map title_prop paper st w in
        publish_loop limit cfg properties_map title_prop rest st' w'
  end.

(** Writing the ledger back at the end of a batch; the boolean that
    [save_publish_history] returns is dropped, as in the source. *)
Definition persist (history : History) (s : gset Guid) (w : World Remote)
  : World Remote :=
  let '(_, f) :=
    save_publish_history (set_published_guids history s) (write_fault w)
      (ledger_file w) in
  mkWorld (remote w) f (write_fault w) (trace w).

(** The publish step together with the per-record outcomes of its loop. *)
Definition publish_run (limit : Z) (env : Env) (w : World Remote)
  : PublishResult * list (Paper * Outcome) * World Remote :=
  let cfg := config env in
  if negb (notion_enabled cfg) then (PublishRefused NotionDisabled, [], w)
  else if negb (PyStr.truthy (integration_token cfg))
          || negb (PyStr.truthy (database_id cfg))
  then (PublishRefused MissingCredentials, [], w)
  else if negb (truthy_opt (latest_rss env)) then (PublishRefused NoRssFile, [], w)
  else
    let papers := rss_papers env in
    if negb (nonempty papers) then (PublishRefused NoPapers, [], w)
    else
      let token := integration_token cfg in
      let '(pm0, w1) := get_database_properties token (database_id cfg) w in
      let '(properties_map, w2) :=
        ensure_database_properties token (database_id cfg) pm0 w1 in
      let title_prop := find_title_property properties_map in
      let history := load_publish_history (ledger_file w2) in
      let st0 := mkPublishState 0 [] (guid_set history) [] in
      let '(st, w3) :=
        publish_loop limit cfg properties_map title_prop papers st0 w2 in
      (PublishDone (0 <? created st) (created st) (errors st),
       outcomes st, persist history (published st) w3).

Definition publish_from_latest_rss (limit : Z) (env : Env) (w : World Remote)
  : PublishResult * World Remote :=
  let '(res, _, w') := publish_run limit env w in (res, w').

(** *** [backfill_from_latest_rss] *)

Record BackfillState := mkBackfillState {
  b_updated : Z;
  b_created : Z;
  b_errors : list ErrorEntry;
  b_published : gset Guid;
  b_outcomes : list (Paper * Outcome)
}.

(** Body of the [for paper in papers] loop. A page returned by the sink is
    a non-empty dict, hence truthy: [title in page_by_title and
    page_by_title[title]] is the lookup. *)
Definition backfill_body (cfg : Config) (properties_map : PropertiesMap)
    (title_prop : string) (page_by_title : gmap string Page) (paper : Paper)
    (st : BackfillState) (w : World Remote) : BackfillState * World Remote :=
  let title := default "" (paper_title paper) in
  let props := build_properties_for_paper cfg properties_map paper title_prop in
  match page_by_title !! title with
  | Some page =>
      let '(resp, w') :=
        update_page (integration_token cfg) (page_id page) props w in
      let log := b_outcomes st ++ [(paper, UpdateSent (status_code resp))] in
      if status_code resp =? 200 then
        (mkBackfillState (b_updated st + 1) (b_created st) (b_errors st)
           (b_published st) log, w')
      else
        (mkBackfillState (b_updated st) (b_created st)
           (b_errors st ++ [mkErrorEntry title (status_code resp)
                              (PyStr.take 300 (text resp))])
           (b_published st) log, w')
  | None =>
      let '(resp, w') :=
        create_page (integration_token cfg) (database_id cfg) props None w in
      let log := b_outcomes st ++ [(paper, CreateSent (status_code resp))] in
      if status_code resp =? 200 then
        let guid := identity paper in
        (mkBackfillState (b_updated st) (b_created st + 1) (b_errors st)
           (if truthy_opt guid then {[guid]} ∪ b_published st
            else b_published st) log, w')
      else
        (mkBackfillState (b_updated st) (b_created st)
           (b_errors st ++ [mkErrorEntry title (status_code resp)
                              (PyStr.take 300 (text resp))])
           (b_published st) log, w')
  end.

Fixpoint backfill_loop (cfg : Config) (properties_map : PropertiesMap)
    (title_prop : string) (page_by_title : gmap string Page)
    (papers : list Paper) (st : BackfillState) (w : World Remote)
  : BackfillState * World Remote :=
  match papers with
  | [] => (st, w)
  | paper :: rest =>
      let '(st', w') :=
        backfill_body cfg properties_map title_prop page_by_title paper st w in
      backfill_loop cfg properties_map title_prop page_by_title rest st' w'
  end.

(** The backfill step with the per-record outcomes of its loop; [None]
    only when the listing of the remote database outlives [fuel]. *)
Definition backfill_run (fuel : nat) (env : Env) (w : World Remote)
  : option (BackfillResult * list (Paper * Outcome) * World Remote) :=
  let cfg := config env in
  if negb (notion_enabled cfg) then Some (BackfillRefused NotionDisabled, [], w)
  else if negb (PyStr.truthy (integration_token cfg))
          || negb (PyStr.truthy (database_id cfg))
  then Some (BackfillRefused MissingCredentials, [], w)
  else if negb (truthy_opt (latest_rss env))
  then Some (BackfillRefused NoRssFile, [], w)
  else
    let papers := rss_papers env in
    if negb (nonempty papers) then Some (BackfillRefused NoPapers, [], w)
    else
      let token := integration_token cfg in
      let '(pm0, w1) := get_database_properties token (database_id cfg) w in
      let '(properties_map, w2) :=
        ensure_database_properties token (database_id cfg) pm0 w1 in
      let title_prop := find_title_property properties_map in
      match query_database_pages fuel token (database_id cfg) w2 with
      | None => None
      | Some (pages, w3) =>
          let page_by_title := page_by_title_of pages in
          let history := load_publish_history (ledger_file w3) in
          let st0 := mkBackfillState 0 0 [] (guid_set history) [] in
          let '(st, w4) :=
            backfill_loop cfg properties_map title_prop page_by_title
              papers st0 w3 in
          Some (BackfillDone (0 <? b_updated st + b_created st)
                  (b_updated st) (b_created st) (b_errors st),
                b_outcomes st, persist history (b_published st) w4)
      end.

Definition backfill_from_latest_rss (fuel : nat) (env : Env)
    (w : World Remote) : option (BackfillResult * World Remote) :=
  match backfill_run fuel env w with
  | Some (res, _, w') => Some (res, w')
  | None => None
  end.

(** *** The two reconcilers behind one interface *)

Definition run_reconciler (token db : string) (rc : Reconciler)
    (properties_map : PropertiesMap) (w : World Remote)
  : PropertiesMap * World Remote :=
  match rc with
  | AgainstFixedSet => ensure_database_properties token db properties_map w
  | AgainstFeed xml => ensure_properties_from_xml token db properties_map xml w
  end.


End Publisher.

(** The create requests of a loop log that were confirmed (status 200). *)
Definition confirmed_create (o : Paper * Outcome) : bool :=
  match snd o with CreateSent st => st =? 200 | _ => false end.

Definition confirmed_update (o : Paper * Outcome) : bool :=
  match snd o with UpdateSent st => st =? 200 | _ => false end.


(* ===================================================================== *)
(** ** The retrying fetch of [run_pipeline] (main.py)                    *)
(* ===================================================================== *)

Module Fetch.

(** One call of [fetch_latest_papers]: a list of raw records, or an
    exception. *)
Inductive FetchOutcome (A : Type) :=
| Returns (papers : list A)
| Raises (e : string).
Arguments Returns {A}.
Arguments Raises {A}.

Inductive FetchEvent :=
| Attempt                   (* a call of the fetch collaborator *)
| Sleep (seconds : Z).      (* [time.sleep] *)

(** How the [while] loop is left, if it is. *)
Inductive LoopExit (A : Type) :=
| Fetched (papers : list A)     (* [break], or the loop condition fails *)
| Propagated (e : string)       (* the bare [raise] *)
| StillRunning.                 (* not left within the iterations allowed *)
Arguments Fetched {A}.
Arguments Propagated {A}.
Arguments StillRunning {A}.

Definition max_retries : Z := 3.

(** [while retry_count < max_retries: ...]. The collaborator is an oracle
    indexed by the number of calls made so far. At most [fuel] iterations
    are run; the events so far are returned in every case. *)
Fixpoint retry_loop {A} (fuel : nat) (fetch : nat -> FetchOutcome A)
    (calls : nat) (retry_count : Z) (papers : list A)
    (log : list FetchEvent) : LoopExit A * list FetchEvent :=
  match fuel with
  | O => (StillRunning, log)
  | S fuel' =>
      if retry_count <? max_retries then
        match fetch calls with
        | Returns ps =>
            if nonempty ps then (Fetched ps, log ++ [Attempt])
            else retry_loop fuel' fetch (S calls) retry_count ps
                   (log ++ [Attempt])
        | Raises e =>
            let retry_count' := retry_count + 1 in
            if retry_count' >=? max_retries
            then (Propagated e, log ++ [Attempt])
            else retry_loop fuel' fetch (S calls) retry_count' papers
                   (log ++ [Attempt; Sleep 60])
        end
      else (Fetched papers, log)
  end.

(** The loop as [run_pipeline] enters it. *)
Definition fetch_with_retry {A} (fuel : nat) (fetch : nat -> FetchOutcome A)
  : LoopExit A * list FetchEvent :=
  retry_loop fuel fetch O 0 [] [].

End Fetch.

(* ===================================================================== *)
(** ** Concrete sinks used to run the model                              *)
(* ===================================================================== *)

Module TestSink.

(** State of a small sink: its schema and its pages. *)
Record Store := mkStore {
  store_schema : PropertiesMap;
  store_pages : list Page
}.

Definition merge_need (need : list (string * string)) (pm : PropertiesMap)
  : PropertiesMap :=
  fold_left (fun m kt => dict_set (fst kt) (Some (snd kt)) m) need pm.

(** A sink that answers every request with [create_status] for page
    creation and 200 for everything else; a schema patch is applied. *)
Definition api (create_status : Z) : SinkApi Store :=
  mkSinkApi Store
    (fun _ _ s => (mkSchemaResponse 200 (Some (store_schema s)), s))
    (fun _ _ need s =>
       (mkResponse 200 "",
        mkStore (merge_need need (store_schema s)) (store_pages s)))
    (fun _ _ _ s => (mkQueryResponse 200 (Some (store_pages s)) None false, s))
    (fun _ _ s => (mkResponse create_status "response body", s))
    (fun _ _ _ s => (mkResponse 200 "", s)).

(** A sink that lists its pages in two parts: the query without cursor is
    answered with the pages and the cursor "next", the query that follows
    with [second_status] and no page. *)
Definition paged_api (second_status : Z) : SinkApi Store :=
  mkSinkApi Store
    (fun _ _ s => (mkSchemaResponse 200 (Some (store_schema s)), s))
    (fun _ _ need s =>
       (mkResponse 200 "",
        mkStore (merge_need need (store_schema s)) (store_pages s)))
    (fun _ _ cursor s =>
       match cursor with
       | None => (mkQueryResponse 200 (Some (store_pages s)) (Some "next") true, s)
       | Some _ => (mkQueryResponse second_status None None false, s)
       end)
    (fun _ _ s => (mkResponse 200 "response body", s))
    (fun _ _ _ s => (mkResponse 200 "", s)).

Definition no_date : string -> option string := fun _ => None.

Definition schema0 : PropertiesMap := [("Name", Some "title")].

Definition page_foo : Page :=
  mkPage "page-1" [("Name", mkPageProp (Some "title") [Some "Foo"])].

Definition cfg : Config := mkConfig true "secret" "db" (Some ["graph"]).

Definition env_of (papers : list Paper) : Env :=
  mkEnv cfg (Some "output/feed.xml") papers None.

Definition world (pages : list Page) (f : LedgerFile) (fault : IoFault)
  : World Store :=
  mkWorld (mkStore schema0 pages) f fault [].

Definition paper_x1 : Paper :=
  mkPaper (Some "First") (Some "http://arxiv.org/abs/1") (Some "Authors: A")
    None (Some "X").
Definition paper_x2 : Paper :=
  mkPaper (Some "Second") (Some "http://arxiv.org/abs/2") (Some "Authors: B")
    None (Some "X").
Definition paper_foo : Paper :=
  mkPaper (Some "Foo") (Some "http://arxiv.org/abs/3") None None (Some "g1").
Definition paper_anonymous : Paper :=
  mkPaper (Some "No identity") None (Some "text") None None.

End TestSink.

(* ===================================================================== *)
(** ** Vocabulary of the statements                                      *)
(* ===================================================================== *)

(** The description of the parsing scenario. *)
Definition scenario_description : string :=
  "Authors: A. Smith, B. Lee
Categories: cs.AI, cs.LG
We show...".

(** Summaries of a loop log. *)
Definition failed_create (o : Paper * Outcome) : bool :=
  match snd o with CreateSent st => negb (st =? 200) | _ => false end.

Definition failed_update (o : Paper * Outcome) : bool :=
  match snd o with UpdateSent st => negb (st =? 200) | _ => false end.

(** Identities of the records whose create was confirmed. *)
Definition delivered_ids (log : list (Paper * Outcome)) : gset Guid :=
  list_to_set (List.map (fun o => identity (fst o))
                 (List.filter confirmed_create log)).

(** The same, keeping only the identities [backfill] records (truthy ones). *)
Definition delivered_named_ids (log : list (Paper * Outcome)) : gset Guid :=
  list_to_set (List.filter truthy_opt
                 (List.map (fun o => identity (fst o))
                    (List.filter confirmed_create log))).

Definition count_of (f : Paper * Outcome -> bool) (log : list (Paper * Outcome))
  : Z :=
  Z.of_nat (length (List.filter f log)).

(** Statuses of the page-creation requests of a trace, and of a log. *)
Definition create_statuses (tr : list Event) : list Z :=
  omap (fun e => match e with EvCreate _ st => Some st | _ => None end) tr.

Definition log_create_statuses (log : list (Paper * Outcome)) : list Z :=
  omap (fun o => match snd o with CreateSent st => Some st | _ => None end) log.

Definition update_statuses (tr : list Event) : list Z :=
  omap (fun e => match e with EvUpdate _ _ st => Some st | _ => None end) tr.

Definition log_update_statuses (log : list (Paper * Outcome)) : list Z :=
  omap (fun o => match snd o with UpdateSent st => Some st | _ => None end) log.

(** [w'] differs from [w] at most by the sink's state and by trace events
    that are neither page creations nor page updates. *)
Definition same_disk_and_deliveries {Remote} (w w' : World Remote) : Prop :=
  ledger_file w' = ledger_file w
  /\ write_fault w' = write_fault w
  /\ create_statuses (trace w') = create_statuses (trace w)
  /\ update_statuses (trace w') = update_statuses (trace w).

(** A call of either entry point. *)
Inductive Call :=
| PublishCall (limit : Z)
| BackfillCall (fuel : nat).

(** The loop log and the final world of a call that returned. *)
Definition run_call {U : PyUnicode} {Remote} (api : SinkApi Remote)
    (parsedate_isoformat : string -> option string) (c : Call) (env : Env)
    (w : World Remote) : option (list (Paper * Outcome) * World Remote) :=
  match c with
  | PublishCall limit =>
      let '(_, log, w') := publish_run api parsedate_isoformat limit env w in
      Some (log, w')
  | BackfillCall fuel =>
      match backfill_run api parsedate_isoformat fuel env w with
      | Some (_, log, w') => Some (log, w')
      | None => None
      end
  end.

(** Identities of the records whose create or update was confirmed. *)
Definition confirmed_ids (log : list (Paper * Outcome)) : gset Guid :=
  list_to_set
    (List.map (fun o => identity (fst o))
       (List.filter (fun o => confirmed_create o || confirmed_update o) log)).

(** The sink accepts every page creation. *)
Definition accepts_all_creates {Remote} (api : SinkApi Remote) : Prop :=
  forall token body r, status_code (fst (POST_pages api token body r)) = 200.

(** The same world, with another fate for the next write of the ledger. *)
Definition with_fault {Remote} (f : IoFault) (w : World Remote) : World Remote :=
  mkWorld (remote w) (ledger_file w) f (trace w).

(** A ledger file holding one identity. *)
Definition prior_ledger : LedgerFile :=
  FileJson (mkHistory (Some [Some "old"]) []).

(** Events of the retry loop by kind. *)
Definition is_sleep (e : Fetch.FetchEvent) : bool :=
  match e with Fetch.Sleep _ => true | Fetch.Attempt => false end.

Definition is_attempt (e : Fetch.FetchEvent) : bool :=
  match e with Fetch.Attempt => true | Fetch.Sleep _ => false end.

(* ===================================================================== *)
(** ** The rest of [main.py]                                             *)
(* ===================================================================== *)

Module Pipeline.

(** [search.yaml] as [compute_fetch_params] reads it. A field is [None]
    when the key is absent or fails the [isinstance] test of the source. *)
Record SearchSettings := mkSearchSettings {
  start_date : option string;
  settings_max_days_old : option Z;       (* present and an [int] *)
  settings_date_range : option string;    (* present and a [dict] *)
  settings_max_results : option Z         (* present and an [int] *)
}.

(** The configuration dict, with the keys [main.py] reads. *)
Record PConfig := mkPConfig {
  keywords : option (list string);
  max_days_old : option Z;
  categories : option (list string);
  date_range : option string;
  history_enabled : option bool;
  email_on_error : option bool;
  rss_title : option string;
  rss_description : option string
}.

Definition set_max_days_old (v : Z) (c : PConfig) : PConfig :=
  mkPConfig (keywords c) (Some v) (categories c) (date_range c)
    (history_enabled c) (email_on_error c) (rss_title c) (rss_description c).

Definition set_date_range (v : string) (c : PConfig) : PConfig :=
  mkPConfig (keywords c) (max_days_old c) (categories c) (Some v)
    (history_enabled c) (email_on_error c) (rss_title c) (rss_description c).

(** [compute_fetch_params]. [days_since s] is
    [(datetime.now() - datetime.strptime(s, "%Y-%m-%d")).days], [None] when
    [strptime] raises. Returns [(max_days, fetch_max)] and the mutated
    configuration. *)
Definition compute_fetch_params (days_since : string -> option Z)
    (settings : SearchSettings) (config : PConfig) : Z * Z * PConfig :=
  let max_days0 := default 30 (max_days_old config) in
  let max_days :=
    if truthy_opt (start_date settings) then
      match days_since (default "" (start_date settings)) with
      | Some days => Z.max 1 days
      | None => max_days0
      end
    else
      match settings_max_days_old settings with
      | Some n => if 0 <? n then n else max_days0
      | None => max_days0
      end in
  let config1 :=
    match settings_date_range settings with
    | Some r => set_date_range r config
    | None => config
    end in
  let config2 := set_max_days_old max_days config1 in
  let categories_count :=
    Z.of_nat (length (default ["cs.AI"] (categories config2))) in
  let fetch_max0 := Z.min 1000 (Z.max 100 (max_days * categories_count * 15)) in
  let fetch_max :=
    match settings_max_results settings with
    | Some n => if 0 <? n then n else fetch_max0
    | None => fetch_max0
    end in
  (max_days, fetch_max, config2).

(** *** The name of the feed document *)

(** [s.split()] with no argument: the maximal runs of characters that
    are not white space (the white space of ASCII). *)
Fixpoint words (s : string) : list string :=
  match s with
  | EmptyString => []
  | String c r =>
      if PyStr.is_space c then words r
      else
        match r with
        | EmptyString => [String c EmptyString]
        | String c' _ =>
            if PyStr.is_space c' then String c EmptyString :: words r
            else
              match words r with
              | w :: ws => String c w :: ws
              | [] => [String c EmptyString]
              end
        end
  end.

(** [w[0].upper()]: the upper-case form of the first character, which
    can be more than one character. *)
Definition initial {U : PyUnicode} (w : string) : string :=
  str_upper (PyStr.item0 w).

(** [''.join([w[0].upper() for w in word.split() if w])] *)
Definition keyword_abbr {U : PyUnicode} (word : string) : string :=
  PyStr.join "" (List.map initial (List.filter PyStr.truthy (words word))).

(** ['_'.join(abbrs) if abbrs else 'ALL'] over the first three keywords. *)
Definition abbr_str {U : PyUnicode} (kws : list string) : string :=
  let abbrs := firstn 3 (List.map keyword_abbr kws) in
  if nonempty abbrs then PyStr.join "_" abbrs else "ALL".

(** [f"{date_str}_{time_str}_{abbr_str}.xml"] *)
Definition feed_filename {U : PyUnicode} (date_str time_str : string)
    (kws : list string)
  : string :=
  date_str +:+ "_" +:+ time_str +:+ "_" +:+ abbr_str kws +:+ ".xml".

(** *** [save_history_record] *)

(** A processed paper, with the keys the history record reads.
    [published] holds [paper['published'].isoformat()] when the value is
    present and truthy. *)
Record ProcessedPaper := mkProcessedPaper {
  pr_title : option string;
  pr_id : option string;
  pr_published : option string;
  pr_categories : option (list string);
  pr_keyword_matches : option (list string)
}.

Record HistoryPaper := mkHistoryPaper {
  hp_title : string;
  hp_id : string;
  hp_published : option string;
  hp_categories : list string;
  hp_keyword_matches : list string
}.

Record HistoryRecord := mkHistoryRecord {
  hr_id : string;
  hr_timestamp : string;
  hr_keywords : list string;
  hr_max_days_old : Z;
  hr_categories : list string;
  hr_papers_count : nat;
  hr_papers : list HistoryPaper;
  hr_output_file : string
}.

(** A file of the history directory. *)
Inductive HistoryFile :=
| HistoryDoc (r : HistoryRecord)
| HistoryGarbage.

(** One element of the list comprehension: [paper['title']] and
    [paper['id']] raise [KeyError] when the key is missing. *)
Definition history_paper (paper : ProcessedPaper) : Try HistoryPaper :=
  match pr_title paper, pr_id paper with
  | Some t, Some i =>
      Completed (mkHistoryPaper t i (pr_published paper)
                   (default [] (pr_categories paper))
                   (default [] (pr_keyword_matches paper)))
  | _, _ => Raised
  end.

Fixpoint history_papers (papers : list ProcessedPaper)
  : Try (list HistoryPaper) :=
  match papers with
  | [] => Completed []
  | p :: rest =>
      match history_paper p with
      | Raised => Raised
      | Completed hp =>
          match history_papers rest with
          | Raised => Raised
          | Completed hps => Completed (hp :: hps)
          end
      end
  end.

(** [os.path.basename] (POSIX). *)
Definition basename (path : string) : string :=
  item_last (PyStr.split "/" path).

(** [save_history_record]. [uuid] and [now] are the values of
    [str(uuid.uuid4())] and [datetime.now().isoformat()]; [fault] is the
    fate of writing the file; the history directory maps the identifier in
    a file name [<id>.json] to the file. *)
Definition save_history_record (uuid now : string) (fault : IoFault)
    (config : PConfig) (processed_papers : list ProcessedPaper)
    (output_file : string) (dir : gmap string HistoryFile)
  : option string * gmap string HistoryFile :=
  if negb (default true (history_enabled config)) then (None, dir)
  else
    match history_papers processed_papers with
    | Raised => (None, dir)
    | Completed papers =>
        let history_record :=
          mkHistoryRecord uuid now (default [] (keywords config))
            (default 30 (max_days_old config))
            (default [] (categories config))
            (length processed_papers) papers (basename output_file) in
        match fault with
        | NoFault => (Some uuid, <[uuid := HistoryDoc history_record]> dir)
        | OpenFails => (None, dir)
        | DumpFails => (None, <[uuid := HistoryGarbage]> dir)
        end
    end.

End Pipeline.


(** [p] holds of every character of [s]. *)
Fixpoint all_chars (p : ascii -> bool) (s : string) : bool :=
  match s with
  | EmptyString => true
  | String c r => p c && all_chars p r
  end.

(** [search.yaml] with another [max_days_old]. *)
Definition with_settings_max_days_old (m : option Z)
    (s : Pipeline.SearchSettings) : Pipeline.SearchSettings :=
  Pipeline.mkSearchSettings (Pipeline.start_date s) m
    (Pipeline.settings_date_range s) (Pipeline.settings_max_results s).

(* ===================================================================== *)
(** ** [run_pipeline]                                                    *)
(* ===================================================================== *)

Module Run.

(** A call that returns a value or raises an exception with a message. *)
Inductive Raising (A : Type) :=
| Returned (a : A)
| Threw (e : string).
Arguments Returned {A}.
Arguments Threw {A}.

(** What reaches the [except Exception as e] of [run_pipeline]. *)
Inductive PipelineError :=
| MissingKeywords                 (* [config['keywords']] cannot be measured *)
| FetchFailed (e : string)        (* the retry loop re-raised *)
| ProcessFailed (e : string)      (* [process_papers] raised *)
| GenerateFailed (e : string).    (* [os.makedirs] or [generate_rss] raised *)

(** The dict returned by [run_pipeline]. *)
Inductive PipelineResult :=
| Succeeded (papers_count : nat) (output_file : string)
    (history_id : option string)
| NothingPassed                   (* success, [papers_count] 0 *)
| Failed (error : PipelineError).

(** Everything [run_pipeline] takes from outside. *)
Record PipelineEnv (Raw : Type) := mkPipelineEnv {
  settings : Pipeline.SearchSettings;             (* [load_search_settings()] *)
  days_since : string -> option Z;
  fetch_latest_papers :
    Pipeline.PConfig -> Z -> nat -> Fetch.FetchOutcome Raw;
  process_papers :
    list Raw -> Pipeline.PConfig -> Raising (list Pipeline.ProcessedPaper);
  generate_rss :
    list Pipeline.ProcessedPaper -> string -> string -> string
    -> Raising string;
  date_str : string;
  time_str : string;
  uuid : string;
  now : string;
  history_fault : IoFault;
  output_dir : string
}.
Arguments settings {Raw}.
Arguments days_since {Raw}.
Arguments fetch_latest_papers {Raw}.
Arguments process_papers {Raw}.
Arguments generate_rss {Raw}.
Arguments date_str {Raw}.
Arguments time_str {Raw}.
Arguments uuid {Raw}.
Arguments now {Raw}.
Arguments history_fault {Raw}.
Arguments output_dir {Raw}.

(** What a run leaves behind. *)
Record Effects := mkEffects {
  history_dir : gmap string Pipeline.HistoryFile;
  notifications : list PipelineError;     (* [send_error_notification] *)
  fetch_events : list Fetch.FetchEvent
}.

(** The [except Exception] handler. *)
Definition pipeline_failed (config : Pipeline.PConfig) (e : PipelineError)
    (dir : gmap string Pipeline.HistoryFile) (events : list Fetch.FetchEvent)
  : PipelineResult * Effects :=
  (Failed e,
   mkEffects dir
     (if default false (Pipeline.email_on_error config) then [e] else [])
     events).

(** [run_pipeline], with [config] the value of [load_config()] and [dir]
    the history directory. [None]: the retry loop is still running after
    [fuel] iterations. *)
Definition run_pipeline {U : PyUnicode} {Raw} (fuel : nat)
    (env : PipelineEnv Raw)
    (config : Pipeline.PConfig) (dir : gmap string Pipeline.HistoryFile)
  : option (PipelineResult * Effects) :=
  match Pipeline.keywords config with
  | None => Some (pipeline_failed config MissingKeywords dir [])
  | Some _ =>
      let '(max_days, fetch_max, config) :=
        Pipeline.compute_fetch_params (days_since env) (settings env) config in
      match Fetch.fetch_with_retry fuel
              (fetch_latest_papers env config fetch_max) with
      | (Fetch.StillRunning, _) => None
      | (Fetch.Propagated e, events) =>
          Some (pipeline_failed config (FetchFailed e) dir events)
      | (Fetch.Fetched papers, events) =>
          match process_papers env papers config with
          | Threw e => Some (pipeline_failed config (ProcessFailed e) dir events)
          | Returned processed_papers =>
              if nonempty processed_papers then
                let filename :=
                  Pipeline.feed_filename (date_str env) (time_str env)
                    (default [] (Pipeline.keywords config)) in
                let output_file := output_dir env +:+ "/" +:+ filename in
                match generate_rss env processed_papers output_file
                        (default "arXiv RSS Filter Bot - Personalized Papers"
                           (Pipeline.rss_title config))
                        (default "Automatically filtered arXiv papers based on your research interests"
                           (Pipeline.rss_description config)) with
                | Threw e =>
                    Some (pipeline_failed config (GenerateFailed e) dir events)
                | Returned rss_file =>
                    let '(history_id, dir') :=
                      Pipeline.save_history_record (uuid env) (now env)
                        (history_fault env) config processed_papers
                        output_file dir in
                    Some (Succeeded (length processed_papers)
                            (Pipeline.basename output_file) history_id,
                          mkEffects dir' [] events)
                end
              else Some (NothingPassed, mkEffects dir [] events)
          end
      end
  end.

End Run.

(** The same environment, with another fate for the history write. *)
Definition with_history_fault {Raw} (f : IoFault) (env : Run.PipelineEnv Raw)
  : Run.PipelineEnv Raw :=
  Run.mkPipelineEnv Raw (Run.settings env) (Run.days_since env)
    (Run.fetch_latest_papers env) (Run.process_papers env)
    (Run.generate_rss env) (Run.date_str env) (Run.time_str env)
    (Run.uuid env) (Run.now env) f (Run.output_dir env).

(** The result of a run without the history identifier. *)
Definition forget_history_id (r : Run.PipelineResult) : Run.PipelineResult :=
  match r with
  | Run.Succeeded n f _ => Run.Succeeded n f None
  | other => other
  end.

Module TestRun.

Definition settings0 : Pipeline.SearchSettings :=
  Pipeline.mkSearchSettings None None None None.

Definition config0 : Pipeline.PConfig :=
  Pipeline.mkPConfig (Some ["graph neural network"]) None None None None
    (Some true) None None.

Definition paper0 : Pipeline.ProcessedPaper :=
  Pipeline.mkProcessedPaper (Some "A paper") (Some "2406.00001") None None None.

(** Upstream answers [upstream n] at the call number [n]; every raw record
    passes the filter; the feed writer returns the path it is given. *)
Definition env (upstream : nat -> Fetch.FetchOutcome string)
    (fault : IoFault) : Run.PipelineEnv string :=
  Run.mkPipelineEnv string settings0 (fun _ => None)
    (fun _ _ n => upstream n)
    (fun raw _ => Run.Returned (List.map (fun _ => paper0) raw))
    (fun _ path _ _ => Run.Returned path)
    "20240630" "080000" "0000-0001" "2024-06-30T08:00:00" fault "output".

End TestRun.

(** What every entry of an error list satisfies: a status other than 200
    and at most 300 characters of the response body. *)
Definition error_entry_ok (e : ErrorEntry) : Prop :=
  err_status e <> 200 /\ (String.length (err_error e) <= 300)%nat.

(** How backfill treats one record, given the pages indexed by title: an
    update when a page has the record's title, a create otherwise. *)
Definition routed_by_title (page_by_title : gmap string Page)
    (o : Paper * Outcome) : Prop :=
  match snd o with
  | UpdateSent _ =>
      is_Some (page_by_title !! default "" (paper_title (fst o)))
  | CreateSent _ => page_by_title !! default "" (paper_title (fst o)) = None
  | Skipped => False
  end.

(** The pages addressed by the update requests of a trace, and the pages
    the updated records of a log point to. *)
Definition update_targets (tr : list Event) : list string :=
  omap (fun e => match e with EvUpdate id _ _ => Some id | _ => None end) tr.

Definition log_update_targets (page_by_title : gmap string Page)
    (log : list (Paper * Outcome)) : list string :=
  omap (fun o => match snd o with
                 | UpdateSent _ =>
                     page_id <$> page_by_title
                                   !! default "" (paper_title (fst o))
                 | _ => None
                 end) log.



(** A title property under which no other field of the payload can land:
    the schema map holds it with no type other than title, or it is the
    fallback name. *)
Definition title_prop_safe (properties_map : PropertiesMap) (k : string)
  : Prop :=
  (forall t, t <> "title" -> has_prop properties_map k t = false)
  \/ k = "Name".

(** A required property that the schema map lacks or holds with another
    type. *)
Definition missing (properties_map : PropertiesMap) (kt : string * string)
  : bool :=
  negb (has_prop properties_map (fst kt) (snd kt)).

(** The body of the schema patch a reconciler would send for a map. *)
Definition need_of {U : PyUnicode} (rc : Reconciler)
    (properties_map : PropertiesMap)
  : list (string * string) :=
  match rc with
  | AgainstFixedSet => fixed_need properties_map
  | AgainstFeed xml => xml_need properties_map (parse_first_item_fields xml)
  end.

(** A feed field for which [ensure_properties_from_xml] asks a property. *)
Definition xml_wanted {U : PyUnicode} (properties_map : PropertiesMap)
    (f : string) : bool :=
  negb (String.eqb (guess_notion_type f) "title")
  && negb (has_prop properties_map f (guess_notion_type f)).

(** Query events: a follow-up request carries a non-empty cursor; an
    accepted request came back with status 200. *)
Definition is_follow_up (e : Event) : bool :=
  match e with EvQuery (Some c) _ => PyStr.truthy c | _ => false end.

Definition is_accepted_query (e : Event) : bool :=
  match e with EvQuery _ st => st =? 200 | _ => false end.




(** The number of requests of a list of statuses that were confirmed
    (status 200). *)
Definition confirmed_among (statuses : list Z) : Z :=
  Z.of_nat (length (List.filter (fun st => st =? 200) statuses)).

(** One query of a listing: the cursor sent and the response received. *)
Definition Exchange : Type := option string * QueryResponse.

Definition query_event (x : Exchange) : Event :=
  EvQuery (fst x) (query_status (snd x)).

(** The response asks for a further query: it has status 200, says that
    there is more, and carries a non-empty cursor. *)
Definition continues (x : Exchange) : bool :=
  (query_status (snd x) =? 200)
  && query_has_more (snd x) && truthy_opt (query_next_cursor (snd x)).

(** The queries of a listing that starts with the cursor [c]: each query
    but the last got a response that asks for a further query, which
    carries the cursor of that response; the last response asks for none. *)
Fixpoint chained (c : option string) (xs : list Exchange) : Prop :=
  match xs with
  | [] => False
  | x :: rest =>
      fst x = c
      /\ match rest with
         | [] => continues x = false
         | _ :: _ =>
             continues x = true /\ chained (query_next_cursor (snd x)) rest
         end
  end.

(** The sink answered the queries of [xs] one after the other, going from
    the state [r] to the state [r']. *)
Fixpoint answered {Remote} (api : SinkApi Remote) (token db : string)
    (xs : list Exchange) (r r' : Remote) : Prop :=
  match xs with
  | [] => r' = r
  | x :: rest =>
      fst (POST_query api token db (fst x) r) = snd x
      /\ answered api token db rest (snd (POST_query api token db (fst x) r)) r'
  end.

(** The pages of the responses with status 200, in order. *)
Definition gathered (xs : list Exchange) : list Page :=
  concat (List.map (fun x => default [] (query_results (snd x)))
            (List.filter (fun x => query_status (snd x) =? 200) xs)).

(* ===================================================================== *)
(** ** Properties of the string primitives                               *)
(* ===================================================================== *)

Lemma append_cons (c : ascii) (s t : string) :
  String c s +:+ t = String c (s +:+ t).
Proof. reflexivity. Qed.

Lemma append_nil (t : string) : EmptyString +:+ t = t.
Proof. reflexivity. Qed.

Lemma startswith_spec (p s : string) :
  PyStr.startswith p s = true <-> exists post, s = p +:+ post.
Proof.
  revert s. induction p as [|a p IH]; intros s.
  - split; [intros _; exists s; reflexivity | reflexivity].
  - destruct s as [|b s]; simpl.
    + split; [discriminate | intros [post Hpost]; discriminate].
    + rewrite andb_true_iff, Ascii.eqb_eq, IH. split.
      * intros [-> [post ->]]. exists post. reflexivity.
      * intros [post Hpost]. rewrite append_cons in Hpost.
        injection Hpost as -> ->. split; [reflexivity | eauto].
Qed.

Lemma contains_spec (p s : string) :
  PyStr.contains p s = true <-> PyStr.Substring p s.
Proof.
  unfold PyStr.Substring. induction s as [|c s IH].
  - simpl. rewrite orb_false_r, startswith_spec. split.
    + intros [post ->]. exists EmptyString, post. reflexivity.
    + intros [[|a pre] [post Hpost]]; [eauto | discriminate].
  - change (PyStr.contains p (String c s))
      with (PyStr.startswith p (String c s) || PyStr.contains p s).
    rewrite orb_true_iff, startswith_spec, IH. split.
    + intros [[post ->] | [pre [post ->]]].
      * exists EmptyString, post. reflexivity.
      * exists (String c pre), post. reflexivity.
    + intros [[|a pre] [post Hpost]].
      * left. exists post. exact Hpost.
      * right. rewrite append_cons in Hpost. injection Hpost as -> ->.
        exists pre, post. reflexivity.
Qed.

Lemma or_empty_Some (K : list string) : or_empty (Some K) = K.
Proof. destruct K; reflexivity. Qed.

(* ===================================================================== *)
(** ** Keyword matcher                                                   *)
(* ===================================================================== *)

(** C6. For every keyword list [K] and every title and description, the
    matcher returns exactly the sublist of [K], in the order and casing of
    [K], of the keywords whose lowercase form is a substring of the
    lowercase form of the text "title description". The lowercase form is
    that of [str.lower], whatever this function is (in particular on text
    outside ASCII), and the statement holds whatever procedure decides the
    substring relation. A missing keyword list matches nothing. *)
Theorem match_keywords_exact_sublist {U : PyUnicode}
    (title description : string)
    (K : list string)
    (dec : forall kw, Decision
       (PyStr.Substring (str_lower kw)
          (str_lower (title +:+ " " +:+ description)))) :
  match_keywords title description (Some K)
  = filter (fun kw => PyStr.Substring (str_lower kw)
              (str_lower (title +:+ " " +:+ description))) K
  /\ sublist (match_keywords title description (Some K)) K
  /\ match_keywords title description None = [].
Proof.
  assert (Heq : match_keywords title description (Some K)
    = filter (fun kw => PyStr.Substring (str_lower kw)
                (str_lower (title +:+ " " +:+ description))) K).
  { unfold match_keywords. rewrite or_empty_Some.
    induction K as [|kw K IH]; [reflexivity|].
    simpl. rewrite filter_cons. rewrite IH.
    destruct (PyStr.contains (str_lower kw)
                (str_lower (title +:+ " " +:+ description))) eqn:Hc.
    - apply contains_spec in Hc. rewrite decide_True by exact Hc. reflexivity.
    - rewrite decide_False; [reflexivity|].
      intros Hs. apply contains_spec in Hs. congruence. }
  split; [exact Heq|]. split; [|reflexivity].
  rewrite Heq. apply sublist_filter.
Qed.

(* ===================================================================== *)
(** ** Description parsing                                               *)
(* ===================================================================== *)

(** C8, as stated, fails: the abstract computed for the scenario
    description is not "We show...". *)
Lemma scenario_abstract_keeps_categories_line :
  ~ (fst (extract_authors_and_abstract scenario_description)
       = ["A. Smith"; "B. Lee"]
     /\ extract_categories_from_description scenario_description
       = ["cs.AI"; "cs.LG"]
     /\ snd (extract_authors_and_abstract scenario_description)
       = "We show...").
Proof. vm_compute. intros (_ & _ & H). discriminate H. Qed.

(** C8, amended. The scenario description yields the authors
    ["A. Smith"; "B. Lee"], the categories ["cs.AI"; "cs.LG"], and the
    abstract "Categories: cs.AI, cs.LG We show...": only the Authors: line
    is left out of the abstract, the lines after it are joined by a space. *)
Theorem scenario_description_parsed :
  fst (extract_authors_and_abstract scenario_description)
    = ["A. Smith"; "B. Lee"]
  /\ extract_categories_from_description scenario_description
    = ["cs.AI"; "cs.LG"]
  /\ snd (extract_authors_and_abstract scenario_description)
    = "Categories: cs.AI, cs.LG We show...".
Proof. vm_compute. repeat split; reflexivity. Qed.

(* ===================================================================== *)
(** ** Retrying fetch                                                    *)
(* ===================================================================== *)

Lemma retry_loop_empty_runs_on {A} (fuel calls : nat) (papers : list A)
    (log : list Fetch.FetchEvent) :
  Fetch.retry_loop fuel (fun _ => Fetch.Returns []) calls 0 papers log
  = (Fetch.StillRunning, log ++ repeat Fetch.Attempt fuel).
Proof.
  revert calls papers log.
  induction fuel as [|fuel IH]; intros calls papers log.
  - simpl. rewrite app_nil_r. reflexivity.
  - simpl. rewrite IH, <- app_assoc. reflexivity.
Qed.

(** C4 fails on the code. When the collaborator returns the empty list
    without raising, the loop neither breaks nor counts a retry: it calls
    the collaborator again at once. With a collaborator that stays empty
    the loop is still running after any number of iterations, having made
    one call per iteration (and no sleep); with one that is empty once and
    then returns a record, the wrapper returns after two attempts. *)
Theorem retry_loop_repeats_after_empty_result :
  (forall fuel : nat,
     Fetch.fetch_with_retry fuel (fun _ => @Fetch.Returns string [])
     = (Fetch.StillRunning, repeat Fetch.Attempt fuel))
  /\ Fetch.fetch_with_retry 2
       (fun n => match n with
                 | O => Fetch.Returns []
                 | S _ => Fetch.Returns ["a"]
                 end)
     = (Fetch.Fetched ["a"], [Fetch.Attempt; Fetch.Attempt]).
Proof.
  split.
  - intros fuel. unfold Fetch.fetch_with_retry.
    rewrite retry_loop_empty_runs_on. reflexivity.
  - reflexivity.
Qed.

(** The documented retry scenario does hold: two exceptions, then a
    record, give that record after two sleeps of 60 seconds. *)
Lemma retry_scenario_two_faults :
  Fetch.fetch_with_retry 3
    (fun n => match n with
              | O | S O => Fetch.Raises "timeout"
              | _ => Fetch.Returns ["a"]
              end)
  = (Fetch.Fetched ["a"],
     [Fetch.Attempt; Fetch.Sleep 60; Fetch.Attempt; Fetch.Sleep 60;
      Fetch.Attempt]).
Proof. reflexivity. Qed.

(* ===================================================================== *)
(** ** Schema reconciliation                                             *)
(* ===================================================================== *)



Section ReconcilerFacts.
Context {Remote : Type} {U : PyUnicode}.
Variable api : SinkApi Remote.
Variables token db : string.



End ReconcilerFacts.


Section OnSchemaReconciliationIdempotentWitness.
#[local] Existing Instance ascii_case.


End OnSchemaReconciliationIdempotentWitness.

(* ===================================================================== *)
(** ** The publish loop                                                  *)
(* ===================================================================== *)

Lemma delivered_ids_cons (o : Paper * Outcome) (log : list (Paper * Outcome)) :
  delivered_ids (o :: log)
  = (if confirmed_create o then {[identity (fst o)]} else ∅) ∪ delivered_ids log.
Proof.
  unfold delivered_ids. simpl. destruct (confirmed_create o); simpl.
  - reflexivity.
  - set_solver.
Qed.

Lemma count_of_cons (f : Paper * Outcome -> bool) (o : Paper * Outcome)
    (log : list (Paper * Outcome)) :
  count_of f (o :: log) = (if f o then 1 else 0) + count_of f log.
Proof.
  unfold count_of. simpl. destruct (f o); simpl length; lia.
Qed.

Lemma elem_of_delivered_ids (I : Guid) (log : list (Paper * Outcome)) :
  I ∈ delivered_ids log
  <-> exists p, (p, CreateSent 200) ∈ log /\ identity p = I.
Proof.
  induction log as [|[p o] log IH].
  - unfold delivered_ids. simpl. split; [set_solver|].
    intros (p & Hin & _). inversion Hin.
  - rewrite delivered_ids_cons, elem_of_union, IH. unfold confirmed_create.
    simpl. split.
    + intros [Hhd | (q & Hq & Hid)].
      * destruct o as [|st|st]; try (apply elem_of_empty in Hhd; contradiction).
        destruct (st =? 200) eqn:Hst;
          [|apply elem_of_empty in Hhd; contradiction].
        apply Z.eqb_eq in Hst. subst st.
        apply elem_of_singleton in Hhd.
        exists p. split; [left | congruence].
      * exists q. split; [right; exact Hq | exact Hid].
    + intros (q & Hq & Hid). apply elem_of_cons in Hq as [Heq | Hq].
      * simplify_eq. left. simpl. apply elem_of_singleton. reflexivity.
      * right. eauto.
Qed.

Section PublishFacts.
Context {Remote : Type} {U : PyUnicode}.
Variable api : SinkApi Remote.
Variable parsedate_isoformat : string -> option string.
Variable limit : Z.
Variable cfg : Config.
Variable properties_map : PropertiesMap.
Variable title_prop : string.

(** The three ways through the loop body. *)
Lemma publish_body_cases (paper : Paper) (st st' : PublishState)
    (w w' : World Remote) :
  publish_body api parsedate_isoformat cfg properties_map title_prop
    paper st w = (st', w') ->
  (identity paper ∈ published st
   /\ st' = mkPublishState (created st) (errors st) (published st)
              (outcomes st ++ [(paper, Skipped)])
   /\ w' = w)
  \/ ((identity paper ∉ published st)
      /\ exists body,
         let out := POST_pages api (integration_token cfg) body (remote w) in
         status_code (fst out) = 200
         /\ st' = mkPublishState (created st + 1) (errors st)
                    ({[identity paper]} ∪ published st)
                    (outcomes st ++ [(paper, CreateSent 200)])
         /\ w' = sent (snd out) (EvCreate body 200) w)
  \/ ((identity paper ∉ published st)
      /\ exists body status e,
         let out := POST_pages api (integration_token cfg) body (remote w) in
         status_code (fst out) = status
         /\ status <> 200
         /\ st' = mkPublishState (created st) (errors st ++ [e])
                    (published st)
                    (outcomes st ++ [(paper, CreateSent status)])
         /\ w' = sent (snd out) (EvCreate body status) w).
Proof.
  unfold publish_body. case_bool_decide as Hin.
  - intros [= <- <-]. left. auto.
  - destruct (extract_authors_and_abstract _) as [authors abstract_text].
    unfold create_page.
    match goal with
    | |- context [POST_pages api ?tok ?b (remote w)] =>
        set (body := b);
        destruct (POST_pages api tok body (remote w)) as [resp r] eqn:Hpost
    end.
    destruct (status_code resp =? 200) eqn:Hst; intros [= <- <-]; right.
    + apply Z.eqb_eq in Hst. rewrite Hst. left. split; [exact Hin|].
      exists body. rewrite Hpost. simpl. auto.
    + apply Z.eqb_neq in Hst. right. split; [exact Hin|].
      eexists body, (status_code resp), _. rewrite Hpost. simpl.
      split; [reflexivity|]. split; [exact Hst|]. split; reflexivity.
Qed.

(** What a run of the loop adds to its state. *)
Lemma publish_loop_spec (papers : list Paper) (st st' : PublishState)
    (w w' : World Remote) :
  publish_loop api parsedate_isoformat limit cfg properties_map title_prop
    papers st w = (st', w') ->
  ledger_file w' = ledger_file w
  /\ write_fault w' = write_fault w
  /\ exists new,
       outcomes st' = outcomes st ++ new
       /\ published st' = delivered_ids new ∪ published st
       /\ created st' = created st + count_of confirmed_create new
       /\ Z.of_nat (length (errors st'))
          = Z.of_nat (length (errors st)) + count_of failed_create new
       /\ (forall p o, (p, o) ∈ new -> p ∈ papers)
       /\ (forall p s, (p, CreateSent s) ∈ new -> identity p ∉ published st)
       /\ (forall p s, (p, UpdateSent s) ∉ new)
       /\ create_statuses (trace w')
          = create_statuses (trace w) ++ log_create_statuses new.
Proof.
  revert st w. induction papers as [|paper rest IH]; intros st w.
  - simpl. intros [= <- <-]. repeat split; try reflexivity.
    exists []. rewrite !app_nil_r.
    repeat split; try reflexivity; try set_solver.
    unfold count_of; simpl; lia. unfold count_of; simpl; lia.
  - cbn [publish_loop]. destruct (created st >=? limit).
    { intros [= <- <-]. repeat split; try reflexivity.
      exists []. rewrite !app_nil_r.
      repeat split; try reflexivity; try set_solver.
      unfold count_of; simpl; lia. unfold count_of; simpl; lia. }
    destruct (publish_body _ _ _ _ _ paper st w) as [st1 w1] eqn:Hbody.
    intros Hloop. apply IH in Hloop
      as (Hfile & Hfault & new & Hout & Hpub & Hcr & Herr & Hmem & Hfresh
          & Hnoupd & Htr).
    apply publish_body_cases in Hbody
      as [(Hin & -> & ->)
         | [(Hnin & body & _ & -> & ->)
           | (Hnin & body & status & e & _ & Hst & -> & ->)]];
      simpl in *.
    + split; [exact Hfile|]. split; [exact Hfault|].
      exists ((paper, Skipped) :: new).
      rewrite Hout, <- app_assoc. split; [reflexivity|].
      rewrite delivered_ids_cons, !count_of_cons. simpl.
      split; [rewrite Hpub; set_solver|].
      split; [lia|]. split; [lia|].
      split; [intros p o [[= -> ->] | Hp]%elem_of_cons; [left | right; eauto]|].
      split; [intros p s [[=] | Hp]%elem_of_cons; eauto|].
      split; [intros p s [[=] | Hp]%elem_of_cons; eapply Hnoupd; eauto|].
      exact Htr.
    + split; [exact Hfile|]. split; [exact Hfault|].
      exists ((paper, CreateSent 200) :: new).
      rewrite Hout, <- app_assoc. split; [reflexivity|].
      rewrite delivered_ids_cons, !count_of_cons. simpl.
      split; [rewrite Hpub; set_solver|].
      split; [lia|]. split; [lia|].
      split; [intros p o [[= -> ->] | Hp]%elem_of_cons; [left | right; eauto]|].
      split.
      { intros p s [[= -> ->] | Hp]%elem_of_cons; [exact Hnin|].
        apply Hfresh in Hp. set_solver. }
      split; [intros p s [[=] | Hp]%elem_of_cons; eapply Hnoupd; eauto|].
      rewrite Htr. unfold create_statuses. rewrite omap_app. simpl.
      rewrite <- app_assoc. reflexivity.
    + split; [exact Hfile|]. split; [exact Hfault|].
      exists ((paper, CreateSent status) :: new).
      rewrite Hout, <- app_assoc. split; [reflexivity|].
      rewrite delivered_ids_cons, !count_of_cons.
      change (confirmed_create (paper, CreateSent status))
        with (status =? 200).
      change (failed_create (paper, CreateSent status))
        with (negb (status =? 200)).
      apply Z.eqb_neq in Hst. rewrite Hst. simpl.
      split; [rewrite Hpub; set_solver|].
      split; [lia|].
      split; [rewrite length_app in Herr; simpl in Herr; lia|].
      split; [intros p o [[= -> ->] | Hp]%elem_of_cons; [left | right; eauto]|].
      split.
      { intros p s [[= -> ->] | Hp]%elem_of_cons; [exact Hnin|].
        apply Hfresh in Hp. exact Hp. }
      split; [intros p s [[=] | Hp]%elem_of_cons; eapply Hnoupd; eauto|].
      rewrite Htr. unfold create_statuses. rewrite omap_app. simpl.
      rewrite <- app_assoc. reflexivity.
Qed.

End PublishFacts.

(* ===================================================================== *)
(** ** Schema and listing requests leave disk and page requests alone    *)
(* ===================================================================== *)

Lemma same_disk_refl {Remote} (w : World Remote) :
  same_disk_and_deliveries w w.
Proof. repeat split. Qed.

Lemma same_disk_trans {Remote} (w1 w2 w3 : World Remote) :
  same_disk_and_deliveries w1 w2 -> same_disk_and_deliveries w2 w3 ->
  same_disk_and_deliveries w1 w3.
Proof.
  intros (A1 & A2 & A3 & A4) (B1 & B2 & B3 & B4).
  repeat split; congruence.
Qed.

Lemma same_disk_sent {Remote} (w : World Remote) (r : Remote) (e : Event) :
  (forall b s, e <> EvCreate b s) -> (forall i p s, e <> EvUpdate i p s) ->
  same_disk_and_deliveries w (sent r e w).
Proof.
  intros Hc Hu. unfold same_disk_and_deliveries, sent. simpl.
  split; [reflexivity|]. split; [reflexivity|].
  unfold create_statuses, update_statuses. rewrite !omap_app. simpl.
  destruct e; try (rewrite !app_nil_r; split; reflexivity).
  - exfalso. eapply Hc. reflexivity.
  - exfalso. eapply Hu. reflexivity.
Qed.

Section SchemaFacts.
Context {Remote : Type}.
Variable api : SinkApi Remote.
Variables token db : string.

Lemma get_database_properties_same_disk (w : World Remote) :
  same_disk_and_deliveries w (snd (get_database_properties api token db w)).
Proof.
  unfold get_database_properties.
  destruct (GET_database api token db (remote w)) as [resp r].
  destruct (negb (schema_status resp =? 200)); simpl;
    apply same_disk_sent; discriminate.
Qed.

Lemma patch_need_same_disk (pm : PropertiesMap)
    (need : list (string * string)) (w : World Remote) :
  same_disk_and_deliveries w (snd (patch_need api token db pm need w)).
Proof.
  unfold patch_need. destruct need as [|kt need]; [apply same_disk_refl|].
  destruct (PATCH_database api token db (kt :: need) (remote w)) as [resp r].
  destruct (status_code resp =? 200); simpl.
  - eapply same_disk_trans; [|apply get_database_properties_same_disk].
    apply same_disk_sent; discriminate.
  - apply same_disk_sent; discriminate.
Qed.

Lemma ensure_database_properties_same_disk (pm : PropertiesMap)
    (w : World Remote) :
  same_disk_and_deliveries w
    (snd (ensure_database_properties api token db pm w)).
Proof. apply patch_need_same_disk. Qed.

Lemma query_loop_same_disk (fuel : nat) (cursor : option string)
    (pages pages' : list Page) (w w' : World Remote) :
  query_loop api fuel token db cursor pages w = Some (pages', w') ->
  same_disk_and_deliveries w w'.
Proof.
  revert cursor pages w.
  induction fuel as [|fuel IH]; intros cursor pages w; [discriminate|].
  simpl. destruct (POST_query api token db cursor (remote w)) as [resp r].
  assert (Hs : same_disk_and_deliveries w
                 (sent r (EvQuery cursor (query_status resp)) w))
    by (apply same_disk_sent; discriminate).
  destruct (negb (query_status resp =? 200)).
  - intros [= <- <-]. exact Hs.
  - destruct (query_has_more resp && truthy_opt (query_next_cursor resp)).
    + intros Hq. apply IH in Hq. eapply same_disk_trans; eassumption.
    + intros [= <- <-]. exact Hs.
Qed.

(** The listing ends as soon as a response is not 200, or does not
    announce a further page: enough fuel then gives a result. *)
Lemma query_loop_one_page (fuel : nat) (cursor : option string)
    (pages : list Page) (w : World Remote) :
  (query_has_more (fst (POST_query api token db cursor (remote w)))
   && truthy_opt
        (query_next_cursor (fst (POST_query api token db cursor (remote w))))
   = false) ->
  exists r, query_loop api (S fuel) token db cursor pages w = Some r.
Proof.
  intros Hlast. simpl.
  destruct (POST_query api token db cursor (remote w)) as [resp r].
  simpl in Hlast. rewrite Hlast.
  destruct (negb (query_status resp =? 200)); eauto.
Qed.

End SchemaFacts.

(** The ledger a saved document stands for is the set that was saved. *)
Lemma ledger_of_saved (h : History) (s : gset Guid) :
  ledger_of (FileJson (set_published_guids h s)) = s.
Proof.
  unfold ledger_of, guid_set. simpl. apply list_to_set_elements_L.
Qed.

(* ===================================================================== *)
(** ** A whole publish call                                              *)
(* ===================================================================== *)

Section RunFacts.
Context {Remote : Type} {U : PyUnicode}.
Variable api : SinkApi Remote.
Variable parsedate_isoformat : string -> option string.

Lemma persist_fields (h : History) (s : gset Guid) (w : World Remote) :
  ledger_file (persist h s w)
  = snd (save_publish_history (set_published_guids h s) (write_fault w)
           (ledger_file w))
  /\ write_fault (persist h s w) = write_fault w
  /\ trace (persist h s w) = trace w
  /\ remote (persist h s w) = remote w.
Proof.
  unfold persist.
  destruct (save_publish_history _ _ _) as [b f]. repeat split.
Qed.

(** Either the call is refused before anything is sent or written, or
    the loop ran and the ledger was written back from its final set. *)
Lemma publish_run_spec (limit : Z) (env : Env) (w w' : World Remote)
    (res : PublishResult) (log : list (Paper * Outcome)) :
  publish_run api parsedate_isoformat limit env w = (res, log, w') ->
  (exists e, res = PublishRefused e /\ log = [] /\ w' = w)
  \/ (res = PublishDone (0 <? count_of confirmed_create log)
              (count_of confirmed_create log) (publish_errors res)
      /\ Z.of_nat (length (publish_errors res)) = count_of failed_create log
      /\ (forall p o, (p, o) ∈ log -> p ∈ rss_papers env)
      /\ (forall p s, (p, CreateSent s) ∈ log ->
            identity p ∉ ledger_of (ledger_file w))
      /\ (forall p s, (p, UpdateSent s) ∉ log)
      /\ write_fault w' = write_fault w
      /\ ledger_file w'
         = snd (save_publish_history
                  (set_published_guids (load_publish_history (ledger_file w))
                     (delivered_ids log ∪ ledger_of (ledger_file w)))
                  (write_fault w) (ledger_file w))
      /\ create_statuses (trace w')
         = create_statuses (trace w) ++ log_create_statuses log).
Proof.
  unfold publish_run.
  destruct (negb (notion_enabled (config env)));
    [intros [= <- <- <-]; left; eauto|].
  destruct (negb (PyStr.truthy (integration_token (config env)))
            || negb (PyStr.truthy (database_id (config env))));
    [intros [= <- <- <-]; left; eauto|].
  destruct (negb (truthy_opt (latest_rss env)));
    [intros [= <- <- <-]; left; eauto|].
  destruct (negb (nonempty (rss_papers env)));
    [intros [= <- <- <-]; left; eauto|].
  pose proof (get_database_properties_same_disk api
                (integration_token (config env)) (database_id (config env)) w)
    as Hget.
  destruct (get_database_properties _ _ _ w) as [pm0 w1]. simpl in Hget.
  pose proof (ensure_database_properties_same_disk api
                (integration_token (config env)) (database_id (config env))
                pm0 w1) as Hens.
  destruct (ensure_database_properties _ _ _ pm0 w1) as [pm w2].
  simpl in Hens.
  pose proof (same_disk_trans _ _ _ Hget Hens) as (Hf & Hwf & Hcs & _).
  destruct (publish_loop _ _ _ _ _ _ _ _ w2) as [st w3] eqn:Hloop.
  apply publish_loop_spec in Hloop
    as (Hfile & Hfault & new & Hout & Hpub & Hcr & Herr & Hmem & Hfresh
        & Hnoupd & Htr).
  simpl in Hout, Hpub, Hcr, Herr, Hfresh. subst new.
  intros [= <- <- <-]. right.
  destruct (persist_fields (load_publish_history (ledger_file w2))
              (published st) w3) as (Pf & Pw & Pt & _).
  rewrite Hcr. simpl.
  split; [reflexivity|]. split; [lia|]. split; [exact Hmem|].
  split; [intros p s Hp; unfold ledger_of; rewrite <- Hf; eauto|].
  split; [exact Hnoupd|].
  split; [congruence|].
  split.
  - rewrite Pf, Hpub, Hfile, Hfault, Hf, Hwf. reflexivity.
  - rewrite Pt, Htr, Hcs. reflexivity.
Qed.

End RunFacts.

(* ===================================================================== *)
(** ** The backfill loop                                                 *)
(* ===================================================================== *)

Lemma delivered_named_ids_cons (o : Paper * Outcome)
    (log : list (Paper * Outcome)) :
  delivered_named_ids (o :: log)
  = (if confirmed_create o && truthy_opt (identity (fst o))
     then {[identity (fst o)]} else ∅) ∪ delivered_named_ids log.
Proof.
  unfold delivered_named_ids. simpl. destruct (confirmed_create o); simpl.
  - destruct (truthy_opt (identity (fst o))); simpl.
    + reflexivity.
    + rewrite (left_id_L ∅ (∪)). reflexivity.
  - rewrite (left_id_L ∅ (∪)). reflexivity.
Qed.

Lemma elem_of_delivered_named_ids (I : Guid) (log : list (Paper * Outcome)) :
  I ∈ delivered_named_ids log
  <-> truthy_opt I = true /\ I ∈ delivered_ids log.
Proof.
  unfold delivered_named_ids, delivered_ids.
  rewrite !elem_of_list_to_set, !list_elem_of_In, filter_In. tauto.
Qed.

Section BackfillFacts.
Context {Remote : Type} {U : PyUnicode}.
Variable api : SinkApi Remote.
Variable parsedate_isoformat : string -> option string.
Variable cfg : Config.
Variable properties_map : PropertiesMap.
Variable title_prop : string.
Variable page_by_title : gmap string Page.

(** The four ways through the loop body. *)
Lemma backfill_body_cases (paper : Paper) (st st' : BackfillState)
    (w w' : World Remote) :
  backfill_body api parsedate_isoformat cfg properties_map title_prop
    page_by_title paper st w = (st', w') ->
  (exists id props r,
      st' = mkBackfillState (b_updated st + 1) (b_created st) (b_errors st)
              (b_published st) (b_outcomes st ++ [(paper, UpdateSent 200)])
      /\ w' = sent r (EvUpdate id props 200) w)
  \/ (exists id props r status e,
      status <> 200
      /\ st' = mkBackfillState (b_updated st) (b_created st)
                 (b_errors st ++ [e]) (b_published st)
                 (b_outcomes st ++ [(paper, UpdateSent status)])
      /\ w' = sent r (EvUpdate id props status) w)
  \/ (exists body r,
      st' = mkBackfillState (b_updated st) (b_created st + 1) (b_errors st)
              (if truthy_opt (identity paper)
               then {[identity paper]} ∪ b_published st
               else b_published st)
              (b_outcomes st ++ [(paper, CreateSent 200)])
      /\ w' = sent r (EvCreate body 200) w)
  \/ (exists body r status e,
      status <> 200
      /\ st' = mkBackfillState (b_updated st) (b_created st)
                 (b_errors st ++ [e]) (b_published st)
                 (b_outcomes st ++ [(paper, CreateSent status)])
      /\ w' = sent r (EvCreate body status) w).
Proof.
  unfold backfill_body.
  destruct (page_by_title !! default "" (paper_title paper)) as [page|].
  - unfold update_page.
    destruct (PATCH_page api _ _ _ (remote w)) as [resp r].
    destruct (status_code resp =? 200) eqn:Hst; intros [= <- <-].
    + apply Z.eqb_eq in Hst. rewrite Hst. left.
      eexists _, _, r. split; reflexivity.
    + apply Z.eqb_neq in Hst. right; left.
      eexists _, _, r, (status_code resp), _.
      split; [exact Hst|]. split; reflexivity.
  - unfold create_page.
    destruct (POST_pages api _ _ (remote w)) as [resp r].
    destruct (status_code resp =? 200) eqn:Hst; intros [= <- <-].
    + apply Z.eqb_eq in Hst. rewrite Hst. right; right; left.
      eexists _, r. split; reflexivity.
    + apply Z.eqb_neq in Hst. right; right; right.
      eexists _, r, (status_code resp), _.
      split; [exact Hst|]. split; reflexivity.
Qed.

Lemma backfill_loop_spec (papers : list Paper) (st st' : BackfillState)
    (w w' : World Remote) :
  backfill_loop api parsedate_isoformat cfg properties_map title_prop
    page_by_title papers st w = (st', w') ->
  ledger_file w' = ledger_file w
  /\ write_fault w' = write_fault w
  /\ exists new,
       b_outcomes st' = b_outcomes st ++ new
       /\ b_published st' = delivered_named_ids new ∪ b_published st
       /\ b_created st' = b_created st + count_of confirmed_create new
       /\ b_updated st' = b_updated st + count_of confirmed_update new
       /\ Z.of_nat (length (b_errors st'))
          = Z.of_nat (length (b_errors st))
            + count_of failed_create new + count_of failed_update new
       /\ (forall p o, (p, o) ∈ new -> p ∈ papers)
       /\ create_statuses (trace w')
          = create_statuses (trace w) ++ log_create_statuses new
       /\ update_statuses (trace w')
          = update_statuses (trace w) ++ log_update_statuses new.
Proof.
  revert st w. induction papers as [|paper rest IH]; intros st w.
  - simpl. intros [= <- <-]. repeat split; try reflexivity.
    exists []. rewrite !app_nil_r. unfold count_of. simpl.
    repeat split; try reflexivity; try lia.
    + set_solver.
    + intros p o Hp. inversion Hp.
  - cbn [backfill_loop].
    destruct (backfill_body _ _ _ _ _ _ paper st w) as [st1 w1] eqn:Hbody.
    intros Hloop. apply IH in Hloop
      as (Hfile & Hfault & new & Hout & Hpub & Hcr & Hup & Herr & Hmem
          & Hct & Hut).
    assert (Hmem' : forall o0 p o, (p, o) ∈ (paper, o0) :: new ->
                                   p ∈ paper :: rest).
    { intros o0 p o [[= -> ->] | Hp]%elem_of_cons; [left | right; eauto]. }
    apply backfill_body_cases in Hbody
      as [(id & props & r & -> & ->)
         | [(id & props & r & status & e & Hst & -> & ->)
           | [(body & r & -> & ->)
             | (body & r & status & e & Hst & -> & ->)]]];
      simpl in *;
      (split; [exact Hfile|]); (split; [exact Hfault|]).
    + exists ((paper, UpdateSent 200) :: new).
      rewrite Hout, <- app_assoc. split; [reflexivity|].
      rewrite delivered_named_ids_cons, !count_of_cons. simpl.
      split; [rewrite Hpub; set_solver|].
      split; [lia|]. split; [lia|]. split; [lia|].
      split; [apply Hmem'|].
      rewrite Hct, Hut. unfold create_statuses, update_statuses.
      rewrite !omap_app. simpl. rewrite app_nil_r, <- app_assoc.
      split; reflexivity.
    + exists ((paper, UpdateSent status) :: new).
      rewrite Hout, <- app_assoc. split; [reflexivity|].
      rewrite delivered_named_ids_cons, !count_of_cons.
      change (confirmed_update (paper, UpdateSent status))
        with (status =? 200).
      change (failed_update (paper, UpdateSent status))
        with (negb (status =? 200)).
      apply Z.eqb_neq in Hst. rewrite Hst. simpl.
      split; [rewrite Hpub; set_solver|].
      split; [lia|]. split; [lia|].
      split; [rewrite length_app in Herr; simpl in Herr; lia|].
      split; [apply Hmem'|].
      rewrite Hct, Hut. unfold create_statuses, update_statuses.
      rewrite !omap_app. simpl. rewrite app_nil_r, <- app_assoc.
      split; reflexivity.
    + exists ((paper, CreateSent 200) :: new).
      rewrite Hout, <- app_assoc. split; [reflexivity|].
      rewrite delivered_named_ids_cons, !count_of_cons. simpl.
      split.
      { rewrite Hpub. destruct (truthy_opt (identity paper)); set_solver. }
      split; [lia|]. split; [lia|]. split; [lia|].
      split; [apply Hmem'|].
      rewrite Hct, Hut. unfold create_statuses, update_statuses.
      rewrite !omap_app. simpl. rewrite app_nil_r, <- app_assoc.
      split; reflexivity.
    + exists ((paper, CreateSent status) :: new).
      rewrite Hout, <- app_assoc. split; [reflexivity|].
      rewrite delivered_named_ids_cons, !count_of_cons.
      change (confirmed_create (paper, CreateSent status))
        with (status =? 200).
      change (failed_create (paper, CreateSent status))
        with (negb (status =? 200)).
      apply Z.eqb_neq in Hst. rewrite Hst. simpl.
      split; [rewrite Hpub; set_solver|].
      split; [lia|]. split; [lia|].
      split; [rewrite length_app in Herr; simpl in Herr; lia|].
      split; [apply Hmem'|].
      rewrite Hct, Hut. unfold create_statuses, update_statuses.
      rewrite !omap_app. simpl. rewrite app_nil_r, <- app_assoc.
      split; reflexivity.
Qed.

End BackfillFacts.

(* ===================================================================== *)
(** ** A whole backfill call                                             *)
(* ===================================================================== *)

Section BackfillRunFacts.
Context {Remote : Type} {U : PyUnicode}.
Variable api : SinkApi Remote.
Variable parsedate_isoformat : string -> option string.

Lemma backfill_run_spec (fuel : nat) (env : Env) (w w' : World Remote)
    (res : BackfillResult) (log : list (Paper * Outcome)) :
  backfill_run api parsedate_isoformat fuel env w = Some (res, log, w') ->
  (exists e, res = BackfillRefused e /\ log = [] /\ w' = w)
  \/ (exists errs,
      res = BackfillDone
              (0 <? count_of confirmed_update log
                    + count_of confirmed_create log)
              (count_of confirmed_update log)
              (count_of confirmed_create log) errs
      /\ Z.of_nat (length errs)
         = count_of failed_create log + count_of failed_update log
      /\ (forall p o, (p, o) ∈ log -> p ∈ rss_papers env)
      /\ write_fault w' = write_fault w
      /\ ledger_file w'
         = snd (save_publish_history
                  (set_published_guids (load_publish_history (ledger_file w))
                     (delivered_named_ids log ∪ ledger_of (ledger_file w)))
                  (write_fault w) (ledger_file w))
      /\ create_statuses (trace w')
         = create_statuses (trace w) ++ log_create_statuses log
      /\ update_statuses (trace w')
         = update_statuses (trace w) ++ log_update_statuses log).
Proof.
  unfold backfill_run.
  destruct (negb (notion_enabled (config env)));
    [intros [= <- <- <-]; left; eauto|].
  destruct (negb (PyStr.truthy (integration_token (config env)))
            || negb (PyStr.truthy (database_id (config env))));
    [intros [= <- <- <-]; left; eauto|].
  destruct (negb (truthy_opt (latest_rss env)));
    [intros [= <- <- <-]; left; eauto|].
  destruct (negb (nonempty (rss_papers env)));
    [intros [= <- <- <-]; left; eauto|].
  pose proof (get_database_properties_same_disk api
                (integration_token (config env)) (database_id (config env)) w)
    as Hget.
  destruct (get_database_properties _ _ _ w) as [pm0 w1]. simpl in Hget.
  pose proof (ensure_database_properties_same_disk api
                (integration_token (config env)) (database_id (config env))
                pm0 w1) as Hens.
  destruct (ensure_database_properties _ _ _ pm0 w1) as [pm w2].
  simpl in Hens.
  unfold query_database_pages.
  destruct (query_loop _ _ _ _ _ _ w2) as [[pages w3]|] eqn:Hq;
    [|discriminate].
  apply query_loop_same_disk in Hq.
  pose proof (same_disk_trans _ _ _ (same_disk_trans _ _ _ Hget Hens) Hq)
    as (Hf & Hwf & Hcs & Hus).
  destruct (backfill_loop _ _ _ _ _ _ _ _ w3) as [st w4] eqn:Hloop.
  apply backfill_loop_spec in Hloop
    as (Hfile & Hfault & new & Hout & Hpub & Hcr & Hup & Herr & Hmem
        & Hct & Hut).
  simpl in Hout, Hpub, Hcr, Hup, Herr. subst new.
  intros [= <- <- <-]. right.
  destruct (persist_fields (load_publish_history (ledger_file w3))
              (b_published st) w4) as (Pf & Pw & Pt & _).
  exists (b_errors st). rewrite Hcr, Hup. simpl.
  split; [reflexivity|]. split; [lia|]. split; [exact Hmem|].
  split; [congruence|].
  split; [rewrite Pf, Hpub, Hfile, Hfault, Hf, Hwf; reflexivity|].
  rewrite Pt, Hct, Hut, Hcs, Hus. split; reflexivity.
Qed.

(** A backfill call returns as soon as the first listing response is
    the last one (not 200, or no further page announced). *)
Lemma backfill_run_returns (fuel : nat) (env : Env) (w : World Remote) :
  (forall r : Remote,
     query_has_more
       (fst (POST_query api (integration_token (config env))
               (database_id (config env)) None r)) = false) ->
  exists out, backfill_run api parsedate_isoformat (S fuel) env w = Some out.
Proof.
  intros Hlast. unfold backfill_run.
  destruct (negb (notion_enabled (config env))); [eauto|].
  destruct (negb (PyStr.truthy (integration_token (config env)))
            || negb (PyStr.truthy (database_id (config env)))); [eauto|].
  destruct (negb (truthy_opt (latest_rss env))); [eauto|].
  destruct (negb (nonempty (rss_papers env))); [eauto|].
  destruct (get_database_properties _ _ _ w) as [pm0 w1].
  destruct (ensure_database_properties _ _ _ pm0 w1) as [pm w2].
  unfold query_database_pages.
  destruct (query_loop_one_page api (integration_token (config env))
              (database_id (config env)) fuel None [] w2) as [[pages w3] Hq].
  { rewrite Hlast. reflexivity. }
  rewrite Hq.
  destruct (backfill_loop _ _ _ _ _ _ _ _ w3) as [st w4]. eauto.
Qed.

End BackfillRunFacts.

(* ===================================================================== *)
(** ** Publish and backfill as ledger transformers                       *)
(* ===================================================================== *)

Section OnBackfillUpdateLeavesLedgerUnchanged.
#[local] Existing Instance ascii_case.

(** C1, as stated, fails on backfill: the remote database holds a page
    titled "Foo", the feed holds one record titled "Foo" with guid "g1",
    the update is confirmed with status 200, the ledger is written without
    fault, and yet the persisted ledger is still empty. *)
Lemma backfill_update_leaves_ledger_unchanged :
  let w := TestSink.world [TestSink.page_foo] FileMissing NoFault in
  exists log w',
    run_call (TestSink.api 200) TestSink.no_date (BackfillCall 5)
      (TestSink.env_of [TestSink.paper_foo]) w = Some (log, w')
    /\ write_fault w = NoFault
    /\ log = [(TestSink.paper_foo, UpdateSent 200)]
    /\ ledger_of (ledger_file w')
       <> ledger_of (ledger_file w) ∪ confirmed_ids log.
Proof.
  eexists _, _. split; [vm_compute; reflexivity|].
  split; [reflexivity|]. split; [reflexivity|].
  intros Heq.
  apply (f_equal (fun s : gset Guid => bool_decide (Some "g1" ∈ s))) in Heq.
  vm_compute in Heq. discriminate Heq.
Qed.

End OnBackfillUpdateLeavesLedgerUnchanged.

(** C1, amended. For every publish or backfill call that returns and
    whose ledger write succeeds, and every non-empty identity I: I is in
    the ledger persisted afterward exactly when it was in the ledger loaded
    before the call or is the identity (guid, or link when guid is absent)
    of a record whose remote create returned status 200 in this call.
    Identities of records whose create failed, and of records that were
    only updated, are not added. The create requests of the trace are those
    of the loop log, in order. *)
Theorem ledger_after_call {U : PyUnicode} {Remote : Type} (api : SinkApi Remote)
    (parsedate_isoformat : string -> option string) (c : Call) (env : Env)
    (w w' : World Remote) (log : list (Paper * Outcome)) (I : Guid)
    (Hrun : run_call api parsedate_isoformat c env w = Some (log, w'))
    (Hsaved : write_fault w = NoFault)
    (Hnamed : truthy_opt I = true) :
  (I ∈ ledger_of (ledger_file w')
   <-> I ∈ ledger_of (ledger_file w)
       \/ exists p, (p, CreateSent 200) ∈ log /\ identity p = I)
  /\ create_statuses (trace w')
     = create_statuses (trace w) ++ log_create_statuses log.
Proof.
  destruct c as [limit | fuel]; simpl in Hrun.
  - destruct (publish_run api parsedate_isoformat limit env w)
      as [[res log0] w0] eqn:Hp.
    injection Hrun as -> ->.
    apply publish_run_spec in Hp
      as [(e & _ & -> & ->)
         | (_ & _ & _ & _ & _ & _ & Hfile & Htr)].
    + split; [|simpl; rewrite app_nil_r; reflexivity].
      split; [auto|]. intros [H | (p & Hp & _)]; [exact H | inversion Hp].
    + split; [|exact Htr].
      rewrite Hfile, Hsaved. simpl. rewrite ledger_of_saved.
      rewrite elem_of_union, elem_of_delivered_ids. tauto.
  - destruct (backfill_run api parsedate_isoformat fuel env w)
      as [[[res log0] w0]|] eqn:Hb; [|discriminate].
    injection Hrun as -> ->.
    apply backfill_run_spec in Hb
      as [(e & _ & -> & ->)
         | (errs & _ & _ & _ & _ & Hfile & Htr & _)].
    + split; [|simpl; rewrite app_nil_r; reflexivity].
      split; [auto|]. intros [H | (p & Hp & _)]; [exact H | inversion Hp].
    + split; [|exact Htr].
      rewrite Hfile, Hsaved. simpl. rewrite ledger_of_saved.
      rewrite elem_of_union, elem_of_delivered_named_ids,
        elem_of_delivered_ids. tauto.
Qed.

Section OnLedgerAfterCallWitness.
#[local] Existing Instance ascii_case.

(** A run of C1: a backfill that creates one record with guid "X". *)
Lemma ledger_after_call_witness :
  let w := TestSink.world [] FileMissing NoFault in
  match run_call (TestSink.api 200) TestSink.no_date (BackfillCall 5)
          (TestSink.env_of [TestSink.paper_x1]) w with
  | Some (log, w') =>
      (Some "X" ∈ ledger_of (ledger_file w')
       <-> Some "X" ∈ ledger_of (ledger_file w)
           \/ exists p, (p, CreateSent 200) ∈ log /\ identity p = Some "X")
      /\ create_statuses (trace w')
         = create_statuses (trace w) ++ log_create_statuses log
  | None => False
  end.
Proof.
  intros w.
  destruct (run_call (TestSink.api 200) TestSink.no_date (BackfillCall 5)
              (TestSink.env_of [TestSink.paper_x1]) w)
    as [[log w']|] eqn:Hrun.
  - apply (ledger_after_call (TestSink.api 200) TestSink.no_date
             (BackfillCall 5) (TestSink.env_of [TestSink.paper_x1]) w w' log
             (Some "X") Hrun); reflexivity.
  - vm_compute in Hrun. discriminate Hrun.
Defined.

End OnLedgerAfterCallWitness.

Section OnKnownIdentityLostByTruncatedWrite.
#[local] Existing Instance ascii_case.

(** C2, as stated, fails when the write of the ledger is cut short: the
    ledger holds "X", the feed holds one record with identity "X", the
    call sends no create request and reaches the end of its batch, where
    [open] truncates the ledger file and [json.dump] raises; the call
    returns as usual, and "X" is no longer in the ledger on disk. *)
Lemma known_identity_lost_by_truncated_write :
  let w := TestSink.world []
             (FileJson (mkHistory (Some [Some "X"]) [])) DumpFails in
  exists res log w',
    publish_run (TestSink.api 200) TestSink.no_date 30
      (TestSink.env_of [TestSink.paper_x1]) w = (res, log, w')
    /\ identity TestSink.paper_x1 ∈ ledger_of (ledger_file w)
    /\ res = PublishDone false 0 []
    /\ log = [(TestSink.paper_x1, Skipped)]
    /\ ledger_file w' = FileGarbage
    /\ ~ ((forall s, (TestSink.paper_x1, CreateSent s) ∉ log)
          /\ identity TestSink.paper_x1 ∈ ledger_of (ledger_file w')).
Proof.
  eexists _, _, _. split; [vm_compute; reflexivity|].
  split; [vm_compute; reflexivity|].
  split; [reflexivity|]. split; [reflexivity|]. split; [reflexivity|].
  intros [_ Hin]. vm_compute in Hin. discriminate Hin.
Qed.

End OnKnownIdentityLostByTruncatedWrite.

(** C2, amended. For every record R whose identity I is in the publish
    ledger at the start of a publish call, the call sends no create request
    for R; and I is still in the ledger on disk at the end of the call,
    except when the call reaches the end of its batch and the write of the
    ledger fails after the file was opened for writing: then the file is
    left truncated, the ledger read from it is empty, and I is lost. The
    create requests of the trace are those of the loop log, in order. *)
Theorem published_record_not_recreated {U : PyUnicode} {Remote : Type}
    (api : SinkApi Remote)
    (parsedate_isoformat : string -> option string) (limit : Z) (env : Env)
    (w w' : World Remote) (res : PublishResult)
    (log : list (Paper * Outcome)) (R : Paper)
    (Hrun : publish_run api parsedate_isoformat limit env w = (res, log, w'))
    (Hknown : identity R ∈ ledger_of (ledger_file w)) :
  (forall s, (R, CreateSent s) ∉ log)
  /\ (write_fault w <> DumpFails \/ (exists e, res = PublishRefused e) ->
      identity R ∈ ledger_of (ledger_file w'))
  /\ create_statuses (trace w')
     = create_statuses (trace w) ++ log_create_statuses log
  /\ (write_fault w = DumpFails ->
      forall success created errors,
        res = PublishDone success created errors ->
        ledger_file w' = FileGarbage
        /\ ledger_of (ledger_file w') = ∅
        /\ identity R ∉ ledger_of (ledger_file w')).
Proof.
  apply publish_run_spec in Hrun
    as [(e & -> & -> & ->)
       | (Hres & _ & _ & Hfresh & _ & _ & Hfile & Htr)].
  - split; [intros s Hs; inversion Hs|].
    split; [intros _; exact Hknown|].
    split; [simpl; rewrite app_nil_r; reflexivity|].
    intros _ success created errors Hres. discriminate Hres.
  - split; [intros s Hs; apply Hfresh in Hs; contradiction|].
    split; [|split; [exact Htr|]].
    + intros [Hdisk | (e & He)].
      * rewrite Hfile. destruct (write_fault w); simpl.
        -- rewrite ledger_of_saved. apply elem_of_union. right. exact Hknown.
        -- exact Hknown.
        -- contradiction.
      * destruct res; [discriminate Hres | discriminate He].
    + intros Hdump success created errors _.
      rewrite Hfile, Hdump. simpl.
      split; [reflexivity|]. split; [reflexivity|].
      apply not_elem_of_empty.
Qed.

Section OnPublishedRecordNotRecreatedWitness.
#[local] Existing Instance ascii_case.

(** A run of C2: the ledger already holds "X", the feed holds two records
    with that identity. *)
Lemma published_record_not_recreated_witness :
  let w := TestSink.world []
             (FileJson (mkHistory (Some [Some "X"]) [])) NoFault in
  let out := publish_run (TestSink.api 200) TestSink.no_date 30
               (TestSink.env_of [TestSink.paper_x1; TestSink.paper_x2]) w in
  (forall s, (TestSink.paper_x1, CreateSent s) ∉ snd (fst out))
  /\ identity TestSink.paper_x1 ∈ ledger_of (ledger_file (snd out))
  /\ create_statuses (trace (snd out))
     = create_statuses (trace w) ++ log_create_statuses (snd (fst out)).
Proof.
  intros w out.
  destruct (published_record_not_recreated (TestSink.api 200)
              TestSink.no_date 30
              (TestSink.env_of [TestSink.paper_x1; TestSink.paper_x2]) w
              (snd out) (fst (fst out)) (snd (fst out)) TestSink.paper_x1)
    as (Hnone & Hkept & Htrace & _).
  - subst out. destruct (publish_run _ _ _ _ w) as [[res log] w'].
    reflexivity.
  - vm_compute. reflexivity.
  - split; [exact Hnone|]. split; [|exact Htrace].
    apply Hkept. left. discriminate.
Defined.

End OnPublishedRecordNotRecreatedWitness.

(* ===================================================================== *)
(** ** The success flag                                                  *)
(* ===================================================================== *)

Lemma count_of_no_create (log : list (Paper * Outcome)) :
  (forall p s, (p, CreateSent s) ∉ log) ->
  count_of confirmed_create log = 0 /\ count_of failed_create log = 0.
Proof.
  induction log as [|[p o] log IH]; intros Hno; [split; reflexivity|].
  rewrite !count_of_cons.
  destruct IH as [IH1 IH2].
  { intros q s Hq. apply (Hno q s). right. exact Hq. }
  rewrite IH1, IH2. destruct o as [|st|st]; try (split; reflexivity).
  exfalso. apply (Hno p st). left.
Qed.

Lemma publish_all_known {U : PyUnicode} {Remote : Type} (api : SinkApi Remote)
    (parsedate_isoformat : string -> option string) (limit : Z) (env : Env)
    (w w' : World Remote) (res : PublishResult)
    (log : list (Paper * Outcome)) :
  publish_run api parsedate_isoformat limit env w = (res, log, w') ->
  (forall p, p ∈ rss_papers env -> identity p ∈ ledger_of (ledger_file w)) ->
  publish_success res = false /\ publish_created res = 0
  /\ publish_errors res = [] /\ forall p s, (p, CreateSent s) ∉ log.
Proof.
  intros Hrun Hall. apply publish_run_spec in Hrun
    as [(e & -> & -> & ->)
       | (Hres & Herr & Hmem & Hfresh & _)].
  - repeat split. intros p s Hp. inversion Hp.
  - assert (Hno : forall p s, (p, CreateSent s) ∉ log).
    { intros p s Hp. apply (Hfresh p s Hp). apply Hall. eapply Hmem, Hp. }
    destruct (count_of_no_create log Hno) as [Hc Hf].
    rewrite Hc in Hres. rewrite Hf in Herr.
    destruct (publish_errors res) as [|e errs] eqn:He; [|simpl in Herr; lia].
    rewrite Hres. simpl. repeat split. exact Hno.
Qed.

Lemma confirmed_among_creates (log : list (Paper * Outcome)) :
  count_of confirmed_create log = confirmed_among (log_create_statuses log).
Proof.
  unfold count_of, confirmed_among, log_create_statuses. f_equal.
  induction log as [|[p o] log IH]; [reflexivity|].
  destruct o as [|st|st]; simpl; try exact IH.
  unfold confirmed_create at 1. simpl.
  destruct (st =? 200); simpl; rewrite IH; reflexivity.
Qed.

Lemma confirmed_among_updates (log : list (Paper * Outcome)) :
  count_of confirmed_update log = confirmed_among (log_update_statuses log).
Proof.
  unfold count_of, confirmed_among, log_update_statuses. f_equal.
  induction log as [|[p o] log IH]; [reflexivity|].
  destruct o as [|st|st]; simpl; try exact IH.
  unfold confirmed_update at 1. simpl.
  destruct (st =? 200); simpl; rewrite IH; reflexivity.
Qed.

Lemma confirmed_among_pos (statuses : list Z) :
  0 < confirmed_among statuses <-> 200 ∈ statuses.
Proof.
  unfold confirmed_among.
  induction statuses as [|st statuses IH]; simpl.
  - split; [lia | intros H; inversion H].
  - destruct (st =? 200) eqn:Hst.
    + apply Z.eqb_eq in Hst. subst st. simpl.
      split; [intros _; left | lia].
    + rewrite IH. apply Z.eqb_neq in Hst. split.
      * intros H. right. exact H.
      * intros H. apply elem_of_cons in H as [H | H]; [congruence | exact H].
Qed.

(** C10. The success flag of publish is true exactly when created > 0,
    where created is the number of create requests that the call sent and
    that the sink answered with status 200: the flag is true exactly when
    at least one entity was created in the call. So a run in which every
    parsed record is already in the ledger sends no create request and
    returns success = false, with created = 0 and no errors. Likewise the
    success flag of backfill is true exactly when updated + created > 0,
    updated and created being the numbers of update and create requests of
    the call that were answered with status 200. *)
Theorem success_flag_iff_delivered {U : PyUnicode} {Remote : Type}
    (api : SinkApi Remote)
    (parsedate_isoformat : string -> option string) (env : Env)
    (w : World Remote) :
  (forall limit res log w',
      publish_run api parsedate_isoformat limit env w = (res, log, w') ->
      (publish_success res = true <-> 0 < publish_created res)
      /\ publish_created res = count_of confirmed_create log
      /\ ((forall p, p ∈ rss_papers env ->
             identity p ∈ ledger_of (ledger_file w)) ->
          publish_success res = false /\ publish_created res = 0
          /\ publish_errors res = []
          /\ create_statuses (trace w') = create_statuses (trace w))
      /\ exists sent_creates,
           create_statuses (trace w')
           = create_statuses (trace w) ++ sent_creates
           /\ sent_creates = log_create_statuses log
           /\ publish_created res = confirmed_among sent_creates
           /\ (publish_success res = true <-> 200 ∈ sent_creates))
  /\ (forall fuel res log w',
      backfill_run api parsedate_isoformat fuel env w = Some (res, log, w') ->
      (backfill_success res = true
       <-> 0 < backfill_updated res + backfill_created res)
      /\ backfill_updated res = count_of confirmed_update log
      /\ backfill_created res = count_of confirmed_create log
      /\ exists sent_updates sent_creates,
           update_statuses (trace w')
           = update_statuses (trace w) ++ sent_updates
           /\ create_statuses (trace w')
              = create_statuses (trace w) ++ sent_creates
           /\ sent_updates = log_update_statuses log
           /\ sent_creates = log_create_statuses log
           /\ backfill_updated res = confirmed_among sent_updates
           /\ backfill_created res = confirmed_among sent_creates
           /\ (backfill_success res = true
               <-> 200 ∈ sent_updates \/ 200 ∈ sent_creates)).
Proof.
  split.
  - intros limit res log w' Hrun.
    assert (Hflag : publish_success res = true <-> 0 < publish_created res).
    { destruct (publish_run_spec _ _ _ _ _ _ _ _ Hrun)
        as [(e & -> & _) | (-> & _)]; simpl.
      - split; [discriminate | lia].
      - apply Z.ltb_lt. }
    assert (Hcount : publish_created res = count_of confirmed_create log).
    { destruct (publish_run_spec _ _ _ _ _ _ _ _ Hrun)
        as [(e & -> & -> & _) | (-> & _)]; reflexivity. }
    assert (Hcs : create_statuses (trace w')
                  = create_statuses (trace w) ++ log_create_statuses log).
    { destruct (publish_run_spec _ _ _ _ _ _ _ _ Hrun)
        as [(e & _ & -> & ->) | (_ & _ & _ & _ & _ & _ & _ & Htr)];
        [simpl; rewrite app_nil_r; reflexivity | exact Htr]. }
    split; [exact Hflag|]. split; [exact Hcount|]. split.
    + intros Hall.
      destruct (publish_all_known _ _ _ _ _ _ _ _ Hrun Hall)
        as (Hs & Hc & He & Hno).
      split; [exact Hs|]. split; [exact Hc|]. split; [exact He|].
      rewrite Hcs.
      assert (Hnil : log_create_statuses log = []).
      { clear -Hno. unfold log_create_statuses.
        induction log as [|[p o] log IH]; [reflexivity|].
        destruct o as [|st|st].
        - apply IH. intros q s Hq. apply (Hno q s). right. exact Hq.
        - exfalso. apply (Hno p st). left.
        - apply IH. intros q s Hq. apply (Hno q s). right. exact Hq. }
      rewrite Hnil, app_nil_r. reflexivity.
    + exists (log_create_statuses log).
      split; [exact Hcs|]. split; [reflexivity|].
      split; [rewrite Hcount; apply confirmed_among_creates|].
      rewrite Hflag, Hcount, confirmed_among_creates.
      apply confirmed_among_pos.
  - intros fuel res log w' Hrun.
    destruct (backfill_run_spec _ _ _ _ _ _ _ _ Hrun)
      as [(e & -> & -> & ->) | (errs & -> & _ & _ & _ & _ & Hcs & Hus)];
      simpl.
    + split; [split; [discriminate | lia]|].
      split; [reflexivity|]. split; [reflexivity|].
      exists [], []. rewrite !app_nil_r.
      repeat (split; [reflexivity|]).
      split; [discriminate|]. intros [H | H]; inversion H.
    + split; [apply Z.ltb_lt|]. split; [reflexivity|].
      split; [reflexivity|].
      exists (log_update_statuses log), (log_create_statuses log).
      split; [exact Hus|]. split; [exact Hcs|].
      split; [reflexivity|]. split; [reflexivity|].
      split; [apply confirmed_among_updates|].
      split; [apply confirmed_among_creates|].
      rewrite Z.ltb_lt, confirmed_among_updates, confirmed_among_creates.
      rewrite <- !confirmed_among_pos.
      pose proof (Zle_0_nat
        (length (List.filter (fun st => st =? 200) (log_update_statuses log)))).
      pose proof (Zle_0_nat
        (length (List.filter (fun st => st =? 200) (log_create_statuses log)))).
      unfold confirmed_among. lia.
Qed.

Section OnSuccessFlagIffDeliveredWitness.
#[local] Existing Instance ascii_case.

(** Two runs of C10 on a ledger that holds "X". In the first the feed
    holds a record with identity "X", which is skipped, and a new record,
    which is created; in the second both records of the feed have identity
    "X". *)
Lemma success_flag_iff_delivered_witness :
  let w := TestSink.world []
             (FileJson (mkHistory (Some [Some "X"]) [])) NoFault in
  (let env := TestSink.env_of [TestSink.paper_x1; TestSink.paper_foo] in
   let out := publish_run (TestSink.api 200) TestSink.no_date 30 env w in
   publish_success (fst (fst out)) = true
   /\ publish_created (fst (fst out)) = 1
   /\ (publish_success (fst (fst out)) = true
       <-> 0 < publish_created (fst (fst out)))
   /\ exists sent_creates,
        create_statuses (trace (snd out))
        = create_statuses (trace w) ++ sent_creates
        /\ sent_creates = log_create_statuses (snd (fst out))
        /\ publish_created (fst (fst out)) = confirmed_among sent_creates
        /\ (publish_success (fst (fst out)) = true <-> 200 ∈ sent_creates))
  /\ (let env := TestSink.env_of [TestSink.paper_x1; TestSink.paper_x2] in
      let out := publish_run (TestSink.api 200) TestSink.no_date 30 env w in
      publish_success (fst (fst out)) = false
      /\ publish_created (fst (fst out)) = 0
      /\ publish_errors (fst (fst out)) = []
      /\ create_statuses (trace (snd out)) = create_statuses (trace w)).
Proof.
  intros w. split.
  - intros env out.
    destruct (success_flag_iff_delivered (TestSink.api 200) TestSink.no_date
                env w) as [Hpub _].
    destruct (Hpub 30 (fst (fst out)) (snd (fst out)) (snd out))
      as (Hiff & _ & _ & Hsent).
    { subst out. destruct (publish_run _ _ _ _ w) as [[res log] w'].
      reflexivity. }
    split; [vm_compute; reflexivity|]. split; [vm_compute; reflexivity|].
    split; [exact Hiff | exact Hsent].
  - intros env out.
    destruct (success_flag_iff_delivered (TestSink.api 200) TestSink.no_date
                env w) as [Hpub _].
    destruct (Hpub 30 (fst (fst out)) (snd (fst out)) (snd out))
      as (_ & _ & Hall & _).
    { subst out. destruct (publish_run _ _ _ _ w) as [[res log] w'].
      reflexivity. }
    apply Hall.
    intros p Hp. subst env. simpl in Hp.
    apply elem_of_cons in Hp as [-> | Hp]; [vm_compute; reflexivity|].
    apply elem_of_cons in Hp as [-> | Hp]; [vm_compute; reflexivity|].
    inversion Hp.
Defined.

End OnSuccessFlagIffDeliveredWitness.

(* ===================================================================== *)
(** ** Two records with one identity                                     *)
(* ===================================================================== *)

Section SharedIdentity.
Context {Remote : Type} {U : PyUnicode}.
Variable api : SinkApi Remote.
Variable parsedate_isoformat : string -> option string.

Lemma publish_loop_shared_identity (limit : Z) (cfg : Config)
    (pm : PropertiesMap) (title_prop : string) (p1 p2 : Paper)
    (st : PublishState) (w : World Remote) :
  accepts_all_creates api -> 0 < limit -> created st = 0 ->
  identity p2 = identity p1 -> identity p1 ∉ published st ->
  exists st' w',
    publish_loop api parsedate_isoformat limit cfg pm title_prop [p1; p2]
      st w = (st', w')
    /\ created st' = 1
    /\ published st' = {[identity p1]} ∪ published st.
Proof.
  intros Hacc Hlim Hzero Hsame Hfresh.
  cbn [publish_loop]. rewrite Hzero.
  destruct (0 >=? limit) eqn:Hge; [apply Z.geb_le in Hge; lia|].
  destruct (publish_body _ _ _ _ _ p1 st w) as [st1 w1] eqn:Hb1.
  apply publish_body_cases in Hb1
    as [(Hin & _) | [(_ & body & _ & -> & ->)
                    | (_ & body & status & e & Hlink & Hst & _)]].
  - contradiction.
  - simpl. rewrite Hzero.
    destruct (0 + 1 >=? limit); [eexists _, _; repeat split; reflexivity|].
    match goal with
    | |- context [publish_body _ _ _ _ _ p2 ?s ?x] =>
        destruct (publish_body api parsedate_isoformat cfg pm title_prop
                    p2 s x) as [st2 w2] eqn:Hb2
    end.
    apply publish_body_cases in Hb2
      as [(_ & -> & ->) | [(Hnin & _) | (Hnin & _)]].
    + eexists _, _. repeat split; reflexivity.
    + exfalso. apply Hnin. simpl. rewrite Hsame.
      apply elem_of_union. left. apply elem_of_singleton. reflexivity.
    + exfalso. apply Hnin. simpl. rewrite Hsame.
      apply elem_of_union. left. apply elem_of_singleton. reflexivity.
  - exfalso. apply Hst. rewrite <- Hlink. apply Hacc.
Qed.

End SharedIdentity.

Section OnSharedIdentityFirstCallCreatesOne.
#[local] Existing Instance ascii_case.

(** C3, as stated, fails: with an empty ledger and a sink that accepts
    every create, the first publish call over two records sharing identity
    "X" creates one entity, not two. *)
Lemma shared_identity_first_call_creates_one :
  let w := TestSink.world [] FileMissing NoFault in
  let env := TestSink.env_of [TestSink.paper_x1; TestSink.paper_x2] in
  let r1 := publish_from_latest_rss (TestSink.api 200) TestSink.no_date 30
              env w in
  let r2 := publish_from_latest_rss (TestSink.api 200) TestSink.no_date 30
              env (snd r1) in
  identity TestSink.paper_x1 = Some "X"
  /\ identity TestSink.paper_x2 = Some "X"
  /\ ledger_of (ledger_file w) = ∅
  /\ ~ (publish_created (fst r1) = 2 /\ publish_created (fst r2) = 0).
Proof.
  split; [reflexivity|]. split; [reflexivity|]. split; [reflexivity|].
  vm_compute. intros [H _]. discriminate H.
Qed.

End OnSharedIdentityFirstCallCreatesOne.

(** A publish call over two records that share an identity, from an empty
    ledger and with a sink that accepts every create: one entity is
    created, and the ledger on disk afterwards depends on the write. *)
Lemma publish_shared_identity_call {U : PyUnicode} {Remote : Type}
    (api : SinkApi Remote) (parsedate_isoformat : string -> option string)
    (limit : Z) (env : Env) (w : World Remote) (p1 p2 : Paper) (X : Guid) :
  notion_enabled (config env) = true ->
  PyStr.truthy (integration_token (config env)) = true ->
  PyStr.truthy (database_id (config env)) = true ->
  truthy_opt (latest_rss env) = true ->
  rss_papers env = [p1; p2] ->
  identity p1 = X -> identity p2 = X ->
  ledger_of (ledger_file w) = ∅ ->
  accepts_all_creates api -> 0 < limit ->
  let r := publish_from_latest_rss api parsedate_isoformat limit env w in
  publish_created (fst r) = 1
  /\ write_fault (snd r) = write_fault w
  /\ ledger_of (ledger_file (snd r))
     = match write_fault w with NoFault => {[X]} | _ => ∅ end.
Proof.
  intros Henabled Htoken Hdb Hfeed Hpapers Hid1 Hid2 Hempty Haccept Hlimit r.
  subst r. unfold publish_from_latest_rss, publish_run.
  rewrite Henabled, Htoken, Hdb, Hfeed, Hpapers. cbn [negb orb nonempty].
  pose proof (get_database_properties_same_disk api
                (integration_token (config env)) (database_id (config env)) w)
    as Hget.
  destruct (get_database_properties _ _ _ w) as [pm0 w1]. simpl in Hget.
  pose proof (ensure_database_properties_same_disk api
                (integration_token (config env)) (database_id (config env))
                pm0 w1) as Hens.
  destruct (ensure_database_properties _ _ _ pm0 w1) as [pm w2].
  simpl in Hens.
  pose proof (same_disk_trans _ _ _ Hget Hens) as (Hf & Hwf & _).
  assert (Hset : guid_set (load_publish_history (ledger_file w2)) = ∅).
  { rewrite Hf. exact Hempty. }
  destruct (publish_loop_shared_identity api parsedate_isoformat limit
              (config env) pm (find_title_property pm) p1 p2
              (mkPublishState 0 [] (guid_set
                 (load_publish_history (ledger_file w2))) []) w2)
    as (st & w3 & Hloop & Hcr & Hpub); try assumption.
  - reflexivity.
  - congruence.
  - simpl. rewrite Hset. apply not_elem_of_empty.
  - rewrite Hloop. simpl. split; [exact Hcr|].
    apply publish_loop_spec in Hloop as (Hfile & Hfault & _).
    destruct (persist_fields (load_publish_history (ledger_file w2))
                (published st) w3) as (Pf & Pw & _).
    split; [rewrite Pw, Hfault, Hwf; reflexivity|].
    rewrite Pf, Hfault, Hwf, Hfile, Hf.
    destruct (write_fault w); simpl.
    + rewrite ledger_of_saved. rewrite Hpub. simpl. rewrite Hset, Hid1.
      apply (right_id_L ∅ (∪)).
    + exact Hempty.
    + reflexivity.
Qed.

(** C3, amended. Given two input records sharing identity "X", an empty
    ledger, a positive limit and a sink accepting all creates, a first
    publish call delivers exactly one of them (created = 1), whatever the
    fate of the ledger write: the second is skipped because the first put
    "X" into the set of published guids. When the ledger write of the first
    call succeeds, the resulting ledger is {"X"} and a second publish call
    over the same two records delivers zero; when that write fails, the
    ledger on disk is still empty and the second call delivers one again. *)
Theorem shared_identity_published_once {U : PyUnicode} {Remote : Type}
    (api : SinkApi Remote)
    (parsedate_isoformat : string -> option string) (limit : Z) (env : Env)
    (w : World Remote) (p1 p2 : Paper)
    (Henabled : notion_enabled (config env) = true)
    (Htoken : PyStr.truthy (integration_token (config env)) = true)
    (Hdb : PyStr.truthy (database_id (config env)) = true)
    (Hfeed : truthy_opt (latest_rss env) = true)
    (Hpapers : rss_papers env = [p1; p2])
    (Hid1 : identity p1 = Some "X")
    (Hid2 : identity p2 = Some "X")
    (Hempty : ledger_of (ledger_file w) = ∅)
    (Haccept : accepts_all_creates api)
    (Hlimit : 0 < limit) :
  let r1 := publish_from_latest_rss api parsedate_isoformat limit env w in
  let r2 := publish_from_latest_rss api parsedate_isoformat limit env (snd r1) in
  publish_created (fst r1) = 1
  /\ (write_fault w = NoFault ->
      ledger_of (ledger_file (snd r1)) = {[Some "X"]}
      /\ publish_created (fst r2) = 0)
  /\ (write_fault w <> NoFault ->
      ledger_of (ledger_file (snd r1)) = ∅
      /\ publish_created (fst r2) = 1).
Proof.
  intros r1 r2.
  destruct (publish_shared_identity_call api parsedate_isoformat limit env w
              p1 p2 (Some "X")) as (Hc1 & Hw1 & Hl1); try assumption.
  fold r1 in Hc1, Hw1, Hl1.
  split; [exact Hc1|]. split.
  - intros Hsaved. rewrite Hsaved in Hl1. split; [exact Hl1|].
    subst r2. unfold publish_from_latest_rss at 1.
    destruct (publish_run api parsedate_isoformat limit env (snd r1))
      as [[res log] w'] eqn:Hrun2.
    apply publish_all_known in Hrun2 as (_ & Hc & _); [exact Hc|].
    intros p Hp. rewrite Hpapers in Hp. rewrite Hl1.
    apply elem_of_singleton.
    apply elem_of_cons in Hp as [-> | Hp]; [exact Hid1|].
    apply elem_of_cons in Hp as [-> | Hp]; [exact Hid2|].
    inversion Hp.
  - intros Hfailed.
    assert (Hl0 : ledger_of (ledger_file (snd r1)) = ∅).
    { rewrite Hl1. destruct (write_fault w); [contradiction | | ]; reflexivity. }
    split; [exact Hl0|].
    destruct (publish_shared_identity_call api parsedate_isoformat limit env
                (snd r1) p1 p2 (Some "X")) as (Hc2 & _); assumption.
Qed.

Section OnSharedIdentityPublishedOnceWitness.
#[local] Existing Instance ascii_case.

(** Two runs of C3 on two concrete records with guid "X": one in which the
    ledger is written, one in which the ledger file cannot be opened. *)
Lemma shared_identity_published_once_witness :
  (let w := TestSink.world [] FileMissing NoFault in
   let env := TestSink.env_of [TestSink.paper_x1; TestSink.paper_x2] in
   let r1 := publish_from_latest_rss (TestSink.api 200) TestSink.no_date 30
               env w in
   let r2 := publish_from_latest_rss (TestSink.api 200) TestSink.no_date 30
               env (snd r1) in
   publish_created (fst r1) = 1
   /\ ledger_of (ledger_file (snd r1)) = {[Some "X"]}
   /\ publish_created (fst r2) = 0)
  /\ (let w := TestSink.world [] FileMissing OpenFails in
      let env := TestSink.env_of [TestSink.paper_x1; TestSink.paper_x2] in
      let r1 := publish_from_latest_rss (TestSink.api 200) TestSink.no_date 30
                  env w in
      let r2 := publish_from_latest_rss (TestSink.api 200) TestSink.no_date 30
                  env (snd r1) in
      publish_created (fst r1) = 1
      /\ ledger_of (ledger_file (snd r1)) = ∅
      /\ publish_created (fst r2) = 1).
Proof.
  split.
  - intros w env.
    destruct (shared_identity_published_once (TestSink.api 200)
                TestSink.no_date 30 env w TestSink.paper_x1 TestSink.paper_x2)
      as (Hc1 & Hsaved & _);
      try reflexivity; [intros token body r; reflexivity|].
    split; [exact Hc1|]. apply Hsaved. reflexivity.
  - intros w env.
    destruct (shared_identity_published_once (TestSink.api 200)
                TestSink.no_date 30 env w TestSink.paper_x1 TestSink.paper_x2)
      as (Hc1 & _ & Hfailed);
      try reflexivity; [intros token body r; reflexivity|].
    split; [exact Hc1|]. apply Hfailed. discriminate.
Defined.

End OnSharedIdentityPublishedOnceWitness.

(* ===================================================================== *)
(** ** A failing write of the ledger                                     *)
(* ===================================================================== *)

Section FaultFacts.
Context {Remote : Type} {U : PyUnicode}.
Variable api : SinkApi Remote.
Variable parsedate_isoformat : string -> option string.
Variable f : IoFault.

Lemma get_database_properties_with_fault (token db : string)
    (w : World Remote) :
  get_database_properties api token db (with_fault f w)
  = (fst (get_database_properties api token db w),
     with_fault f (snd (get_database_properties api token db w))).
Proof.
  unfold get_database_properties. simpl.
  destruct (GET_database api token db (remote w)) as [resp r].
  destruct (negb (schema_status resp =? 200)); reflexivity.
Qed.

Lemma patch_need_with_fault (token db : string) (pm : PropertiesMap)
    (need : list (string * string)) (w : World Remote) :
  patch_need api token db pm need (with_fault f w)
  = (fst (patch_need api token db pm need w),
     with_fault f (snd (patch_need api token db pm need w))).
Proof.
  unfold patch_need. destruct need as [|kt need]; [reflexivity|]. simpl.
  destruct (PATCH_database api token db (kt :: need) (remote w)) as [resp r].
  destruct (status_code resp =? 200); [|reflexivity].
  apply (get_database_properties_with_fault token db
           (sent r (EvPatchSchema (kt :: need) (status_code resp)) w)).
Qed.

Lemma publish_body_with_fault (cfg : Config) (pm : PropertiesMap)
    (title_prop : string) (paper : Paper) (st : PublishState)
    (w : World Remote) :
  publish_body api parsedate_isoformat cfg pm title_prop paper st
    (with_fault f w)
  = (fst (publish_body api parsedate_isoformat cfg pm title_prop paper st w),
     with_fault f
       (snd (publish_body api parsedate_isoformat cfg pm title_prop
               paper st w))).
Proof.
  unfold publish_body. case_bool_decide; [reflexivity|].
  destruct (extract_authors_and_abstract _) as [authors abstract_text].
  unfold create_page. simpl.
  destruct (POST_pages api _ _ (remote w)) as [resp r].
  destruct (status_code resp =? 200); reflexivity.
Qed.

Lemma publish_loop_with_fault (limit : Z) (cfg : Config)
    (pm : PropertiesMap) (title_prop : string) (papers : list Paper)
    (st : PublishState) (w : World Remote) :
  publish_loop api parsedate_isoformat limit cfg pm title_prop papers st
    (with_fault f w)
  = (fst (publish_loop api parsedate_isoformat limit cfg pm title_prop
            papers st w),
     with_fault f
       (snd (publish_loop api parsedate_isoformat limit cfg pm title_prop
               papers st w))).
Proof.
  revert st w. induction papers as [|paper rest IH]; intros st w;
    [reflexivity|].
  cbn [publish_loop]. destruct (created st >=? limit); [reflexivity|].
  rewrite publish_body_with_fault.
  destruct (publish_body _ _ _ _ _ paper st w) as [st1 w1]. simpl.
  apply IH.
Qed.

(** The result, the loop log, the requests sent and the sink do not
    depend on the fate of the write. *)
Lemma publish_run_with_fault (limit : Z) (env : Env) (w : World Remote) :
  let faulty := publish_run api parsedate_isoformat limit env (with_fault f w) in
  let plain := publish_run api parsedate_isoformat limit env w in
  fst faulty = fst plain
  /\ trace (snd faulty) = trace (snd plain)
  /\ remote (snd faulty) = remote (snd plain).
Proof.
  unfold publish_run.
  destruct (negb (notion_enabled (config env))); [repeat split|].
  destruct (negb (PyStr.truthy (integration_token (config env)))
            || negb (PyStr.truthy (database_id (config env))));
    [repeat split|].
  destruct (negb (truthy_opt (latest_rss env))); [repeat split|].
  destruct (negb (nonempty (rss_papers env))); [repeat split|].
  rewrite get_database_properties_with_fault.
  destruct (get_database_properties _ _ _ w) as [pm0 w1]. simpl.
  unfold ensure_database_properties. rewrite patch_need_with_fault.
  destruct (patch_need _ _ _ pm0 _ w1) as [pm w2]. simpl.
  rewrite publish_loop_with_fault.
  destruct (publish_loop _ _ _ _ _ _ _ _ w2) as [st w3]. simpl.
  unfold persist. simpl.
  destruct (save_publish_history _ f _) as [b1 f1].
  destruct (save_publish_history _ (write_fault w3) _) as [b2 f2].
  repeat split.
Qed.

End FaultFacts.

Section OnFailedPersistUnreportedAndDestructive.
#[local] Existing Instance ascii_case.

(** C5, as stated, fails: the write of the ledger is cut short after the
    file was opened for writing; the publish step reports success with an
    empty error list, and the file that held the prior ledger is left
    truncated. *)
Lemma failed_persist_unreported_and_destructive :
  let w := TestSink.world [] prior_ledger DumpFails in
  let r := publish_from_latest_rss (TestSink.api 200) TestSink.no_date 30
             (TestSink.env_of [TestSink.paper_x1]) w in
  write_fault w <> NoFault
  /\ fst r = PublishDone true 1 []
  /\ ledger_file (snd r) = FileGarbage
  /\ ~ (ledger_file (snd r) = ledger_file w
        /\ (publish_success (fst r) = false \/ publish_errors (fst r) <> [])).
Proof.
  split; [discriminate|]. split; [vm_compute; reflexivity|].
  split; [vm_compute; reflexivity|].
  intros [H _]. vm_compute in H. discriminate H.
Qed.

End OnFailedPersistUnreportedAndDestructive.

(** C5, amended. The publish step always returns a result, and when
    persisting the ledger fails that result is the one it would have
    returned had the write succeeded: the failure is swallowed by
    [save_publish_history] and is not reported. The requests sent are the
    same as well. The prior on-disk ledger is intact when the file could not
    be opened; when the write fails after the file was opened for writing,
    a call that reached the write leaves the file unreadable as a ledger. *)
Theorem failed_persist_is_silent {U : PyUnicode} {Remote : Type}
    (api : SinkApi Remote)
    (parsedate_isoformat : string -> option string) (limit : Z) (env : Env)
    (w : World Remote) (fault : IoFault) :
  let healthy :=
    publish_from_latest_rss api parsedate_isoformat limit env
      (with_fault NoFault w) in
  let faulty :=
    publish_from_latest_rss api parsedate_isoformat limit env
      (with_fault fault w) in
  fst faulty = fst healthy
  /\ trace (snd faulty) = trace (snd healthy)
  /\ match fault with
     | NoFault => ledger_file (snd faulty) = ledger_file (snd healthy)
     | OpenFails => ledger_file (snd faulty) = ledger_file w
     | DumpFails =>
         match fst faulty with
         | PublishRefused _ => ledger_file (snd faulty) = ledger_file w
         | PublishDone _ _ _ => ledger_file (snd faulty) = FileGarbage
         end
     end.
Proof.
  intros healthy faulty. subst healthy faulty.
  unfold publish_from_latest_rss.
  destruct (publish_run_with_fault api parsedate_isoformat fault limit env w)
    as (Hf1 & Hf2 & _).
  destruct (publish_run_with_fault api parsedate_isoformat NoFault limit env w)
    as (Hh1 & Hh2 & _).
  destruct (publish_run api parsedate_isoformat limit env (with_fault fault w))
    as [[res1 log1] w1] eqn:Hrun1.
  destruct (publish_run api parsedate_isoformat limit env
              (with_fault NoFault w)) as [[res2 log2] w2] eqn:Hrun2.
  destruct (publish_run api parsedate_isoformat limit env w)
    as [[res0 log0] w0].
  simpl in *. injection Hf1 as -> ->. injection Hh1 as -> ->.
  split; [reflexivity|]. split; [congruence|].
  apply publish_run_spec in Hrun1
    as [(e & -> & _ & ->) | (Hres & _ & _ & _ & _ & _ & Hfile & _)].
  - destruct fault; simpl; try reflexivity.
    apply publish_run_spec in Hrun2
      as [(e2 & _ & _ & ->) | (Hres2 & _)]; [reflexivity|].
    discriminate Hres2.
  - simpl in Hfile. destruct fault; simpl in Hfile.
    + apply publish_run_spec in Hrun2
        as [(e2 & He2 & _) | (_ & _ & _ & _ & _ & _ & Hfile2 & _)].
      * rewrite Hres in He2. discriminate He2.
      * simpl in Hfile2. congruence.
    + exact Hfile.
    + rewrite Hres. exact Hfile.
Qed.

(* ===================================================================== *)
(** ** Records without identity                                          *)
(* ===================================================================== *)

(** Backfill guards the ledger with [if guid:]: an empty identity is never
    added by a backfill call. *)
Lemma backfill_never_records_empty_identity {U : PyUnicode} {Remote : Type}
    (api : SinkApi Remote) (parsedate_isoformat : string -> option string)
    (fuel : nat) (env : Env) (w w' : World Remote) (res : BackfillResult)
    (log : list (Paper * Outcome)) (I : Guid) :
  backfill_run api parsedate_isoformat fuel env w = Some (res, log, w') ->
  truthy_opt I = false ->
  I ∈ ledger_of (ledger_file w') -> I ∈ ledger_of (ledger_file w).
Proof.
  intros Hrun Hempty Hin. apply backfill_run_spec in Hrun
    as [(e & _ & _ & ->) | (errs & _ & _ & _ & _ & Hfile & _)];
    [exact Hin|].
  rewrite Hfile in Hin. destruct (write_fault w); simpl in Hin.
  - rewrite ledger_of_saved in Hin.
    apply elem_of_union in Hin as [Hnamed | Hold]; [|exact Hold].
    apply elem_of_delivered_named_ids in Hnamed as [Ht _]. congruence.
  - exact Hin.
  - unfold ledger_of, guid_set in Hin. simpl in Hin.
    apply elem_of_empty in Hin. contradiction.
Qed.

Section OnPublishRecordsEmptyIdentity.
#[local] Existing Instance ascii_case.

(** C9 fails on publish. A record with neither guid nor link has the
    identity [None]; with an empty ledger and a sink that accepts the
    create, publish adds that identity to the set of published guids and
    writes it to the ledger as a null entry. (Backfill, which guards the
    same statement with [if guid:], does not: see
    [backfill_never_records_empty_identity].) *)
Theorem publish_records_empty_identity :
  let w := TestSink.world [] FileMissing NoFault in
  let r := publish_from_latest_rss (TestSink.api 200) TestSink.no_date 30
             (TestSink.env_of [TestSink.paper_anonymous]) w in
  identity TestSink.paper_anonymous = None
  /\ fst r = PublishDone true 1 []
  /\ ledger_file (snd r) = FileJson (mkHistory (Some [None]) [])
  /\ None ∈ ledger_of (ledger_file (snd r)).
Proof.
  split; [reflexivity|]. split; [vm_compute; reflexivity|].
  split; [vm_compute; reflexivity|]. vm_compute. reflexivity.
Qed.

End OnPublishRecordsEmptyIdentity.

(* ===================================================================== *)
(** ** More on the retrying fetch                                        *)
(* ===================================================================== *)

(** The events already logged are only carried along. *)
Lemma retry_loop_log {A} (fuel : nat) (fetch : nat -> Fetch.FetchOutcome A)
    (calls : nat) (rc : Z) (papers : list A) (log : list Fetch.FetchEvent) :
  Fetch.retry_loop fuel fetch calls rc papers log
  = (fst (Fetch.retry_loop fuel fetch calls rc papers []),
     log ++ snd (Fetch.retry_loop fuel fetch calls rc papers [])).
Proof.
  revert calls rc papers log.
  induction fuel as [|fuel IH]; intros calls rc papers log; simpl.
  - rewrite app_nil_r. reflexivity.
  - destruct (rc <? Fetch.max_retries); [|rewrite app_nil_r; reflexivity].
    destruct (fetch calls) as [ps | e].
    + destruct (nonempty ps); [reflexivity|].
      rewrite (IH _ _ _ (log ++ [Fetch.Attempt])), (IH _ _ _ [Fetch.Attempt]).
      simpl. rewrite <- app_assoc. reflexivity.
    + destruct (rc + 1 >=? Fetch.max_retries); [reflexivity|].
      rewrite (IH _ _ _ (log ++ _)), (IH _ _ _ [_; _]).
      simpl. rewrite <- app_assoc. reflexivity.
Qed.

Lemma retry_loop_never_empty {A} (fuel : nat)
    (fetch : nat -> Fetch.FetchOutcome A) (calls : nat) (rc : Z)
    (papers ps : list A) (log log' : list Fetch.FetchEvent) :
  rc < Fetch.max_retries ->
  Fetch.retry_loop fuel fetch calls rc papers log = (Fetch.Fetched ps, log') ->
  ps <> [] /\ exists n, fetch n = Fetch.Returns ps.
Proof.
  revert calls rc papers log.
  induction fuel as [|fuel IH]; intros calls rc papers log Hrc; simpl;
    [discriminate|].
  destruct (rc <? Fetch.max_retries) eqn:Hlt;
    [|apply Z.ltb_ge in Hlt; lia].
  destruct (fetch calls) as [qs | e] eqn:Hf.
  - destruct (nonempty qs) eqn:Hne.
    + intros [= <- <-]. split; [destruct qs; discriminate | eauto].
    + intros Hrec. apply IH in Hrec; [exact Hrec | exact Hrc].
  - destruct (rc + 1 >=? Fetch.max_retries) eqn:Hge; [discriminate|].
    intros Hrec. apply IH in Hrec; [exact Hrec|].
    destruct (Z.geb_spec (rc + 1) Fetch.max_retries); [discriminate | lia].
Qed.

Lemma retry_loop_events {A} (fuel : nat) (fetch : nat -> Fetch.FetchOutcome A)
    (calls : nat) (rc : Z) (papers : list A) :
  0 <= rc ->
  let log := snd (Fetch.retry_loop fuel fetch calls rc papers []) in
  (length (List.filter is_sleep log) <= Z.to_nat (2 - rc))%nat
  /\ (length (List.filter is_attempt log) <= fuel)%nat
  /\ Forall (fun e => e = Fetch.Attempt \/ e = Fetch.Sleep 60) log.
Proof.
  revert calls rc papers.
  induction fuel as [|fuel IH]; intros calls rc papers Hrc; simpl.
  - split; [lia|]. split; [lia | constructor].
  - destruct (rc <? Fetch.max_retries) eqn:Hlt; simpl;
      [|split; [lia|]; split; [lia | constructor]].
    apply Z.ltb_lt in Hlt. unfold Fetch.max_retries in *.
    destruct (fetch calls) as [ps | e].
    + destruct (nonempty ps); simpl.
      * split; [lia|]. split; [lia|]. repeat constructor.
      * rewrite retry_loop_log. simpl.
        destruct (IH (S calls) rc ps Hrc) as (Hs & Ha & Hall).
        split; [exact Hs|]. split; [lia|].
        constructor; [left; reflexivity | exact Hall].
    + destruct (rc + 1 >=? 3) eqn:Hge; simpl.
      * split; [lia|]. split; [lia|]. repeat constructor.
      * destruct (Z.geb_spec (rc + 1) 3) as [|Hlt']; [discriminate|].
        rewrite retry_loop_log. simpl.
        destruct (IH (S calls) (rc + 1) papers ltac:(lia)) as (Hs & Ha & Hall).
        split; [lia|]. split; [lia|].
        constructor; [left; reflexivity|].
        constructor; [right; reflexivity | exact Hall].
Qed.

Lemma retry_loop_ends {A} (fuel : nat) (fetch : nat -> Fetch.FetchOutcome A)
    (calls : nat) (rc : Z) (papers : list A) :
  (forall n, fetch n <> Fetch.Returns []) ->
  0 <= rc < 3 -> (Z.to_nat (3 - rc) <= fuel)%nat ->
  fst (Fetch.retry_loop fuel fetch calls rc papers []) <> Fetch.StillRunning
  /\ (length (List.filter is_attempt
                (snd (Fetch.retry_loop fuel fetch calls rc papers [])))
      <= Z.to_nat (3 - rc))%nat.
Proof.
  intros Hne. revert calls rc papers.
  induction fuel as [|fuel IH]; intros calls rc papers Hrc Hfuel; simpl;
    [lia|].
  destruct (rc <? Fetch.max_retries) eqn:Hlt; simpl;
    [|split; [discriminate | lia]].
  destruct (fetch calls) as [ps | e] eqn:Hf.
  - destruct ps as [|p ps]; [exfalso; eapply Hne; exact Hf|]. simpl.
    split; [discriminate | lia].
  - unfold Fetch.max_retries.
    destruct (rc + 1 >=? 3) eqn:Hge; simpl; [split; [discriminate | lia]|].
    destruct (Z.geb_spec (rc + 1) 3) as [|Hlt']; [discriminate|].
    rewrite retry_loop_log. simpl.
    destruct (IH (S calls) (rc + 1) papers ltac:(lia) ltac:(lia))
      as (Hrun & Hatt).
    split; [exact Hrun | lia].
Qed.

(** X1. When the fetch collaborator raises on every call, the wrapper
    gives up after exactly three attempts separated by two sleeps of 60
    seconds, and propagates the exception of the third attempt. *)
Theorem retry_gives_up_after_three_exceptions (msg : nat -> string)
    (spare : nat) :
  Fetch.fetch_with_retry (3 + spare)
    (fun n => @Fetch.Raises string (msg n))
  = (Fetch.Propagated (msg 2%nat),
     [Fetch.Attempt; Fetch.Sleep 60; Fetch.Attempt; Fetch.Sleep 60;
      Fetch.Attempt]).
Proof. reflexivity. Qed.

(** X2. Whenever the wrapper hands a list of records to the rest of the
    pipeline, that list is not empty and is what one call of the
    collaborator returned. *)
Theorem fetch_with_retry_never_returns_empty {A} (fuel : nat)
    (fetch : nat -> Fetch.FetchOutcome A) (ps : list A)
    (log : list Fetch.FetchEvent)
    (Hexit : Fetch.fetch_with_retry fuel fetch = (Fetch.Fetched ps, log)) :
  ps <> [] /\ exists n, fetch n = Fetch.Returns ps.
Proof.
  unfold Fetch.fetch_with_retry in Hexit.
  eapply retry_loop_never_empty; [|exact Hexit].
  unfold Fetch.max_retries. lia.
Qed.

Lemma fetch_with_retry_never_returns_empty_witness :
  ["a"] <> []
  /\ exists n,
       match n with
       | O => Fetch.Raises "timeout"
       | S _ => Fetch.Returns ["a"]
       end = Fetch.Returns ["a"].
Proof.
  apply (fetch_with_retry_never_returns_empty 2
           (fun n => match n with
                     | O => Fetch.Raises "timeout"
                     | S _ => Fetch.Returns ["a"]
                     end)
           ["a"] [Fetch.Attempt; Fetch.Sleep 60; Fetch.Attempt]).
  reflexivity.
Defined.

(** X3. Whatever the collaborator does and however long the loop runs,
    it sleeps at most twice, every sleep lasts 60 seconds, and it calls the
    collaborator at most once per iteration. *)
Theorem retry_sleeps_at_most_twice {A} (fuel : nat)
    (fetch : nat -> Fetch.FetchOutcome A) :
  let log := snd (Fetch.fetch_with_retry fuel fetch) in
  (length (List.filter is_sleep log) <= 2)%nat
  /\ (length (List.filter is_attempt log) <= fuel)%nat
  /\ Forall (fun e => e = Fetch.Attempt \/ e = Fetch.Sleep 60) log.
Proof.
  unfold Fetch.fetch_with_retry.
  apply (retry_loop_events fuel fetch O 0 []). lia.
Qed.

(** X4. When no call of the collaborator returns the empty list (each one
    raises or returns records), the loop is left within three iterations,
    after at most three calls. *)
Theorem retry_ends_unless_result_empty {A} (spare : nat)
    (fetch : nat -> Fetch.FetchOutcome A)
    (Hnonempty : forall n, fetch n <> Fetch.Returns []) :
  fst (Fetch.fetch_with_retry (3 + spare) fetch) <> Fetch.StillRunning
  /\ (length (List.filter is_attempt
                (snd (Fetch.fetch_with_retry (3 + spare) fetch))) <= 3)%nat.
Proof.
  unfold Fetch.fetch_with_retry.
  apply (retry_loop_ends (3 + spare) fetch O 0 [] Hnonempty); simpl; lia.
Qed.

Lemma retry_ends_unless_result_empty_witness :
  let fetch := fun n : nat =>
    match n with
    | O => Fetch.Raises "timeout"
    | S _ => Fetch.Returns ["a"]
    end in
  fst (Fetch.fetch_with_retry 3 fetch) <> Fetch.StillRunning
  /\ (length (List.filter is_attempt
                (snd (Fetch.fetch_with_retry 3 fetch))) <= 3)%nat.
Proof.
  intros fetch.
  apply (retry_ends_unless_result_empty 0 fetch).
  intros [|n]; discriminate.
Defined.

(* ===================================================================== *)
(** ** Fetch parameters, feed file name, history record                  *)
(* ===================================================================== *)

(** X5. The result cap computed by [compute_fetch_params] is always
    positive: a positive [max_results] of the search settings is taken as it
    is, and otherwise the cap lies between 100 and 1000 whatever the
    recency window and the number of categories are. The recency window
    returned is the one stored back into the configuration. *)
Theorem fetch_max_positive_and_capped (days_since : string -> option Z)
    (settings : Pipeline.SearchSettings) (config : Pipeline.PConfig) :
  let out := Pipeline.compute_fetch_params days_since settings config in
  let max_days := fst (fst out) in
  let fetch_max := snd (fst out) in
  0 < fetch_max
  /\ match Pipeline.settings_max_results settings with
     | Some n => if 0 <? n then fetch_max = n else 100 <= fetch_max <= 1000
     | None => 100 <= fetch_max <= 1000
     end
  /\ Pipeline.max_days_old (snd out) = Some max_days.
Proof.
  unfold Pipeline.compute_fetch_params. cbn zeta. cbn [fst snd].
  split; [|split; [|reflexivity]].
  - destruct (Pipeline.settings_max_results settings) as [n|]; [|lia].
    destruct (Z.ltb_spec 0 n); lia.
  - destruct (Pipeline.settings_max_results settings) as [n|]; [|lia].
    destruct (Z.ltb_spec 0 n); lia.
Qed.

(** X6. When the search settings carry a start date, the recency window
    does not depend on their [max_days_old]: it is at least one day when the
    date parses, and the configured value (30 by default) when it does not,
    even if the settings hold a valid [max_days_old]. *)
Theorem start_date_shadows_max_days_old (days_since : string -> option Z)
    (settings : Pipeline.SearchSettings) (config : Pipeline.PConfig)
    (m : option Z)
    (Hdate : truthy_opt (Pipeline.start_date settings) = true) :
  let max_days :=
    fst (fst (Pipeline.compute_fetch_params days_since settings config)) in
  fst (fst (Pipeline.compute_fetch_params days_since
              (with_settings_max_days_old m settings) config)) = max_days
  /\ match days_since (default "" (Pipeline.start_date settings)) with
     | Some days => max_days = Z.max 1 days /\ 1 <= max_days
     | None => max_days = default 30 (Pipeline.max_days_old config)
     end.
Proof.
  unfold Pipeline.compute_fetch_params, with_settings_max_days_old.
  cbn zeta. cbn [fst snd Pipeline.start_date]. rewrite Hdate.
  split; [reflexivity|].
  destruct (days_since _); [split; [reflexivity | lia] | reflexivity].
Qed.

Lemma start_date_shadows_max_days_old_witness :
  let days_since := fun _ : string => @None Z in
  let settings := Pipeline.mkSearchSettings (Some "30-06-2024") (Some 7)
                    None None in
  let config := Pipeline.mkPConfig (Some ["graph"]) (Some 14) None None None
                  None None None in
  fst (fst (Pipeline.compute_fetch_params days_since
              (with_settings_max_days_old None settings) config)) = 14
  /\ fst (fst (Pipeline.compute_fetch_params days_since settings config)) = 14.
Proof.
  intros days_since settings config.
  destruct (start_date_shadows_max_days_old days_since settings config None)
    as [Hsame Hval]; [reflexivity|].
  split; [rewrite Hsame|]; exact Hval.
Defined.

Lemma words_nonempty (s : string) :
  Forall (fun w => PyStr.truthy w = true) (Pipeline.words s).
Proof.
  induction s as [|c r IH]; [constructor|]. simpl.
  destruct (PyStr.is_space c); [exact IH|].
  destruct r as [|c' r']; [repeat constructor|].
  destruct (PyStr.is_space c'); [constructor; [reflexivity | exact IH]|].
  destruct (Pipeline.words (String c' r')) as [|w ws];
    [repeat constructor|].
  inversion IH; subst. constructor; [reflexivity | assumption].
Qed.

Lemma words_ascii (s : string) :
  all_chars PyStr.is_ascii s = true ->
  Forall (fun w => all_chars PyStr.is_ascii w = true) (Pipeline.words s).
Proof.
  induction s as [|c r IH]; [constructor|].
  intros Hs. cbn [all_chars] in Hs. apply andb_prop in Hs as [Hc Hr].
  specialize (IH Hr). cbn [Pipeline.words].
  destruct (PyStr.is_space c); [exact IH|].
  assert (Hone : all_chars PyStr.is_ascii (String c EmptyString) = true)
    by (cbn [all_chars]; rewrite Hc; reflexivity).
  destruct r as [|c' r']; [repeat constructor; exact Hone|].
  destruct (PyStr.is_space c'); [constructor; [exact Hone | exact IH]|].
  destruct (Pipeline.words (String c' r')) as [|w ws];
    [repeat constructor; exact Hone|].
  inversion IH; subst. constructor; [|assumption].
  cbn [all_chars]. rewrite Hc. assumption.
Qed.

Lemma upper_char_not_lower (c : ascii) :
  PyStr.is_lower (PyStr.upper_char c) = false.
Proof. destruct c as [[] [] [] [] [] [] [] []]; reflexivity. Qed.

Lemma item0_ascii (c : ascii) (w : string) :
  PyStr.is_ascii c = true -> PyStr.item0 (String c w) = String c EmptyString.
Proof.
  intros Hc. unfold PyStr.item0, PyStr.utf8_width.
  unfold PyStr.is_ascii in Hc.
  assert (Hlt : Nat.ltb (nat_of_ascii c) 192 = true).
  { apply Nat.ltb_lt. apply Nat.ltb_lt in Hc. lia. }
  rewrite Hlt. reflexivity.
Qed.

Lemma initials_joined {U : PyUnicode} (ws : list string) :
  (forall c, PyStr.is_ascii c = true ->
     str_upper (String c EmptyString) = String (PyStr.upper_char c) EmptyString) ->
  Forall (fun w => PyStr.truthy w = true) ws ->
  Forall (fun w => all_chars PyStr.is_ascii w = true) ws ->
  String.length (PyStr.join "" (List.map Pipeline.initial ws)) = length ws
  /\ all_chars (fun c => negb (PyStr.is_lower c))
       (PyStr.join "" (List.map Pipeline.initial ws)) = true.
Proof.
  intros Hupper Hne Hascii.
  induction Hne as [|w ws Hw Hws IH]; [split; reflexivity|].
  inversion Hascii as [|w0 ws0 Hwa Hwsa]; subst.
  destruct w as [|c w]; [discriminate|].
  cbn [all_chars] in Hwa. apply andb_prop in Hwa as [Hc _].
  destruct (IH Hwsa) as [IHlen IHall].
  assert (Hini : Pipeline.initial (String c w)
                 = String (PyStr.upper_char c) EmptyString).
  { unfold Pipeline.initial. rewrite (item0_ascii c w Hc).
    apply Hupper. exact Hc. }
  destruct ws as [|w' ws].
  - cbn [List.map PyStr.join]. rewrite Hini.
    cbn [String.length all_chars length].
    rewrite upper_char_not_lower. split; reflexivity.
  - change (PyStr.join "" (List.map Pipeline.initial (String c w :: w' :: ws)))
      with (Pipeline.initial (String c w)
              +:+ "" +:+ PyStr.join "" (List.map Pipeline.initial (w' :: ws))).
    rewrite Hini.
    change (String (PyStr.upper_char c) EmptyString
              +:+ "" +:+ PyStr.join "" (List.map Pipeline.initial (w' :: ws)))
      with (String (PyStr.upper_char c)
              (PyStr.join "" (List.map Pipeline.initial (w' :: ws)))).
    cbn [String.length all_chars length].
    rewrite upper_char_not_lower. simpl negb. simpl andb.
    split; [f_equal; exact IHlen | exact IHall].
Qed.

(** X7. For a keyword made of ASCII characters, on which [str.upper] is
    the upper-casing of the letters a to z, the abbreviation of the keyword
    in the feed file name has exactly one character per
    whitespace-separated word of the keyword, and none of its characters is
    a lower-case letter. (Outside ASCII the upper-case form of one
    character can be several characters.) *)
Theorem keyword_abbr_one_capital_per_word {U : PyUnicode} (word : string)
    (Hascii : all_chars PyStr.is_ascii word = true)
    (Hupper : forall c, PyStr.is_ascii c = true ->
       str_upper (String c EmptyString)
       = String (PyStr.upper_char c) EmptyString) :
  String.length (Pipeline.keyword_abbr word) = length (Pipeline.words word)
  /\ all_chars (fun c => negb (PyStr.is_lower c))
       (Pipeline.keyword_abbr word) = true.
Proof.
  unfold Pipeline.keyword_abbr.
  assert (Hf : List.filter PyStr.truthy (Pipeline.words word)
               = Pipeline.words word).
  { pose proof (words_nonempty word) as Hall.
    induction Hall as [|w ws Hw _ IH]; [reflexivity|].
    simpl. rewrite Hw, IH. reflexivity. }
  rewrite Hf.
  apply initials_joined;
    [exact Hupper | apply words_nonempty | apply words_ascii; exact Hascii].
Qed.

(** A run of X7: "machine learning" is abbreviated to "ML". *)
Lemma keyword_abbr_one_capital_per_word_witness :
  Pipeline.keyword_abbr (U := ascii_case) "machine learning" = "ML"
  /\ String.length (Pipeline.keyword_abbr (U := ascii_case) "machine learning")
     = length (Pipeline.words "machine learning")
  /\ all_chars (fun c => negb (PyStr.is_lower c))
       (Pipeline.keyword_abbr (U := ascii_case) "machine learning") = true.
Proof.
  split; [reflexivity|].
  apply (keyword_abbr_one_capital_per_word (U := ascii_case)
           "machine learning").
  - reflexivity.
  - intros c _. reflexivity.
Defined.

Lemma history_papers_length (papers : list Pipeline.ProcessedPaper)
    (hps : list Pipeline.HistoryPaper) :
  Pipeline.history_papers papers = Completed hps ->
  length hps = length papers
  /\ List.map (fun hp => Some (Pipeline.hp_title hp)) hps
     = List.map Pipeline.pr_title papers
  /\ List.map (fun hp => Some (Pipeline.hp_id hp)) hps
     = List.map Pipeline.pr_id papers.
Proof.
  revert hps. induction papers as [|p rest IH]; intros hps; simpl.
  - intros [= <-]. repeat split.
  - unfold Pipeline.history_paper.
    destruct (Pipeline.pr_title p) as [t|] eqn:Ht; [|discriminate].
    destruct (Pipeline.pr_id p) as [i|] eqn:Hi; [|discriminate].
    destruct (Pipeline.history_papers rest) as [hps'|]; [|discriminate].
    intros [= <-]. destruct (IH hps' eq_refl) as (Hl & Htit & Hid).
    simpl. rewrite Hl, Htit, Hid. repeat split.
Qed.

Lemma history_record_written_once_other (uuid now : string) (fault : IoFault)
    (config : Pipeline.PConfig) (papers : list Pipeline.ProcessedPaper)
    (output_file : string) (dir : gmap string Pipeline.HistoryFile) :
  forall other, other <> uuid ->
    snd (Pipeline.save_history_record uuid now fault config papers
           output_file dir) !! other = dir !! other.
Proof.
  intros other Hne. unfold Pipeline.save_history_record.
  destruct (negb (default true (Pipeline.history_enabled config)));
    [reflexivity|].
  destruct (Pipeline.history_papers papers); [|reflexivity].
  destruct fault; simpl; try reflexivity;
    apply lookup_insert_ne; congruence.
Qed.

(** X8. [save_history_record] never touches the history file of another
    identifier. When it returns an identifier, that is the fresh one, the
    write went through, and the file under it records exactly the papers it
    was given: their count, and their titles and ids in order. When it
    returns nothing, the file under the fresh identifier is as before, or is
    the remains of a write that failed half way. *)
Theorem history_record_written_once (uuid now : string) (fault : IoFault)
    (config : Pipeline.PConfig) (papers : list Pipeline.ProcessedPaper)
    (output_file : string) (dir : gmap string Pipeline.HistoryFile) :
  let out := Pipeline.save_history_record uuid now fault config papers
               output_file dir in
  (forall other, other <> uuid -> snd out !! other = dir !! other)
  /\ match fst out with
     | Some id =>
         id = uuid /\ fault = NoFault
         /\ exists r,
              snd out !! uuid = Some (Pipeline.HistoryDoc r)
              /\ Pipeline.hr_papers_count r = length papers
              /\ length (Pipeline.hr_papers r) = length papers
              /\ List.map (fun hp => Some (Pipeline.hp_title hp))
                   (Pipeline.hr_papers r)
                 = List.map Pipeline.pr_title papers
              /\ List.map (fun hp => Some (Pipeline.hp_id hp))
                   (Pipeline.hr_papers r)
                 = List.map Pipeline.pr_id papers
     | None =>
         snd out !! uuid = dir !! uuid
         \/ (fault = DumpFails
             /\ snd out !! uuid = Some Pipeline.HistoryGarbage)
     end.
Proof.
  unfold Pipeline.save_history_record.
  destruct (negb (default true (Pipeline.history_enabled config)));
    [simpl; auto|].
  destruct (Pipeline.history_papers papers) as [hps|] eqn:Hps;
    [|simpl; auto].
  apply history_papers_length in Hps as (Hl & Ht & Hi).
  destruct fault; simpl.
  - split; [intros other Hne; apply lookup_insert_ne; congruence|].
    split; [reflexivity|]. split; [reflexivity|].
    eexists. split; [apply lookup_insert_eq|]. simpl. auto.
  - auto.
  - split; [intros other Hne; apply lookup_insert_ne; congruence|].
    right. split; [reflexivity | apply lookup_insert_eq].
Qed.

(* ===================================================================== *)
(** ** A whole run of the pipeline                                       *)
(* ===================================================================== *)

Lemma compute_fetch_params_keeps (days_since : string -> option Z)
    (settings : Pipeline.SearchSettings) (config : Pipeline.PConfig) :
  let config' :=
    snd (Pipeline.compute_fetch_params days_since settings config) in
  Pipeline.email_on_error config' = Pipeline.email_on_error config
  /\ Pipeline.keywords config' = Pipeline.keywords config
  /\ Pipeline.history_enabled config' = Pipeline.history_enabled config
  /\ Pipeline.categories config' = Pipeline.categories config.
Proof.
  unfold Pipeline.compute_fetch_params. cbn zeta. cbn [snd].
  destruct (Pipeline.settings_date_range settings); repeat split.
Qed.

(** X9. A run that ends in failure writes no history record and sends the
    error notification exactly when [email_on_error] is set; a run that
    ends in success sends none, and a success that reports papers reports
    at least one and leaves the history files of other identifiers alone. *)
Theorem pipeline_result_and_effects {U : PyUnicode} {Raw : Type} (fuel : nat)
    (env : Run.PipelineEnv Raw) (config : Pipeline.PConfig)
    (dir : gmap string Pipeline.HistoryFile) (res : Run.PipelineResult)
    (eff : Run.Effects)
    (Hrun : Run.run_pipeline fuel env config dir = Some (res, eff)) :
  match res with
  | Run.Failed e =>
      Run.history_dir eff = dir
      /\ Run.notifications eff
         = if default false (Pipeline.email_on_error config) then [e] else []
  | Run.NothingPassed =>
      Run.history_dir eff = dir /\ Run.notifications eff = []
  | Run.Succeeded n file hid =>
      Run.notifications eff = [] /\ (0 < n)%nat
      /\ (forall other, other <> Run.uuid env ->
            Run.history_dir eff !! other = dir !! other)
  end.
Proof.
  unfold Run.run_pipeline in Hrun.
  destruct (Pipeline.keywords config) as [kws|] eqn:Hk;
    [|injection Hrun as <- <-; simpl; auto].
  pose proof (compute_fetch_params_keeps (Run.days_since env)
                (Run.settings env) config) as (Hmail & _).
  destruct (Pipeline.compute_fetch_params (Run.days_since env)
              (Run.settings env) config) as [[max_days fetch_max] config'].
  simpl in Hmail. rewrite <- Hmail.
  destruct (Fetch.fetch_with_retry fuel
              (Run.fetch_latest_papers env config' fetch_max))
    as [[papers | e |] events]; [| |discriminate].
  - destruct (Run.process_papers env papers config') as [pp | e].
    + destruct pp as [|p pp]; simpl nonempty in Hrun; cbn iota in Hrun.
      * injection Hrun as <- <-. simpl. auto.
      * match type of Hrun with
        | context [Run.generate_rss env ?a ?b ?c ?d] =>
            destruct (Run.generate_rss env a b c d) as [rss | e]
        end.
        -- match type of Hrun with
           | context [Pipeline.save_history_record ?a ?b ?c ?d ?e ?f ?g] =>
               pose proof (history_record_written_once_other a b c d e f g)
                 as Hother;
               destruct (Pipeline.save_history_record a b c d e f g)
                 as [hid dir']
           end.
           injection Hrun as <- <-. simpl in *.
           split; [reflexivity|]. split; [lia | exact Hother].
        -- injection Hrun as <- <-. simpl. auto.
    + injection Hrun as <- <-. simpl. auto.
  - injection Hrun as <- <-. simpl. auto.
Qed.

Section OnPipelineResultAndEffectsWitness.
#[local] Existing Instance ascii_case.

Lemma pipeline_result_and_effects_witness :
  match Run.run_pipeline 3
          (TestRun.env (fun _ => Fetch.Returns ["raw"]) DumpFails)
          TestRun.config0 ∅ with
  | Some (Run.Succeeded n file hid, eff) =>
      Run.notifications eff = [] /\ (0 < n)%nat
      /\ (forall other, other <> "0000-0001" ->
            Run.history_dir eff !! other = (∅ : gmap string _) !! other)
  | _ => False
  end.
Proof.
  destruct (Run.run_pipeline 3
              (TestRun.env (fun _ => Fetch.Returns ["raw"]) DumpFails)
              TestRun.config0 ∅) as [[res eff]|] eqn:Hrun;
    [|vm_compute in Hrun; discriminate Hrun].
  pose proof (pipeline_result_and_effects 3 _ _ _ res eff Hrun) as H.
  destruct res as [n file hid | | e];
    [exact H | vm_compute in Hrun; discriminate Hrun
    | vm_compute in Hrun; discriminate Hrun].
Defined.

End OnPipelineResultAndEffectsWitness.

(** X10. Whether the history record can be written has no influence on
    the outcome of a run: with any fate of that write the run ends the same
    way, reports the same count and the same feed file, makes the same
    fetch attempts and sends the same notifications; only the history
    identifier in the result can differ. *)
Theorem history_write_cannot_fail_run {U : PyUnicode} {Raw : Type} (fuel : nat)
    (env : Run.PipelineEnv Raw) (config : Pipeline.PConfig)
    (dir : gmap string Pipeline.HistoryFile) (fault : IoFault) :
  match Run.run_pipeline fuel env config dir,
        Run.run_pipeline fuel (with_history_fault fault env) config dir with
  | Some (r1, e1), Some (r2, e2) =>
      forget_history_id r1 = forget_history_id r2
      /\ Run.notifications e1 = Run.notifications e2
      /\ Run.fetch_events e1 = Run.fetch_events e2
  | None, None => True
  | _, _ => False
  end.
Proof.
  unfold Run.run_pipeline. cbn [with_history_fault Run.settings Run.days_since
    Run.fetch_latest_papers Run.process_papers Run.generate_rss Run.date_str
    Run.time_str Run.uuid Run.now Run.history_fault Run.output_dir].
  destruct (Pipeline.keywords config) as [kws|]; [|simpl; auto].
  destruct (Pipeline.compute_fetch_params (Run.days_since env)
              (Run.settings env) config) as [[max_days fetch_max] config'].
  destruct (Fetch.fetch_with_retry fuel
              (Run.fetch_latest_papers env config' fetch_max))
    as [[papers | e |] events]; [|simpl; auto | exact I].
  destruct (Run.process_papers env papers config') as [pp | e];
    [|simpl; auto].
  destruct (nonempty pp); [|simpl; auto].
  match goal with
  | |- context [Run.generate_rss env ?a ?b ?c ?d] =>
      destruct (Run.generate_rss env a b c d) as [rss | e]
  end; [|simpl; auto].
  match goal with
  | |- context [Pipeline.save_history_record ?a ?b (Run.history_fault env)
                  ?d ?e ?f ?g] =>
      destruct (Pipeline.save_history_record a b (Run.history_fault env)
                  d e f g) as [hid1 dir1];
      destruct (Pipeline.save_history_record a b fault d e f g)
        as [hid2 dir2]
  end.
  simpl. auto.
Qed.

Lemma retry_loop_all_empty {A} (fuel : nat)
    (fetch : nat -> Fetch.FetchOutcome A) (calls : nat) (papers : list A)
    (log : list Fetch.FetchEvent) :
  (forall n, fetch n = Fetch.Returns []) ->
  fst (Fetch.retry_loop fuel fetch calls 0 papers log) = Fetch.StillRunning.
Proof.
  intros Hempty. revert calls papers log.
  induction fuel as [|fuel IH]; intros calls papers log; [reflexivity|].
  simpl. rewrite Hempty. simpl. apply IH.
Qed.

(** X11. When the configuration has keywords and the upstream fetch keeps
    returning an empty list without raising, [run_pipeline] never gets past
    its retry loop: no number of iterations yields a result, so the
    "No papers passed filters" outcome is not reached this way. *)
Theorem pipeline_stuck_on_empty_upstream {U : PyUnicode} {Raw : Type}
    (env : Run.PipelineEnv Raw) (config : Pipeline.PConfig)
    (dir : gmap string Pipeline.HistoryFile) (kws : list string)
    (Hkws : Pipeline.keywords config = Some kws)
    (Hempty : forall c m n,
        Run.fetch_latest_papers env c m n = Fetch.Returns []) :
  forall fuel, Run.run_pipeline fuel env config dir = None.
Proof.
  intros fuel. unfold Run.run_pipeline. rewrite Hkws.
  destruct (Pipeline.compute_fetch_params (Run.days_since env)
              (Run.settings env) config) as [[max_days fetch_max] config'].
  pose proof (retry_loop_all_empty fuel
                (Run.fetch_latest_papers env config' fetch_max) O [] []
                (Hempty config' fetch_max)) as Hrun.
  unfold Fetch.fetch_with_retry.
  destruct (Fetch.retry_loop fuel _ O 0 [] []) as [exit events].
  simpl in Hrun. rewrite Hrun. reflexivity.
Qed.

Section OnPipelineStuckOnEmptyUpstreamWitness.
#[local] Existing Instance ascii_case.

Lemma pipeline_stuck_on_empty_upstream_witness :
  Run.run_pipeline 7 (TestRun.env (fun _ => Fetch.Returns []) NoFault)
    TestRun.config0 ∅ = None.
Proof.
  apply (pipeline_stuck_on_empty_upstream
           (TestRun.env (fun _ => Fetch.Returns []) NoFault) TestRun.config0
           ∅ ["graph neural network"]).
  - reflexivity.
  - intros c m n. reflexivity.
Defined.

End OnPipelineStuckOnEmptyUpstreamWitness.

(* ===================================================================== *)
(** ** The ledger across calls                                           *)
(* ===================================================================== *)

Lemma run_call_ledger_file {U : PyUnicode} {Remote : Type}
    (api : SinkApi Remote)
    (parsedate_isoformat : string -> option string) (c : Call) (env : Env)
    (w w' : World Remote) (log : list (Paper * Outcome)) :
  run_call api parsedate_isoformat c env w = Some (log, w') ->
  ledger_file w' = ledger_file w
  \/ exists s : gset Guid,
       ledger_of (ledger_file w) ⊆ s
       /\ ledger_file w'
          = snd (save_publish_history
                   (set_published_guids (load_publish_history (ledger_file w)) s)
                   (write_fault w) (ledger_file w)).
Proof.
  destruct c as [limit | fuel]; simpl.
  - destruct (publish_run api parsedate_isoformat limit env w)
      as [[res log0] w0] eqn:Hp.
    intros [= <- <-]. apply publish_run_spec in Hp
      as [(e & _ & _ & ->) | (_ & _ & _ & _ & _ & _ & Hfile & _)];
      [left; reflexivity|].
    right. eexists. split; [|exact Hfile]. apply union_subseteq_r.
  - destruct (backfill_run api parsedate_isoformat fuel env w)
      as [[[res log0] w0]|] eqn:Hb; [|discriminate].
    intros [= <- <-]. apply backfill_run_spec in Hb
      as [(e & _ & _ & ->) | (errs & _ & _ & _ & _ & Hfile & _)];
      [left; reflexivity|].
    right. eexists. split; [|exact Hfile]. apply union_subseteq_r.
Qed.

(** X12. The ledger only grows: after any publish or backfill call
    that returns, every identity that was in the ledger on disk is still in
    it, unless the write was cut short after truncating the file. *)
Theorem ledger_only_grows {U : PyUnicode} {Remote : Type} (api : SinkApi Remote)
    (parsedate_isoformat : string -> option string) (c : Call) (env : Env)
    (w w' : World Remote) (log : list (Paper * Outcome))
    (Hrun : run_call api parsedate_isoformat c env w = Some (log, w'))
    (Hdisk : write_fault w <> DumpFails) :
  ledger_of (ledger_file w) ⊆ ledger_of (ledger_file w').
Proof.
  apply run_call_ledger_file in Hrun as [-> | (s & Hsub & ->)]; [done|].
  destruct (write_fault w); simpl.
  - rewrite ledger_of_saved. exact Hsub.
  - done.
  - contradiction.
Qed.

Section OnLedgerOnlyGrowsWitness.
#[local] Existing Instance ascii_case.

Lemma ledger_only_grows_witness :
  let w := TestSink.world [] prior_ledger NoFault in
  match run_call (TestSink.api 200) TestSink.no_date (PublishCall 30)
          (TestSink.env_of [TestSink.paper_x1]) w with
  | Some (log, w') => ledger_of (ledger_file w) ⊆ ledger_of (ledger_file w')
  | None => False
  end.
Proof.
  intros w.
  destruct (run_call (TestSink.api 200) TestSink.no_date (PublishCall 30)
              (TestSink.env_of [TestSink.paper_x1]) w)
    as [[log w']|] eqn:Hrun.
  - apply (ledger_only_grows (TestSink.api 200) TestSink.no_date
             (PublishCall 30) (TestSink.env_of [TestSink.paper_x1]) w w' log
             Hrun).
    discriminate.
  - vm_compute in Hrun. discriminate Hrun.
Defined.

End OnLedgerOnlyGrowsWitness.

(** X13. A publish or backfill call that reaches the end of its batch
    while the ledger can be written rewrites the ledger file: the new
    document lists every identity of the loaded ledger and every identity
    recorded in the call, each of them once (even when the loaded list had
    duplicates), and keeps the other keys of the document loaded at the
    start. A call that is refused leaves the file as it is. *)
Theorem ledger_rewritten_without_duplicates {U : PyUnicode} {Remote : Type}
    (api : SinkApi Remote) (parsedate_isoformat : string -> option string)
    (env : Env) (w : World Remote)
    (Hsaved : write_fault w = NoFault) :
  (forall limit res log w',
      publish_run api parsedate_isoformat limit env w = (res, log, w') ->
      match res with
      | PublishRefused _ => ledger_file w' = ledger_file w
      | PublishDone _ _ _ =>
          exists guids,
            ledger_file w'
            = FileJson (mkHistory (Some guids)
                          (other_keys (load_publish_history (ledger_file w))))
            /\ NoDup guids
            /\ forall g, g ∈ guids
                 <-> g ∈ ledger_of (ledger_file w) \/ g ∈ delivered_ids log
      end)
  /\ (forall fuel res log w',
      backfill_run api parsedate_isoformat fuel env w = Some (res, log, w') ->
      match res with
      | BackfillRefused _ => ledger_file w' = ledger_file w
      | BackfillDone _ _ _ _ =>
          exists guids,
            ledger_file w'
            = FileJson (mkHistory (Some guids)
                          (other_keys (load_publish_history (ledger_file w))))
            /\ NoDup guids
            /\ forall g, g ∈ guids
                 <-> g ∈ ledger_of (ledger_file w)
                     \/ g ∈ delivered_named_ids log
      end).
Proof.
  split.
  - intros limit res log w' Hrun. apply publish_run_spec in Hrun
      as [(e & -> & _ & ->) | (-> & _ & _ & _ & _ & _ & Hfile & _)];
      [reflexivity|].
    rewrite Hfile, Hsaved. simpl. eexists. split; [reflexivity|].
    split; [apply NoDup_elements|].
    intros g. rewrite elem_of_elements, elem_of_union. tauto.
  - intros fuel res log w' Hrun. apply backfill_run_spec in Hrun
      as [(e & -> & _ & ->) | (errs & -> & _ & _ & _ & Hfile & _)];
      [reflexivity|].
    rewrite Hfile, Hsaved. simpl. eexists. split; [reflexivity|].
    split; [apply NoDup_elements|].
    intros g. rewrite elem_of_elements, elem_of_union. tauto.
Qed.

Section OnLedgerRewrittenWithoutDuplicatesWitness.
#[local] Existing Instance ascii_case.

(** A run of X13: the loaded list holds "old" twice and the call creates
    the record with identity "X". *)
Lemma ledger_rewritten_without_duplicates_witness :
  let w := TestSink.world []
             (FileJson (mkHistory (Some [Some "old"; Some "old"])
                          [("note", "kept")])) NoFault in
  let out := publish_run (TestSink.api 200) TestSink.no_date 30
               (TestSink.env_of [TestSink.paper_x1]) w in
  fst (fst out) = PublishDone true 1 []
  /\ exists guids,
       ledger_file (snd out) = FileJson (mkHistory (Some guids) [("note", "kept")])
       /\ NoDup guids
       /\ forall g, g ∈ guids
            <-> g ∈ ledger_of (ledger_file w)
                \/ g ∈ delivered_ids (snd (fst out)).
Proof.
  intros w out.
  destruct (ledger_rewritten_without_duplicates (TestSink.api 200)
              TestSink.no_date (TestSink.env_of [TestSink.paper_x1]) w)
    as [Hpub _]; [reflexivity|].
  specialize (Hpub 30 (fst (fst out)) (snd (fst out)) (snd out)).
  assert (Hres : fst (fst out) = PublishDone true 1 [])
    by (vm_compute; reflexivity).
  split; [exact Hres|].
  rewrite Hres in Hpub. apply Hpub.
  subst out. destruct (publish_run _ _ _ _ w) as [[res log] w'].
  simpl in Hres. subst res. reflexivity.
Defined.

End OnLedgerRewrittenWithoutDuplicatesWitness.

(* ===================================================================== *)
(** ** Accounting of a publish batch                                     *)
(* ===================================================================== *)

Lemma take_length (n : nat) (s : string) :
  (String.length (PyStr.take n s) <= n)%nat.
Proof.
  revert s. induction n as [|n IH]; intros s; [simpl; lia|].
  destruct s as [|c r]; simpl; [lia|]. specialize (IH r). lia.
Qed.


Section PublishAccounting.
Context {Remote : Type} {U : PyUnicode}.
Variable api : SinkApi Remote.
Variable parsedate_isoformat : string -> option string.
Variable limit : Z.
Variable cfg : Config.
Variable properties_map : PropertiesMap.
Variable title_prop : string.

Lemma publish_body_accounting (paper : Paper) (st st' : PublishState)
    (w w' : World Remote) :
  publish_body api parsedate_isoformat cfg properties_map title_prop
    paper st w = (st', w') ->
  created st <= created st' <= created st + 1
  /\ (Forall error_entry_ok (errors st) -> Forall error_entry_ok (errors st'))
  /\ update_statuses (trace w') = update_statuses (trace w)
  /\ exists o, outcomes st' = outcomes st ++ [(paper, o)].
Proof.
  unfold publish_body. case_bool_decide.
  - intros [= <- <-]. simpl. split; [lia|]. split; [auto|].
    split; [reflexivity | eauto].
  - destruct (extract_authors_and_abstract _) as [authors abstract_text].
    unfold create_page.
    destruct (POST_pages api _ _ (remote w)) as [resp r].
    destruct (status_code resp =? 200) eqn:Hst; intros [= <- <-];
      cbn [created errors outcomes published trace sent].
    + split; [lia|]. split; [auto|].
      split; [|eauto].
      unfold update_statuses. rewrite omap_app. simpl. apply app_nil_r.
    + split; [lia|]. split.
      * intros Hok. apply Forall_app. split; [exact Hok|].
        constructor; [|constructor]. unfold error_entry_ok. split.
        -- apply Z.eqb_neq. exact Hst.
        -- exact (take_length 300 (text resp)).
      * split; [|eauto].
        unfold update_statuses. rewrite omap_app. simpl. apply app_nil_r.
Qed.

Lemma publish_loop_accounting (papers : list Paper) (st st' : PublishState)
    (w w' : World Remote) :
  publish_loop api parsedate_isoformat limit cfg properties_map title_prop
    papers st w = (st', w') ->
  created st' <= Z.max (created st) limit
  /\ (Forall error_entry_ok (errors st) -> Forall error_entry_ok (errors st'))
  /\ update_statuses (trace w') = update_statuses (trace w)
  /\ (exists new rest,
        outcomes st' = outcomes st ++ new
        /\ papers = List.map fst new ++ rest)
  /\ (limit <= created st -> st' = st /\ w' = w).
Proof.
  revert st w. induction papers as [|paper rest IH]; intros st w.
  - simpl. intros [= <- <-]. split; [lia|]. split; [auto|].
    split; [reflexivity|]. split; [|auto].
    exists [], []. rewrite app_nil_r. auto.
  - cbn [publish_loop]. destruct (created st >=? limit) eqn:Hge.
    + intros [= <- <-]. split; [lia|]. split; [auto|].
      split; [reflexivity|]. split; [|auto].
      exists [], (paper :: rest). rewrite app_nil_r. auto.
    + destruct (Z.geb_spec (created st) limit) as [|Hlt]; [discriminate|].
      destruct (publish_body _ _ _ _ _ paper st w) as [st1 w1] eqn:Hbody.
      apply publish_body_accounting in Hbody
        as (Hc1 & He1 & Hu1 & o & Ho1).
      intros Hloop. apply IH in Hloop
        as (Hc & He & Hu & (new & rest' & Hout & Hpapers) & _).
      split; [lia|]. split; [auto|]. split; [congruence|].
      split; [|lia].
      exists ((paper, o) :: new), rest'.
      rewrite Hout, Ho1, <- app_assoc. simpl. rewrite Hpapers. auto.
Qed.

End PublishAccounting.

Lemma publish_run_accounting {U : PyUnicode} {Remote : Type}
    (api : SinkApi Remote)
    (parsedate_isoformat : string -> option string) (limit : Z) (env : Env)
    (w w' : World Remote) (res : PublishResult)
    (log : list (Paper * Outcome)) :
  publish_run api parsedate_isoformat limit env w = (res, log, w') ->
  publish_created res <= Z.max 0 limit
  /\ Forall error_entry_ok (publish_errors res)
  /\ update_statuses (trace w') = update_statuses (trace w)
  /\ (exists rest, rss_papers env = List.map fst log ++ rest)
  /\ (limit <= 0 -> log = []).
Proof.
  unfold publish_run.
  assert (Hrefused : forall e,
    publish_created (PublishRefused e) <= Z.max 0 limit
    /\ Forall error_entry_ok (publish_errors (PublishRefused e))
    /\ update_statuses (trace w) = update_statuses (trace w)
    /\ (exists rest, rss_papers env = List.map fst (@nil (Paper * Outcome)) ++ rest)
    /\ (limit <= 0 -> @nil (Paper * Outcome) = [])).
  { intros e. simpl. split; [lia|]. split; [constructor|].
    split; [reflexivity|]. split; [eauto | auto]. }
  destruct (negb (notion_enabled (config env)));
    [intros [= <- <- <-]; apply Hrefused|].
  destruct (negb (PyStr.truthy (integration_token (config env)))
            || negb (PyStr.truthy (database_id (config env))));
    [intros [= <- <- <-]; apply Hrefused|].
  destruct (negb (truthy_opt (latest_rss env)));
    [intros [= <- <- <-]; apply Hrefused|].
  destruct (negb (nonempty (rss_papers env)));
    [intros [= <- <- <-]; apply Hrefused|].
  clear Hrefused.
  pose proof (get_database_properties_same_disk api
                (integration_token (config env)) (database_id (config env)) w)
    as Hget.
  destruct (get_database_properties _ _ _ w) as [pm0 w1]. simpl in Hget.
  pose proof (ensure_database_properties_same_disk api
                (integration_token (config env)) (database_id (config env))
                pm0 w1) as Hens.
  destruct (ensure_database_properties _ _ _ pm0 w1) as [pm w2].
  simpl in Hens.
  pose proof (same_disk_trans _ _ _ Hget Hens) as (_ & _ & _ & Hus).
  destruct (publish_loop _ _ _ _ _ _ _ _ w2) as [st w3] eqn:Hloop.
  apply publish_loop_accounting in Hloop
    as (Hc & He & Hu & (new & rest & Hout & Hpapers) & Himm).
  simpl in Hc, He, Hout, Himm. subst new.
  intros [= <- <- <-].
  destruct (persist_fields (load_publish_history (ledger_file w2))
              (published st) w3) as (_ & _ & Pt & _).
  simpl. split; [exact Hc|]. split; [apply He; constructor|].
  split; [rewrite Pt; congruence|]. split; [eauto|].
  intros Hlim. destruct (Himm Hlim) as [-> _]. reflexivity.
Qed.

(** X14. A publish call creates at most [limit] entities (none when the
    limit is not positive, in which case no record is even looked at), and
    it walks the feed in order: the records it reached are a prefix of the
    parsed feed. *)
Theorem publish_respects_limit {U : PyUnicode} {Remote : Type}
    (api : SinkApi Remote)
    (parsedate_isoformat : string -> option string) (limit : Z) (env : Env)
    (w w' : World Remote) (res : PublishResult)
    (log : list (Paper * Outcome))
    (Hrun : publish_run api parsedate_isoformat limit env w = (res, log, w')) :
  publish_created res <= Z.max 0 limit
  /\ count_of confirmed_create log <= Z.max 0 limit
  /\ (exists rest, rss_papers env = List.map fst log ++ rest)
  /\ (limit <= 0 -> log = [] /\ create_statuses (trace w')
                                = create_statuses (trace w)).
Proof.
  pose proof (publish_run_accounting _ _ _ _ _ _ _ _ Hrun)
    as (Hc & _ & _ & Hpre & Hzero).
  pose proof (publish_run_spec _ _ _ _ _ _ _ _ Hrun) as Hspec.
  split; [exact Hc|]. split.
  - destruct Hspec as [(e & _ & -> & _) | (Hres & _)].
    + unfold count_of. simpl. lia.
    + rewrite Hres in Hc. exact Hc.
  - split; [exact Hpre|]. intros Hlim. specialize (Hzero Hlim). subst log.
    split; [reflexivity|].
    destruct Hspec as [(e & _ & _ & ->) | (_ & _ & _ & _ & _ & _ & _ & Htr)];
      [reflexivity|].
    rewrite Htr. simpl. apply app_nil_r.
Qed.

Section OnPublishRespectsLimitWitness.
#[local] Existing Instance ascii_case.

Lemma publish_respects_limit_witness :
  let w := TestSink.world [] FileMissing NoFault in
  let out := publish_run (TestSink.api 200) TestSink.no_date 0
               (TestSink.env_of [TestSink.paper_x1; TestSink.paper_foo]) w in
  publish_created (fst (fst out)) <= 0
  /\ snd (fst out) = []
  /\ create_statuses (trace (snd out)) = create_statuses (trace w).
Proof.
  intros w out.
  destruct (publish_respects_limit (TestSink.api 200) TestSink.no_date 0
              (TestSink.env_of [TestSink.paper_x1; TestSink.paper_foo]) w
              (snd out) (fst (fst out)) (snd (fst out)))
    as (Hc & _ & _ & Hzero).
  - subst out. destruct (publish_run _ _ _ _ w) as [[res log] w'].
    reflexivity.
  - destruct Hzero as [Hlog Htr]; [lia|]. auto.
Defined.

End OnPublishRespectsLimitWitness.


Section OnPublishAccountsForEveryRequestWitness.
#[local] Existing Instance ascii_case.


End OnPublishAccountsForEveryRequestWitness.

(* ===================================================================== *)
(** ** Accounting and routing of a backfill batch                        *)
(* ===================================================================== *)


Section BackfillRouting.
Context {Remote : Type} {U : PyUnicode}.
Variable api : SinkApi Remote.
Variable parsedate_isoformat : string -> option string.
Variable cfg : Config.
Variable properties_map : PropertiesMap.
Variable title_prop : string.
Variable page_by_title : gmap string Page.

Lemma backfill_body_routing (paper : Paper) (st st' : BackfillState)
    (w w' : World Remote) :
  backfill_body api parsedate_isoformat cfg properties_map title_prop
    page_by_title paper st w = (st', w') ->
  (Forall error_entry_ok (b_errors st) -> Forall error_entry_ok (b_errors st'))
  /\ exists o,
       b_outcomes st' = b_outcomes st ++ [(paper, o)]
       /\ routed_by_title page_by_title (paper, o)
       /\ update_targets (trace w')
          = update_targets (trace w)
            ++ log_update_targets page_by_title [(paper, o)].
Proof.
  unfold backfill_body, routed_by_title, log_update_targets.
  destruct (page_by_title !! default "" (paper_title paper))
    as [page|] eqn:Hlook.
  - unfold update_page.
    destruct (PATCH_page api _ _ _ (remote w)) as [resp r].
    destruct (status_code resp =? 200) eqn:Hst; intros [= <- <-];
      cbn [b_errors b_outcomes trace sent].
    + split; [auto|]. eexists. split; [reflexivity|].
      cbn [snd fst omap list_omap]. rewrite Hlook. split; [eauto|].
      unfold update_targets. rewrite omap_app. reflexivity.
    + split.
      * intros Hok. apply Forall_app. split; [exact Hok|].
        constructor; [|constructor]. unfold error_entry_ok. split.
        -- apply Z.eqb_neq. exact Hst.
        -- exact (take_length 300 (text resp)).
      * eexists. split; [reflexivity|].
        cbn [snd fst omap list_omap]. rewrite Hlook. split; [eauto|].
        unfold update_targets. rewrite omap_app. reflexivity.
  - unfold create_page.
    destruct (POST_pages api _ _ (remote w)) as [resp r].
    destruct (status_code resp =? 200) eqn:Hst; intros [= <- <-];
      cbn [b_errors b_outcomes trace sent].
    + split; [auto|]. eexists. split; [reflexivity|].
      cbn [snd fst omap list_omap]. split; [exact Hlook|].
      unfold update_targets. rewrite omap_app. simpl. reflexivity.
    + split.
      * intros Hok. apply Forall_app. split; [exact Hok|].
        constructor; [|constructor]. unfold error_entry_ok. split.
        -- apply Z.eqb_neq. exact Hst.
        -- exact (take_length 300 (text resp)).
      * eexists. split; [reflexivity|].
        cbn [snd fst omap list_omap]. split; [exact Hlook|].
        unfold update_targets. rewrite omap_app. simpl. reflexivity.
Qed.

Lemma backfill_loop_routing (papers : list Paper) (st st' : BackfillState)
    (w w' : World Remote) :
  backfill_loop api parsedate_isoformat cfg properties_map title_prop
    page_by_title papers st w = (st', w') ->
  (Forall error_entry_ok (b_errors st) -> Forall error_entry_ok (b_errors st'))
  /\ exists new,
       b_outcomes st' = b_outcomes st ++ new
       /\ List.map fst new = papers
       /\ Forall (routed_by_title page_by_title) new
       /\ update_targets (trace w')
          = update_targets (trace w) ++ log_update_targets page_by_title new.
Proof.
  revert st w. induction papers as [|paper rest IH]; intros st w.
  - simpl. intros [= <- <-]. split; [auto|]. exists [].
    rewrite !app_nil_r. repeat split. constructor.
  - cbn [backfill_loop].
    destruct (backfill_body _ _ _ _ _ _ paper st w) as [st1 w1] eqn:Hbody.
    apply backfill_body_routing in Hbody as (He1 & o & Ho & Hr & Ht).
    intros Hloop. apply IH in Hloop as (He & new & Hout & Hmap & Hall & Htr).
    split; [auto|]. exists ((paper, o) :: new).
    rewrite Hout, Ho, <- app_assoc. split; [reflexivity|].
    cbn [List.map fst]. rewrite Hmap. split; [reflexivity|].
    split; [constructor; assumption|].
    rewrite Htr, Ht, <- app_assoc. f_equal.
    change ((paper, o) :: new) with ([(paper, o)] ++ new).
    unfold log_update_targets. rewrite omap_app. reflexivity.
Qed.

End BackfillRouting.

Lemma backfill_run_routing {U : PyUnicode} {Remote : Type}
    (api : SinkApi Remote)
    (parsedate_isoformat : string -> option string) (fuel : nat) (env : Env)
    (w w' : World Remote) (res : BackfillResult)
    (log : list (Paper * Outcome)) :
  backfill_run api parsedate_isoformat fuel env w = Some (res, log, w') ->
  (exists e, res = BackfillRefused e)
  \/ (List.map fst log = rss_papers env
      /\ (exists s u c errs,
            res = BackfillDone s u c errs /\ Forall error_entry_ok errs)
      /\ exists pages w2 w3,
           query_database_pages api fuel (integration_token (config env))
             (database_id (config env)) w2 = Some (pages, w3)
           /\ Forall (routed_by_title (page_by_title_of pages)) log
           /\ update_targets (trace w')
              = update_targets (trace w3)
                ++ log_update_targets (page_by_title_of pages) log).
Proof.
  unfold backfill_run.
  destruct (negb (notion_enabled (config env)));
    [intros [= <- <- <-]; left; eauto|].
  destruct (negb (PyStr.truthy (integration_token (config env)))
            || negb (PyStr.truthy (database_id (config env))));
    [intros [= <- <- <-]; left; eauto|].
  destruct (negb (truthy_opt (latest_rss env)));
    [intros [= <- <- <-]; left; eauto|].
  destruct (negb (nonempty (rss_papers env)));
    [intros [= <- <- <-]; left; eauto|].
  destruct (get_database_properties _ _ _ w) as [pm0 w1].
  destruct (ensure_database_properties _ _ _ pm0 w1) as [pm w2].
  destruct (query_database_pages _ _ _ _ w2) as [[pages w3]|] eqn:Hq;
    [|discriminate].
  destruct (backfill_loop _ _ _ _ _ _ _ _ w3) as [st w4] eqn:Hloop.
  apply backfill_loop_routing in Hloop
    as (He & new & Hout & Hmap & Hall & Htr).
  simpl in He, Hout. subst new.
  intros [= <- <- <-]. right.
  destruct (persist_fields (load_publish_history (ledger_file w3))
              (b_published st) w4) as (_ & _ & Pt & _).
  split; [exact Hmap|]. split.
  - eexists _, _, _, _. split; [reflexivity|]. apply He. constructor.
  - exists pages, w2, w3. split; [exact Hq|]. split; [exact Hall|].
    rewrite Pt. exact Htr.
Qed.


Section OnBackfillAttemptsEveryRecordWitness.
#[local] Existing Instance ascii_case.


End OnBackfillAttemptsEveryRecordWitness.

(** X17. Backfill decides between update and create by the title alone:
    with the pages listed from the remote database indexed by title, a
    record is sent as an update when some page has exactly its title and as
    a create otherwise, no record is skipped, and the update requests go,
    in order, to the pages that the index holds for those titles. *)
Theorem backfill_routes_by_title {U : PyUnicode} {Remote : Type}
    (api : SinkApi Remote)
    (parsedate_isoformat : string -> option string) (fuel : nat) (env : Env)
    (w w' : World Remote) (log : list (Paper * Outcome))
    (s : bool) (u c : Z) (errs : list ErrorEntry)
    (Hrun : backfill_run api parsedate_isoformat fuel env w
            = Some (BackfillDone s u c errs, log, w')) :
  exists pages w2 w3,
    query_database_pages api fuel (integration_token (config env))
      (database_id (config env)) w2 = Some (pages, w3)
    /\ Forall (routed_by_title (page_by_title_of pages)) log
    /\ update_targets (trace w')
       = update_targets (trace w3)
         ++ log_update_targets (page_by_title_of pages) log.
Proof.
  apply backfill_run_routing in Hrun
    as [(e & He) | (_ & _ & Hrouted)]; [discriminate | exact Hrouted].
Qed.

Section OnBackfillRoutesByTitleWitness.
#[local] Existing Instance ascii_case.

Lemma backfill_routes_by_title_witness :
  let w := TestSink.world [TestSink.page_foo] FileMissing NoFault in
  let env := TestSink.env_of [TestSink.paper_foo; TestSink.paper_x1] in
  match backfill_run (TestSink.api 200) TestSink.no_date 5 env w with
  | Some (BackfillDone s u c errs, log, w') =>
      exists pages w2 w3,
        query_database_pages (TestSink.api 200) 5
          (integration_token (config env)) (database_id (config env)) w2
        = Some (pages, w3)
        /\ Forall (routed_by_title (page_by_title_of pages)) log
        /\ update_targets (trace w')
           = update_targets (trace w3)
             ++ log_update_targets (page_by_title_of pages) log
  | _ => False
  end.
Proof.
  intros w env.
  destruct (backfill_run (TestSink.api 200) TestSink.no_date 5 env w)
    as [[[res log] w']|] eqn:Hrun;
    [|vm_compute in Hrun; discriminate Hrun].
  destruct res as [e | s u c errs];
    [vm_compute in Hrun; discriminate Hrun|].
  exact (backfill_routes_by_title (TestSink.api 200) TestSink.no_date 5
           env w w' log s u c errs Hrun).
Defined.

End OnBackfillRoutesByTitleWitness.

(* ===================================================================== *)
(** ** The index of remote pages by title                                *)
(* ===================================================================== *)

Lemma page_by_title_of_snoc (pages : list Page) (p : Page) :
  page_by_title_of (pages ++ [p])
  = <[get_page_title p := p]> (page_by_title_of pages).
Proof. unfold page_by_title_of. rewrite fold_left_app. reflexivity. Qed.

(** X18. When several pages of the remote database have the same title,
    the index built by backfill keeps the one listed last: looking up a
    title gives the last page of the listing whose title (the concatenated
    plain text of its title-typed property, or the empty string when it
    has none) is exactly that string, and nothing when there is none. *)
Theorem page_index_keeps_last_listed (pages : list Page) (title : string) :
  page_by_title_of pages !! title
  = last (filter (fun p => get_page_title p = title) pages).
Proof.
  induction pages as [|p pages IH] using rev_ind; [reflexivity|].
  rewrite page_by_title_of_snoc, lookup_insert, filter_app, filter_cons.
  rewrite filter_nil.
  destruct (decide (get_page_title p = title)) as [Heq | Hne].
  - rewrite last_snoc. reflexivity.
  - rewrite app_nil_r. exact IH.
Qed.

(* ===================================================================== *)
(** ** The page payload                                                  *)
(* ===================================================================== *)









Section OnPublishRequestOnlySupportedFieldsWitness.
#[local] Existing Instance ascii_case.


End OnPublishRequestOnlySupportedFieldsWitness.

Lemma dict_get_dict_set {V : Type} (k k' : string) (v : V)
    (d : list (string * V)) :
  dict_get k (dict_set k' v d)
  = if String.eqb k k' then Some v else dict_get k d.
Proof.
  induction d as [|[k2 v2] d IH]; simpl.
  - destruct (String.eqb k k'); reflexivity.
  - destruct (String.eqb_spec k' k2) as [<- | Hne]; simpl.
    + destruct (String.eqb k k'); reflexivity.
    + rewrite IH. destruct (String.eqb_spec k k2) as [-> | Hne2].
      * destruct (String.eqb_spec k2 k'); [congruence | reflexivity].
      * reflexivity.
Qed.

Lemma dict_get_set_if (k k' : string) (c : bool) (v : PropValue)
    (d : PageProps) :
  dict_get k (set_if c k' v d)
  = if c && String.eqb k k' then Some v else dict_get k d.
Proof.
  unfold set_if. destruct c; [apply dict_get_dict_set | reflexivity].
Qed.

Lemma dict_get_NoDup {V : Type} (k : string) (v : V) (d : list (string * V)) :
  NoDup (List.map fst d) -> (k, v) ∈ d -> dict_get k d = Some v.
Proof.
  induction d as [|[k2 v2] d IH]; intros Hnd Hin; [inversion Hin|].
  simpl in *. apply NoDup_cons in Hnd as [Hk2 Hnd].
  apply elem_of_cons in Hin as [[= -> ->] | Hin].
  - rewrite String.eqb_refl. reflexivity.
  - destruct (String.eqb_spec k k2) as [-> | Hne]; [|auto].
    exfalso. apply Hk2. apply list_elem_of_fmap. exists (k2, v).
    split; [reflexivity | exact Hin].
Qed.

Lemma find_title_property_spec (pm : PropertiesMap) :
  (find_title_property pm, Some "title") ∈ pm
  \/ (find_title_property pm = "Name"
      /\ forall k t, (k, t) ∈ pm -> t <> Some "title").
Proof.
  induction pm as [|[k t] pm IH]; simpl.
  - right. split; [reflexivity|]. intros k t Hin. inversion Hin.
  - case_bool_decide as Ht.
    + subst t. left. left.
    + destruct IH as [Hin | [Hname Hnone]].
      * left. right. exact Hin.
      * right. split; [exact Hname|].
        intros k' t' [[= -> ->] | Hin]%elem_of_cons; [exact Ht | eauto].
Qed.

Lemma find_title_property_safe (pm : PropertiesMap) :
  NoDup (List.map fst pm) -> title_prop_safe pm (find_title_property pm).
Proof.
  intros Hnd. destruct (find_title_property_spec pm) as [Hin | [Hname _]].
  - left. intros t Ht. unfold has_prop.
    rewrite (dict_get_NoDup _ _ _ Hnd Hin).
    apply String.eqb_neq. congruence.
  - right. exact Hname.
Qed.

Lemma keep_title (pm : PropertiesMap) (tp k' t : string) (c : bool)
    (v : PropValue) (d : PageProps) :
  title_prop_safe pm tp -> t <> "title" -> k' <> "Name" ->
  dict_get tp (set_if (has_prop pm k' t && c) k' v d) = dict_get tp d.
Proof.
  intros Hsafe Ht Hk. rewrite dict_get_set_if.
  destruct (String.eqb_spec tp k') as [-> | Hne].
  - destruct Hsafe as [Hnone | Hname]; [|contradiction].
    rewrite (Hnone t Ht). reflexivity.
  - rewrite andb_false_r. reflexivity.
Qed.

Lemma fill_properties_title (pm : PropertiesMap)
    (title_prop title link desc : string) (authors : list string)
    (abstract_text : string) (pub_dt : option string)
    (matched : list string) (guid : Guid) :
  title_prop_safe pm title_prop ->
  dict_get title_prop
    (fill_properties pm title_prop title link desc authors abstract_text
       pub_dt matched guid) = Some (PVTitle title).
Proof.
  intros Hsafe. unfold fill_properties. cbv zeta.
  assert (Hplain : forall k' t v d,
    t <> "title" -> k' <> "Name" ->
    dict_get title_prop (set_if (has_prop pm k' t) k' v d)
    = dict_get title_prop d).
  { intros k' t v d Ht Hk.
    rewrite <- (andb_true_r (has_prop pm k' t)).
    apply keep_title; assumption. }
  destruct (has_prop pm "category" "multi_select") eqn:Hcat.
  - rewrite dict_get_set_if.
    assert (Hcatkey : String.eqb title_prop "category" = false).
    { apply String.eqb_neq. intros ->.
      destruct Hsafe as [Hnone | Hname]; [|discriminate].
      rewrite Hnone in Hcat; discriminate. }
    rewrite Hcatkey, andb_false_r.
    destruct guid as [g|], pub_dt as [d|], (arxiv_id_of link) as [a|];
      repeat first [ rewrite keep_title by (assumption || discriminate)
                   | rewrite Hplain by discriminate ];
      simpl; rewrite String.eqb_refl; reflexivity.
  - destruct guid as [g|], pub_dt as [d|], (arxiv_id_of link) as [a|];
      repeat first [ rewrite keep_title by (assumption || discriminate)
                   | rewrite Hplain by discriminate ];
      simpl; rewrite String.eqb_refl; reflexivity.
Qed.

(** X21. [find_title_property] returns the first property of the schema
    map whose type is title, or "Name" when there is none. With it, and a
    schema map whose property names are distinct, the payload of a record
    always holds the record's title ("Untitled" when the record has none)
    under the title property: no other field overwrites it. *)
Theorem title_written_under_title_property {U : PyUnicode}
    (parsedate_isoformat : string -> option string) (cfg : Config)
    (pm : PropertiesMap) (paper : Paper)
    (Hdistinct : NoDup (List.map fst pm)) :
  ((find_title_property pm, Some "title") ∈ pm
   \/ (find_title_property pm = "Name"
       /\ forall k t, (k, t) ∈ pm -> t <> Some "title"))
  /\ dict_get (find_title_property pm)
       (build_properties_for_paper parsedate_isoformat cfg pm paper
          (find_title_property pm))
     = Some (PVTitle (default "Untitled" (paper_title paper))).
Proof.
  split; [apply find_title_property_spec|].
  unfold build_properties_for_paper.
  destruct (extract_authors_and_abstract _) as [authors abstract_text].
  apply fill_properties_title, find_title_property_safe, Hdistinct.
Qed.

Section OnTitleWrittenUnderTitlePropertyWitness.
#[local] Existing Instance ascii_case.

Lemma title_written_under_title_property_witness :
  let pm := [("URL", Some "url"); ("Paper", Some "title");
             ("Abstract", Some "rich_text")] in
  ((find_title_property pm, Some "title") ∈ pm
   \/ (find_title_property pm = "Name"
       /\ forall k t, (k, t) ∈ pm -> t <> Some "title"))
  /\ dict_get (find_title_property pm)
       (build_properties_for_paper TestSink.no_date TestSink.cfg pm
          TestSink.paper_x1 (find_title_property pm))
     = Some (PVTitle "First").
Proof.
  intros pm.
  apply (title_written_under_title_property TestSink.no_date TestSink.cfg pm
           TestSink.paper_x1).
  subst pm. simpl. repeat constructor; set_solver.
Defined.

End OnTitleWrittenUnderTitlePropertyWitness.

(* ===================================================================== *)
(** ** What a reconciler sends                                           *)
(* ===================================================================== *)

Lemma patch_need_protocol {Remote : Type} (api : SinkApi Remote)
    (token db : string) (pm pm' : PropertiesMap)
    (need : list (string * string)) (w w' : World Remote) :
  patch_need api token db pm need w = (pm', w') ->
  match need with
  | [] => pm' = pm /\ w' = w
  | _ :: _ =>
      exists st,
        (st <> 200 /\ pm' = pm
         /\ trace w' = trace w ++ [EvPatchSchema need st])
        \/ (st = 200
            /\ exists st2,
                 trace w' = trace w ++ [EvPatchSchema need 200;
                                        EvGetSchema st2]
                 /\ (st2 <> 200 -> pm' = []))
  end.
Proof.
  unfold patch_need. destruct need as [|kt need]; [intros [= <- <-]; auto|].
  destruct (PATCH_database api token db (kt :: need) (remote w))
    as [resp r].
  intros Hrun. exists (status_code resp).
  destruct (status_code resp =? 200) eqn:Hst.
  - apply Z.eqb_eq in Hst. rewrite Hst in *.
    unfold get_database_properties in Hrun. cbn [remote sent] in Hrun.
    destruct (GET_database api token db r) as [resp2 r2].
    right. split; [reflexivity|]. exists (schema_status resp2).
    destruct (negb (schema_status resp2 =? 200)) eqn:Hst2;
      injection Hrun as <- <-; cbn [trace sent]; rewrite <- app_assoc;
      (split; [reflexivity|]).
    + intros _. reflexivity.
    + apply negb_false_iff, Z.eqb_eq in Hst2. intros Hne. contradiction.
  - apply Z.eqb_neq in Hst. injection Hrun as <- <-. left. auto.
Qed.

(** X22. A reconciliation sends at most one schema patch. When nothing
    is missing it sends nothing and returns the map as it is. Otherwise it
    sends one patch with everything that is missing; if the sink rejects it,
    the map given is returned unchanged and nothing else is sent; if the
    sink accepts it, the schema is fetched once more, and should that fetch
    fail the map returned is empty. *)
Theorem reconciler_sends_one_patch {U : PyUnicode} {Remote : Type}
    (api : SinkApi Remote)
    (token db : string) (rc : Reconciler) (pm pm' : PropertiesMap)
    (w w' : World Remote)
    (Hrun : run_reconciler api token db rc pm w = (pm', w')) :
  match need_of rc pm with
  | [] => pm' = pm /\ w' = w
  | _ :: _ =>
      exists st,
        (st <> 200 /\ pm' = pm
         /\ trace w' = trace w ++ [EvPatchSchema (need_of rc pm) st])
        \/ (st = 200
            /\ exists st2,
                 trace w' = trace w ++ [EvPatchSchema (need_of rc pm) 200;
                                        EvGetSchema st2]
                 /\ (st2 <> 200 -> pm' = []))
  end.
Proof.
  destruct rc as [|xml]; simpl in Hrun;
    unfold ensure_database_properties, ensure_properties_from_xml in Hrun;
    apply patch_need_protocol in Hrun; exact Hrun.
Qed.

Section OnReconcilerSendsOnePatchWitness.
#[local] Existing Instance ascii_case.

Lemma reconciler_sends_one_patch_witness :
  let w := TestSink.world [] FileMissing NoFault in
  let out := run_reconciler (TestSink.api 200) "secret" "db" AgainstFixedSet
               TestSink.schema0 w in
  match need_of AgainstFixedSet TestSink.schema0 with
  | [] => fst out = TestSink.schema0 /\ snd out = w
  | _ :: _ =>
      exists st,
        (st <> 200 /\ fst out = TestSink.schema0
         /\ trace (snd out)
            = trace w
              ++ [EvPatchSchema (need_of AgainstFixedSet TestSink.schema0) st])
        \/ (st = 200
            /\ exists st2,
                 trace (snd out)
                 = trace w
                   ++ [EvPatchSchema
                         (need_of AgainstFixedSet TestSink.schema0) 200;
                       EvGetSchema st2]
                 /\ (st2 <> 200 -> fst out = []))
  end.
Proof.
  intros w out.
  apply (reconciler_sends_one_patch (TestSink.api 200) "secret" "db"
           AgainstFixedSet TestSink.schema0 (fst out) w (snd out)).
  subst out. destruct (run_reconciler _ _ _ _ _ w). reflexivity.
Defined.

End OnReconcilerSendsOnePatchWitness.

(** X23. The patch that [ensure_database_properties] sends lists exactly
    the required properties (URL, Authors, Date, Keywords, Abstract,
    ArXiv ID, with their types) that the map lacks or holds with another
    type, in that order. *)
Theorem fixed_need_is_what_is_missing (pm : PropertiesMap) :
  fixed_need pm = List.filter (missing pm) required_properties.
Proof.
  unfold fixed_need, required_properties, need_step, missing.
  cbn [fold_left List.filter fst snd].
  destruct (has_prop pm "URL" "url"), (has_prop pm "Authors" "multi_select"),
    (has_prop pm "Date" "date"), (has_prop pm "Keywords" "multi_select"),
    (has_prop pm "Abstract" "rich_text"), (has_prop pm "ArXiv ID" "rich_text");
    reflexivity.
Qed.

Lemma xml_fold_get {U : PyUnicode} (pm : PropertiesMap) (fields : list string)
    (need : list (string * string)) (k : string) :
  dict_get k (fold_left (xml_need_step pm) fields need)
  = if existsb (String.eqb k) fields && xml_wanted pm k
    then Some (guess_notion_type k) else dict_get k need.
Proof.
  revert need. induction fields as [|f fields IH]; intros need;
    [reflexivity|].
  cbn [fold_left existsb]. rewrite IH.
  assert (Hstep : dict_get k (xml_need_step pm need f)
                  = if xml_wanted pm f && String.eqb k f
                    then Some (guess_notion_type f) else dict_get k need).
  { unfold xml_need_step, xml_wanted.
    destruct (String.eqb (guess_notion_type f) "title"); [reflexivity|].
    destruct (has_prop pm f (guess_notion_type f)); [reflexivity|].
    cbn [negb andb]. rewrite dict_get_dict_set.
    rewrite (String.eqb_sym k f).
    destruct (String.eqb f k) eqn:Hfk; [|reflexivity].
    apply String.eqb_eq in Hfk. subst k. reflexivity. }
  rewrite Hstep. destruct (String.eqb_spec k f) as [-> | Hne].
  - rewrite andb_true_r. simpl orb.
    destruct (existsb (String.eqb f) fields), (xml_wanted pm f); reflexivity.
  - rewrite andb_false_r. reflexivity.
Qed.

Lemma dict_set_keys_NoDup {V : Type} (k : string) (v : V)
    (d : list (string * V)) :
  NoDup (List.map fst d) -> NoDup (List.map fst (dict_set k v d)).
Proof.
  induction d as [|[k2 v2] d IH]; simpl; intros Hnd.
  - constructor; [set_solver | constructor].
  - apply NoDup_cons in Hnd as [Hk2 Hnd].
    destruct (String.eqb_spec k k2) as [-> | Hne]; simpl.
    + constructor; assumption.
    + constructor; [|auto]. intros Hin. apply Hk2.
      apply list_elem_of_fmap in Hin as [[k3 v3] [Heq Hin]]. simpl in Heq.
      subst k3. apply list_elem_of_fmap.
      assert (Hcases : (k2, v3) ∈ d \/ k2 = k).
      { clear -Hin. induction d as [|[k4 v4] d IH]; simpl in Hin.
        - apply elem_of_cons in Hin as [[= -> _] | Hin]; [auto | inversion Hin].
        - destruct (String.eqb_spec k k4) as [-> | Hne4].
          + apply elem_of_cons in Hin as [[= -> _] | Hin]; [auto|].
            left. right. exact Hin.
          + apply elem_of_cons in Hin as [[= -> ->] | Hin]; [left; left|].
            destruct (IH Hin) as [H | H]; [left; right; exact H | auto]. }
      destruct Hcases as [H | H]; [|congruence].
      exists (k2, v3). split; [reflexivity | exact H].
Qed.

Lemma xml_fold_NoDup {U : PyUnicode} (pm : PropertiesMap) (fields : list string)
    (need : list (string * string)) :
  NoDup (List.map fst need) ->
  NoDup (List.map fst (fold_left (xml_need_step pm) fields need)).
Proof.
  revert need. induction fields as [|f fields IH]; intros need Hnd;
    [exact Hnd|].
  cbn [fold_left]. apply IH. unfold xml_need_step.
  destruct (String.eqb (guess_notion_type f) "title"); [exact Hnd|].
  destruct (negb (has_prop pm f (guess_notion_type f))); [|exact Hnd].
  apply dict_set_keys_NoDup, Hnd.
Qed.

(** X24. The patch that [ensure_properties_from_xml] sends asks for a
    property exactly for the field names of the first feed item whose
    guessed type is not title and which the map lacks or holds with another
    type, each with its guessed type; a field name that occurs several
    times is asked for once. A title-typed property is never asked for. *)
Theorem xml_need_is_what_is_missing {U : PyUnicode} (pm : PropertiesMap)
    (xml : option (list string)) (f t : string) :
  let need := xml_need pm (parse_first_item_fields xml) in
  (dict_get f need = Some t
   <-> f ∈ parse_first_item_fields xml
       /\ t = guess_notion_type f /\ t <> "title" /\ has_prop pm f t = false)
  /\ NoDup (List.map fst need).
Proof.
  cbv zeta. split; [|apply xml_fold_NoDup; constructor].
  unfold xml_need. rewrite xml_fold_get. simpl dict_get.
  assert (Hex : existsb (String.eqb f) (parse_first_item_fields xml) = true
                <-> f ∈ parse_first_item_fields xml).
  { rewrite existsb_exists, list_elem_of_In. split.
    - intros (x & Hin & Heq). apply String.eqb_eq in Heq. subst x. exact Hin.
    - intros Hin. exists f. split; [exact Hin | apply String.eqb_refl]. }
  unfold xml_wanted.
  destruct (existsb (String.eqb f) (parse_first_item_fields xml)) eqn:He.
  - destruct (String.eqb_spec (guess_notion_type f) "title") as [Ht | Ht];
      simpl.
    + split; [discriminate|]. intros (_ & -> & Hne & _). contradiction.
    + destruct (has_prop pm f (guess_notion_type f)) eqn:Hh; simpl.
      * split; [discriminate|]. intros (_ & -> & _ & Hno). congruence.
      * split.
        -- intros [= <-]. split; [apply Hex; reflexivity|]. auto.
        -- intros (_ & -> & _). reflexivity.
  - simpl. split; [discriminate|]. intros (Hin & _).
    apply Hex in Hin. discriminate.
Qed.

(* ===================================================================== *)
(** ** The listing of the remote database                                *)
(* ===================================================================== *)

Lemma query_loop_protocol {Remote : Type} (api : SinkApi Remote)
    (fuel : nat) (token db : string) (cursor : option string)
    (pages pages' : list Page) (w w' : World Remote) :
  query_loop api fuel token db cursor pages w = Some (pages', w') ->
  exists st rest,
    trace w' = trace w ++ EvQuery cursor st :: rest
    /\ Forall (fun e => is_follow_up e = true) rest
    /\ Forall (fun e => is_accepted_query e = true)
         (removelast (EvQuery cursor st :: rest))
    /\ (length (EvQuery cursor st :: rest) <= fuel)%nat
    /\ exists added, pages' = pages ++ added.
Proof.
  revert cursor pages w.
  induction fuel as [|fuel IH]; intros cursor pages w; [discriminate|].
  simpl. destruct (POST_query api token db cursor (remote w)) as [resp r].
  destruct (negb (query_status resp =? 200)) eqn:Hst.
  - intros [= <- <-]. exists (query_status resp), []. simpl.
    split; [reflexivity|]. split; [constructor|]. split; [constructor|].
    split; [lia|]. exists []. rewrite app_nil_r. reflexivity.
  - apply negb_false_iff in Hst.
    destruct (query_has_more resp && truthy_opt (query_next_cursor resp))
      eqn:Hmore.
    + intros Hrec. apply IH in Hrec
        as (st & rest & Htr & Hfollow & Hacc & Hlen & added & Hpages).
      exists (query_status resp),
             (EvQuery (query_next_cursor resp) st :: rest).
      simpl in Htr. rewrite <- app_assoc in Htr. simpl in Htr.
      split; [exact Htr|]. split.
      { constructor; [|exact Hfollow].
        apply andb_true_iff in Hmore as [_ Hcur].
        destruct (query_next_cursor resp); [exact Hcur | discriminate]. }
      split.
      { change (removelast (EvQuery cursor (query_status resp)
                            :: EvQuery (query_next_cursor resp) st :: rest))
          with (EvQuery cursor (query_status resp)
                :: removelast (EvQuery (query_next_cursor resp) st :: rest)).
        constructor; [exact Hst | exact Hacc]. }
      split; [simpl in *; lia|].
      exists (default [] (query_results resp) ++ added).
      rewrite Hpages, <- app_assoc. reflexivity.
    + intros [= <- <-]. exists (query_status resp), []. simpl.
      split; [reflexivity|]. split; [constructor|]. split; [constructor|].
      split; [lia|]. eauto.
Qed.

Lemma chained_nonempty (c : option string) (xs : list Exchange) :
  chained c xs -> xs <> [].
Proof. destruct xs; [intros [] | discriminate]. Qed.

Lemma query_loop_exchanges {Remote : Type} (api : SinkApi Remote)
    (fuel : nat) (token db : string) (cursor : option string)
    (pages pages' : list Page) (w w' : World Remote) :
  query_loop api fuel token db cursor pages w = Some (pages', w') ->
  exists xs,
    trace w' = trace w ++ List.map query_event xs
    /\ chained cursor xs
    /\ answered api token db xs (remote w) (remote w')
    /\ pages' = pages ++ gathered xs
    /\ (length xs <= fuel)%nat.
Proof.
  revert cursor pages w.
  induction fuel as [|fuel IH]; intros cursor pages w; [discriminate|].
  cbn [query_loop].
  destruct (POST_query api token db cursor (remote w)) as [resp r] eqn:Hq.
  destruct (query_status resp =? 200) eqn:Hst; cbn [negb].
  - destruct (query_has_more resp && truthy_opt (query_next_cursor resp))
      eqn:Hmore.
    + intros Hrec. apply IH in Hrec
        as (xs & Htr & Hch & Hans & Hpages & Hlen).
      exists ((cursor, resp) :: xs).
      cbn [trace sent remote] in Htr, Hans.
      split; [rewrite Htr, <- app_assoc; reflexivity|].
      split.
      { cbn [chained fst snd]. split; [reflexivity|].
        destruct xs as [|x xs]; [destruct Hch|].
        split; [|exact Hch].
        unfold continues. cbn [snd]. rewrite Hst.
        rewrite <- andb_assoc. exact Hmore. }
      split.
      { cbn [answered fst snd]. rewrite Hq. split; [reflexivity | exact Hans]. }
      split.
      { rewrite Hpages, <- app_assoc. f_equal.
        unfold gathered. cbn [List.filter snd]. rewrite Hst. reflexivity. }
      cbn [length]. lia.
    + intros [= <- <-]. exists [(cursor, resp)].
      split; [reflexivity|].
      split.
      { cbn [chained fst]. split; [reflexivity|].
        unfold continues. cbn [snd]. rewrite Hst.
        rewrite <- andb_assoc. exact Hmore. }
      split.
      { cbn [answered fst snd]. rewrite Hq. split; reflexivity. }
      split.
      { unfold gathered. cbn [List.filter snd]. rewrite Hst.
        cbn [List.map concat]. rewrite app_nil_r. reflexivity. }
      cbn [length]. lia.
  - intros [= <- <-]. exists [(cursor, resp)].
    split; [reflexivity|].
    split.
    { cbn [chained fst]. split; [reflexivity|].
      unfold continues. cbn [snd]. rewrite Hst. reflexivity. }
    split.
    { cbn [answered fst snd]. rewrite Hq. split; reflexivity. }
    split.
    { unfold gathered. cbn [List.filter snd]. rewrite Hst.
      cbn [List.map concat]. rewrite app_nil_r. reflexivity. }
    cbn [length]. lia.
Qed.

(** X25. Listing the remote database follows the cursor protocol. The
    queries sent are a chain of exchanges with the sink: the first query
    carries no cursor; every further query carries the cursor of the
    response before it, which is not empty, and is only sent after a
    response with status 200 that says there is more, so that only the last
    query of a listing can have failed. The pages returned are those of the
    responses with status 200, in order: when the last query fails, the
    pages gathered so far are returned without any error. *)
Theorem listing_follows_cursor_protocol {Remote : Type} (api : SinkApi Remote)
    (fuel : nat) (token db : string) (pages : list Page)
    (w w' : World Remote)
    (Hlist : query_database_pages api fuel token db w = Some (pages, w')) :
  exists xs,
    trace w' = trace w ++ List.map query_event xs
    /\ chained None xs
    /\ answered api token db xs (remote w) (remote w')
    /\ pages = gathered xs
    /\ (length xs <= fuel)%nat
    /\ exists st rest,
         List.map query_event xs = EvQuery None st :: rest
         /\ Forall (fun e => is_follow_up e = true) rest
         /\ Forall (fun e => is_accepted_query e = true)
              (removelast (EvQuery None st :: rest)).
Proof.
  unfold query_database_pages in Hlist.
  pose proof (query_loop_protocol _ _ _ _ _ _ _ _ _ Hlist)
    as (st & rest & Htr0 & Hfollow & Hacc & _).
  apply query_loop_exchanges in Hlist
    as (xs & Htr & Hch & Hans & Hpages & Hlen).
  exists xs. split; [exact Htr|]. split; [exact Hch|].
  split; [exact Hans|]. split; [exact Hpages|]. split; [exact Hlen|].
  exists st, rest. split; [|split; assumption].
  rewrite Htr in Htr0. apply app_inv_head in Htr0. exact Htr0.
Qed.

(** A run of X25: a listing in two queries, the second of which fails;
    the page of the first response is returned. *)
Lemma listing_follows_cursor_protocol_witness :
  let w := TestSink.world [TestSink.page_foo] FileMissing NoFault in
  exists w',
    query_database_pages (TestSink.paged_api 500) 5 "secret" "db" w
    = Some ([TestSink.page_foo], w')
    /\ trace w' = [EvQuery None 200; EvQuery (Some "next") 500]
    /\ exists xs,
         trace w' = trace w ++ List.map query_event xs
         /\ chained None xs
         /\ answered (TestSink.paged_api 500) "secret" "db" xs
              (remote w) (remote w')
         /\ [TestSink.page_foo] = gathered xs
         /\ (length xs <= 5)%nat
         /\ exists st rest,
              List.map query_event xs = EvQuery None st :: rest
              /\ Forall (fun e => is_follow_up e = true) rest
              /\ Forall (fun e => is_accepted_query e = true)
                   (removelast (EvQuery None st :: rest)).
Proof.
  intros w. eexists. split; [vm_compute; reflexivity|].
  split; [reflexivity|].
  apply (listing_follows_cursor_protocol (TestSink.paged_api 500) 5
           "secret" "db" [TestSink.page_foo] w).
  vm_compute. reflexivity.
Defined.

(* ===================================================================== *)
(** ** More on description parsing                                       *)
(* ===================================================================== *)







(* ===================================================================== *)
(** ** Stripping and splitting                                           *)
(* ===================================================================== *)







Lemma all_chars_app (p : ascii -> bool) (s1 s2 : string) :
  all_chars p (s1 +:+ s2) = all_chars p s1 && all_chars p s2.
Proof.
  induction s1 as [|c s1 IH]; [reflexivity|].
  rewrite append_cons. simpl. rewrite IH, andb_assoc. reflexivity.
Qed.













Lemma split1_at_first (sep : ascii) (pre rest : string) :
  all_chars (fun c => negb (Ascii.eqb c sep)) pre = true ->
  PyStr.split1 sep (pre +:+ String sep rest) = [pre; rest].
Proof.
  induction pre as [|c pre IH]; intros Hpre.
  - rewrite append_nil. cbn [PyStr.split1]. rewrite Ascii.eqb_refl.
    reflexivity.
  - cbn [all_chars] in Hpre. apply andb_true_iff in Hpre as [Hc Hpre].
    rewrite append_cons. cbn [PyStr.split1].
    apply negb_true_iff in Hc. rewrite Hc, (IH Hpre). reflexivity.
Qed.

Lemma no_char_not_contained (sep : ascii) (s : string) :
  all_chars (fun c => negb (Ascii.eqb c sep)) s = true ->
  PyStr.contains (String sep "") s = false.
Proof.
  intros Hs. destruct (PyStr.contains (String sep "") s) eqn:Hc;
    [|reflexivity].
  apply contains_spec in Hc as (pre & post & ->).
  rewrite !all_chars_app in Hs. simpl in Hs.
  rewrite Ascii.eqb_refl in Hs. simpl in Hs.
  rewrite andb_false_r in Hs. discriminate.
Qed.

(** X29. [strip_ns] removes a namespace in braces: a tag is cut after its
    first closing brace, so "{namespace}name" becomes "name", and a tag
    without a closing brace is returned as it is. *)
Theorem strip_ns_drops_namespace (before name : string)
    (Hbefore : all_chars (fun c => negb (Ascii.eqb c "}")) before = true) :
  strip_ns (before +:+ "}" +:+ name) = name /\ strip_ns before = before.
Proof.
  unfold strip_ns. split.
  - assert (Hc : PyStr.contains "}" (before +:+ "}" +:+ name) = true).
    { apply contains_spec. exists before, name. reflexivity. }
    rewrite Hc.
    change (before +:+ "}" +:+ name) with (before +:+ String "}" name).
    rewrite split1_at_first by exact Hbefore. reflexivity.
  - rewrite (no_char_not_contained "}" before Hbefore). reflexivity.
Qed.

Lemma strip_ns_drops_namespace_witness :
  strip_ns ("{http://purl.org/dc/elements/1.1/" +:+ "}" +:+ "creator")
  = "creator"
  /\ strip_ns "{http://purl.org/dc/elements/1.1/"
     = "{http://purl.org/dc/elements/1.1/".
Proof.
  apply (strip_ns_drops_namespace "{http://purl.org/dc/elements/1.1/"
           "creator").
  vm_compute. reflexivity.
Defined.
